(** * MOEX ISS client: the paginated history fetch and the batch download

    A shallow embedding of [moex_iss/client.py] ([MOEXClient._make_request],
    [_get_json_data], [get_index_history], [get_historical_data],
    [download_to_csv]), of [moex_iss/indices.py] ([download_index],
    [download_bond_indices], [download_equity_indices]) and of the commands
    of [moex_iss/cli.py] that download or query ([cmd_download],
    [cmd_download_bonds], [cmd_download_equity], [cmd_info]).

    Effects are explicit.  The HTTP server, the clock and the disk are the
    environment; the requests issued, the log lines written and the files
    saved are the state every function threads through.  Python exceptions
    are the [Raise] outcome of a small state-and-error monad.  The loop of
    [get_historical_data] is a function defined by well-founded recursion on
    the rows still missing from the declared total.

    What is taken from outside the repository:
    - the ISS block format: a block has a [columns] list and a [data] list of
      rows as wide as the columns (the code indexes both keys of the history
      block without a guard), and the cursor holds integers;
    - pandas: a [DataFrame] is its column labels and its rows in order,
      [pd.concat(..., ignore_index=True)] of frames over one schema appends
      the rows; [pd.to_datetime] and the sorting algorithm behind
      [sort_values] are a parameter ([Pandas]) constrained by what the pandas
      documentation promises: every [kind] sorts, ['mergesort'] and
      ['stable'] are the only stable ones, missing dates go last;
    - Python's [datetime]: proleptic Gregorian ordinals, as in the standard
      library's own [_ord2ymd]; the time of day is dropped, the only formats
      the code asks for being dates, and [datetime.now()] is one value for
      the length of a call. *)

From Equations Require Import Equations.
From Stdlib Require Import List ZArith String Ascii Lia Permutation Sorted.
From Stdlib Require Import DecimalString ZifyBool.
From stdpp Require Import base gmap strings sorting.
Import ListNotations.

Open Scope string_scope.
Open Scope Z_scope.

(** ** Python values the code handles *)

(** [str(n)] of an integer. *)
Definition str_Z (z : Z) : string := NilZero.string_of_int (Z.to_int z).

Definition str_nat (n : nat) : string := str_Z (Z.of_nat n).

(** ** datetime *)

Module Datetime.

(** A [datetime] is held as its proleptic Gregorian ordinal: day 1 is
    0001-01-01 and [MAXORDINAL] is 9999-12-31. *)
Definition datetime := Z.

Definition MAXORDINAL : Z := 3652059.

Definition valid (d : datetime) : Prop := 1 <= d <= MAXORDINAL.

Definition DI400Y : Z := 146097.
Definition DI100Y : Z := 36524.
Definition DI4Y : Z := 1461.

Definition DAYS_IN_MONTH : list Z :=
  [-1; 31; 28; 31; 30; 31; 30; 31; 31; 30; 31; 30; 31].

Definition DAYS_BEFORE_MONTH : list Z :=
  [-1; 0; 31; 59; 90; 120; 151; 181; 212; 243; 273; 304; 334].

Definition b2z (b : bool) : Z := if b then 1 else 0.

(** The month and the day of day [n] (from 0) of a year: the second half
    of [_ord2ymd]. *)
Definition month_day (n : Z) (leapyear : bool) : Z * Z :=
  let month := Z.shiftr (n + 50) 5 in
  let preceding :=
    nth (Z.to_nat month) DAYS_BEFORE_MONTH 0
    + b2z ((2 <? month) && leapyear) in
  if n <? preceding then
    let month := month - 1 in
    let preceding :=
      preceding
      - (nth (Z.to_nat month) DAYS_IN_MONTH 0
         + b2z ((month =? 2) && leapyear)) in
    (month, n - preceding + 1)
  else (month, n - preceding + 1).

(** [_ord2ymd(n)]: ordinal to (year, month, day). *)
Definition ord2ymd (n0 : Z) : Z * Z * Z :=
  let n := n0 - 1 in
  let n400 := n / DI400Y in
  let n := n mod DI400Y in
  let year := n400 * 400 + 1 in
  let n100 := n / DI100Y in
  let n := n mod DI100Y in
  let n4 := n / DI4Y in
  let n := n mod DI4Y in
  let n1 := n / 365 in
  let n := n mod 365 in
  let year := year + n100 * 100 + n4 * 4 + n1 in
  if (n1 =? 4) || (n100 =? 4) then (year - 1, 12, 31)
  else
    let leapyear := (n1 =? 3) && (negb (n4 =? 24) || (n100 =? 3)) in
    let '(month, day) := month_day n leapyear in
    (year, month, day).

(** One decimal digit, as a character. *)
Definition digit (n : Z) : ascii := ascii_of_N (Z.to_N (48 + n mod 10)).

(** [%02d] and [%04d] on the ranges of a month, a day and a year. *)
Definition fmt02 (n : Z) : string :=
  String (digit (n / 10)) (String (digit n) "").

Definition fmt04 (n : Z) : string :=
  String (digit (n / 1000)) (String (digit (n / 100)) (fmt02 n)).

(** [d.strftime('%Y-%m-%d')]. *)
Definition strftime_Y_m_d (d : datetime) : string :=
  let '(y, m, dd) := ord2ymd d in
  fmt04 y ++ "-" ++ fmt02 m ++ "-" ++ fmt02 dd.

(** [d.strftime('%Y%m%d')]. *)
Definition strftime_Ymd (d : datetime) : string :=
  let '(y, m, dd) := ord2ymd d in
  fmt04 y ++ fmt02 m ++ fmt02 dd.

Definition is_digit (c : ascii) : bool :=
  let n := N_of_ascii c in ((48 <=? n) && (n <=? 57))%N.

Definition is_dash (c : ascii) : bool := (N_of_ascii c =? 45)%N.

(** The canonical form [YYYY-MM-DD]: ten characters, digits around two
    dashes. *)
Definition is_YYYY_MM_DD (s : string) : bool :=
  match list_ascii_of_string s with
  | [y1; y2; y3; y4; s1; m1; m2; s2; d1; d2] =>
      forallb is_digit [y1; y2; y3; y4; m1; m2; d1; d2]
      && is_dash s1 && is_dash s2
  | _ => false
  end.

(** [s.zfill(w)] on a string without sign. *)
Fixpoint zeros (n : nat) (s : string) : string :=
  match n with
  | O => s
  | S n' => zeros n' (String "0" s)
  end.

Definition zfill (w : nat) (s : string) : string :=
  zeros (w - String.length s) s.

Definition in_range (lo hi x : Z) : bool := (lo <=? x) && (x <=? hi).

Lemma forallb_seq_Z (p : Z -> bool) (lo n : Z) :
  forallb (fun k => p (lo + Z.of_nat k)) (seq 0 (Z.to_nat n)) = true ->
  forall x, lo <= x < lo + n -> p x = true.
Proof.
  intros Hall x Hx. rewrite forallb_forall in Hall.
  specialize (Hall (Z.to_nat (x - lo))).
  replace (lo + Z.of_nat (Z.to_nat (x - lo))) with x in Hall by lia.
  apply Hall. apply in_seq. lia.
Qed.

(** The digits [fmt04] and [fmt02] print are those of [%04d] and [%02d] on
    the years, months and days of a [datetime]. *)
Lemma fmt04_zero_padded y :
  1 <= y <= 9999 -> fmt04 y = zfill 4 (NilZero.string_of_int (Z.to_int y)).
Proof.
  intros Hy. apply String.eqb_eq.
  apply (forallb_seq_Z
           (fun y => String.eqb (fmt04 y)
                       (zfill 4 (NilZero.string_of_int (Z.to_int y))))
           1 9999); [vm_compute; reflexivity|lia].
Qed.

Lemma fmt02_zero_padded n :
  1 <= n <= 31 -> fmt02 n = zfill 2 (NilZero.string_of_int (Z.to_int n)).
Proof.
  intros Hn. apply String.eqb_eq.
  apply (forallb_seq_Z
           (fun n => String.eqb (fmt02 n)
                       (zfill 2 (NilZero.string_of_int (Z.to_int n))))
           1 31); [vm_compute; reflexivity|lia].
Qed.

Lemma month_day_range n leapyear :
  0 <= n < 365 ->
  in_range 1 12 (fst (month_day n leapyear))
  && in_range 1 31 (snd (month_day n leapyear)) = true.
Proof.
  intros Hn.
  apply (forallb_seq_Z
           (fun n => in_range 1 12 (fst (month_day n leapyear))
                     && in_range 1 31 (snd (month_day n leapyear)))
           0 365); [|lia].
  destruct leapyear; vm_compute; reflexivity.
Qed.

(** A [datetime] has a year of four digits, a month and a day. *)
Lemma ord2ymd_range d :
  valid d ->
  let '(y, m, dd) := ord2ymd d in
  1 <= y <= 9999 /\ 1 <= m <= 12 /\ 1 <= dd <= 31.
Proof.
  unfold valid, MAXORDINAL, ord2ymd, DI400Y, DI100Y, DI4Y. intros Hd.
  cbv zeta.
  set (n400 := (d - 1) / 146097).
  set (r400 := (d - 1) mod 146097).
  set (n100 := r400 / 36524).
  set (r100 := r400 mod 36524).
  set (n4 := r100 / 1461).
  set (r4 := r100 mod 1461).
  set (n1 := r4 / 365).
  set (r1 := r4 mod 365).
  assert (Hyear : 1 <= n400 * 400 + 1 + n100 * 100 + n4 * 4 + n1 <= 10000
                  /\ (n1 <> 4 -> n100 <> 4 ->
                      n400 * 400 + 1 + n100 * 100 + n4 * 4 + n1 <= 9999)
                  /\ 0 <= r1 < 365
                  /\ 0 <= n400 /\ 0 <= n100 /\ 0 <= n4 /\ 0 <= n1).
  { subst n400 r400 n100 r100 n4 r4 n1 r1.
    Z.div_mod_to_equations. lia. }
  destruct Hyear as (Hy & Hy' & Hr & Hpos).
  clearbody n400 r400 n100 r100 n4 r4 n1 r1.
  destruct ((n1 =? 4) || (n100 =? 4)) eqn:Hlast.
  - cbv iota. lia.
  - pose proof (month_day_range r1
                  ((n1 =? 3) && (negb (n4 =? 24) || (n100 =? 3))) Hr) as Hmd.
    destruct (month_day r1 _) as [m dd]. unfold in_range in Hmd.
    simpl in Hmd. lia.
Qed.

Lemma digit_is_digit n : is_digit (digit n) = true.
Proof.
  unfold is_digit, digit. rewrite N_ascii_embedding.
  - pose proof (Z.mod_pos_bound n 10). lia.
  - pose proof (Z.mod_pos_bound n 10). lia.
Qed.

(** Whatever the date, [strftime('%Y-%m-%d')] prints the canonical form. *)
Lemma strftime_is_YYYY_MM_DD d : is_YYYY_MM_DD (strftime_Y_m_d d) = true.
Proof.
  unfold strftime_Y_m_d. destruct (ord2ymd d) as [[y m] dd].
  cbv -[digit is_digit Z.div]. rewrite !digit_is_digit. reflexivity.
Qed.

End Datetime.

Import Datetime.

(** ** Exceptions and outcomes *)

Inductive exn_class :=
| ConnectionError | Timeout | HTTPError   (* requests.exceptions.RequestException *)
| JSONDecodeError                         (* raised by [response.json()] *)
| IndexError | OverflowError | ValueError | OSError.

Record exn := { exn_cls : exn_class; exn_msg : string }.

(** [isinstance(e, requests.exceptions.RequestException)] for what
    [session.get] and [raise_for_status] raise. *)
Definition is_RequestException (e : exn) : bool :=
  match exn_cls e with
  | ConnectionError | Timeout | HTTPError => true
  | _ => false
  end.

Inductive result (A : Type) :=
| Ok (a : A)
| Raise (e : exn).

Arguments Ok {A} a.
Arguments Raise {A} e.

(** ** The ISS document and the pandas frame *)

(** A [pd.Timestamp], or [NaT]. *)
Inductive timestamp :=
| Ts (ns : Z)
| NaT.

(** A cell: JSON null, a JSON number kept as its lexeme, a JSON string, or,
    once [pd.to_datetime] has run, a timestamp. *)
Inductive value :=
| JNull
| JNum (lexeme : string)
| JStr (s : string)
| Timestamp (t : timestamp).

Definition row := list value.

Record block := { columns : list string; data : list row }.

(** The decoded body of one response: the [history] block and the
    [history.cursor] block, either of which may be missing; the cursor block
    may lack its [data] key (the code reads it with [.get]). *)
Record iss_document := {
  history : option block;
  history_cursor : option (option (list (list Z)))
}.

Record DataFrame := { df_columns : list string; df_rows : list row }.

(** [pd.DataFrame()]. *)
Definition empty_frame : DataFrame := {| df_columns := []; df_rows := [] |}.

(** [pd.DataFrame(b['data'], columns=b['columns'])]. *)
Definition frame_of_block (b : block) : DataFrame :=
  {| df_columns := columns b; df_rows := data b |}.

(** [len(df)]. *)
Definition len (df : DataFrame) : nat := length (df_rows df).

(** [df.empty]: some axis has length 0. *)
Definition df_empty (df : DataFrame) : bool :=
  match df_rows df, df_columns df with
  | _ :: _, _ :: _ => false
  | _, _ => true
  end.

(** [pd.concat([df, more_df], ignore_index=True)] over one schema. *)
Definition concat (df more_df : DataFrame) : DataFrame :=
  {| df_columns := df_columns df; df_rows := df_rows df ++ df_rows more_df |}.

(** Position of a label among the columns. *)
Fixpoint column_index (name : string) (cols : list string) : option nat :=
  match cols with
  | [] => None
  | c :: cols' =>
      if String.eqb name c then Some 0%nat
      else option_map S (column_index name cols')
  end.

(** [df[name]]: the cells of one column, top to bottom. *)
Definition column_values (i : nat) (rows : list row) : list value :=
  map (fun r => nth i r JNull) rows.

(** [row[i] = v]. *)
Fixpoint set_cell (i : nat) (v : value) (r : row) : row :=
  match i, r with
  | _, [] => []
  | O, _ :: r' => v :: r'
  | S i', c :: r' => c :: set_cell i' v r'
  end.

(** [df[name] = series]: each row receives its cell of the new column. *)
Fixpoint assign_column (i : nat) (rows : list row) (series : list value)
  : list row :=
  match rows, series with
  | r :: rows', v :: series' => set_cell i v r :: assign_column i rows' series'
  | _, _ => rows
  end.

(** ** Sorting as pandas does it *)

Inductive sort_kind := quicksort | mergesort | heapsort | stable.

(** The documentation of [sort_values]: "mergesort and stable are the only
    stable algorithms". *)
Definition is_stable_kind (k : sort_kind) : bool :=
  match k with
  | mergesort | stable => true
  | quicksort | heapsort => false
  end.

(** Key order with ties broken by position: an indexer sorted this way is a
    stable argsort of [ks]. *)
Definition lex_le (ks : list Z) (i j : nat) : Prop :=
  nth i ks 0 < nth j ks 0 \/ (nth i ks 0 = nth j ks 0 /\ (i <= j)%nat).

(** What the code uses of pandas and numpy.  [to_datetime] parses a whole
    column and may raise; [argsort] is [ndarray.argsort(kind=...)] on the
    int64 view of a datetime column: every kind returns a permutation of the
    positions that puts the keys in ascending order, and the stable kinds
    keep ties in position order. *)
Class Pandas := {
  to_datetime : list value -> result (list timestamp);
  to_datetime_length : forall vs ts,
    to_datetime vs = Ok ts -> length ts = length vs;
  argsort : sort_kind -> list Z -> list nat;
  argsort_perm : forall k ks, Permutation (argsort k ks) (seq 0 (length ks));
  argsort_sorted : forall k ks,
    Sorted Z.le (map (fun i => nth i ks 0) (argsort k ks));
  argsort_stable : forall k ks,
    is_stable_kind k = true -> StronglySorted (lex_le ks) (argsort k ks)
}.

Definition notna (t : timestamp) : bool :=
  match t with Ts _ => true | NaT => false end.

Definition isna (t : timestamp) : bool := negb (notna t).

Definition asi8 (t : timestamp) : Z :=
  match t with Ts ns => ns | NaT => 0 end.

(** [idx[mask]]: the positions whose key satisfies [p], ascending. *)
Definition positions (p : timestamp -> bool) (keys : list timestamp)
  : list nat :=
  List.filter (fun i => p (nth i keys NaT)) (seq 0 (length keys)).

(** [nargsort(items, kind, ascending=True, na_position='last')]: the non-null
    keys are argsorted, the null ones follow in position order. *)
Definition nargsort `{Pandas} (kind : sort_kind) (keys : list timestamp)
  : list nat :=
  let non_nan_idx := positions notna keys in
  let nan_idx := positions isna keys in
  let non_nans := map (fun i => asi8 (nth i keys NaT)) non_nan_idx in
  map (fun j => nth j non_nan_idx 0%nat) (argsort kind non_nans) ++ nan_idx.

(** [df.take(indexer)]. *)
Definition take (rows : list row) (indexer : list nat) : list row :=
  map (fun i => nth i rows []) indexer.

(** [df.sort_values(by, kind=kind)] on a column already converted. *)
Definition sort_values `{Pandas} (kind : sort_kind) (keys : list timestamp)
  (df : DataFrame) : DataFrame :=
  {| df_columns := df_columns df;
     df_rows := take (df_rows df) (nargsort kind keys) |}.

(** ** Requests, the environment and the state *)

(** The query-string dictionary [params]. *)
Record params := {
  p_from : string;
  p_till : string;
  p_interval : Z;
  p_start : nat;
  p_lang : option string
}.

Record request := { req_url : string; req_params : params }.

Record response := {
  status_code : Z;
  reason : string;
  body : option iss_document   (* [None]: the body is not JSON *)
}.

(** What [session.get] does with one request: it raises, or a response
    arrives. *)
Inductive http_outcome :=
| NetFail (e : exn)
| Arrives (r : response).

(** The server answers a request knowing the requests that came before. *)
Definition http_server := list request -> request -> http_outcome.

Inductive level := INFO | WARNING | ERROR.

Record log_record := { lvl : level; message : string }.

Record state := {
  trace : list request;                 (* requests issued, oldest first *)
  logs : list log_record;               (* log lines, oldest first *)
  files : list (string * DataFrame)     (* CSV files written *)
}.

Definition initial_state : state := {| trace := []; logs := []; files := [] |}.

(** ** The state-and-error monad *)

Definition M (A : Type) : Type := state -> result A * state.

Definition ret {A} (a : A) : M A := fun st => (Ok a, st).

Definition raise {A} (e : exn) : M A := fun st => (Raise e, st).

Definition bind {A B} (m : M A) (f : A -> M B) : M B :=
  fun st =>
    match m st with
    | (Ok a, st') => f a st'
    | (Raise e, st') => (Raise e, st')
    end.

(** A computation that only returns or raises. *)
Definition lift {A} (r : result A) : M A := fun st => (r, st).

(** [try: m except Exception as e: h e]. *)
Definition try_except {A} (m : M A) (h : exn -> M A) : M A :=
  fun st =>
    match m st with
    | (Ok a, st') => (Ok a, st')
    | (Raise e, st') => h e st'
    end.

Notation "x <- m ;; k" := (bind m (fun x => k))
  (at level 100, m at next level, right associativity).
Notation "m ;;; k" := (bind m (fun _ => k))
  (at level 100, right associativity).

(** [logger.info], [logger.warning], [logger.error]. *)
Definition logger (l : level) (msg : string) : M unit :=
  fun st =>
    (Ok tt,
     {| trace := trace st;
        logs := logs st ++ [{| lvl := l; message := msg |}];
        files := files st |}).

(** A value together with the equation that it is what was computed. *)
Definition inspect {A} (a : A) : {b : A | a = b} := exist _ a eq_refl.

(** ** client.py: the accessor and the history fetch *)

Definition HISTORY_URL : string := "http://iss.moex.com/iss/history".

Inductive date_arg :=
| DateString (s : string)
| DateObject (d : datetime).

(** [d - timedelta(days=n)]. *)
Definition sub_days (d : datetime) (n : Z) : M datetime :=
  let o := d - n in
  if (0 <? o) && (o <=? MAXORDINAL) then ret o
  else raise {| exn_cls := OverflowError; exn_msg := "date value out of range" |}.

(** The history block of a page when it is there and has rows: the test
    ['history' in d and d['history']['data']]. *)
Definition history_rows (d : iss_document) : option block :=
  match history d with
  | Some b => match data b with [] => None | _ :: _ => Some b end
  | None => None
  end.

(** [data.get('history.cursor', {}).get('data', [[0, 0, 0]])]. *)
Definition cursor_data_of (d : iss_document) : list (list Z) :=
  match history_cursor d with
  | Some (Some rows) => rows
  | Some None | None => [[0; 0; 0]]
  end.

Section Client.

Context `{Pandas}.

(** The server the session talks to, and [datetime.now()]. *)
Variable server : http_server.
Variable now : datetime.

(** [self.session.get(url, params=params, timeout=self.timeout)]. *)
Definition session_get (url : string) (ps : params) : M response :=
  fun st =>
    let r := {| req_url := url; req_params := ps |} in
    let st' := {| trace := trace st ++ [r]; logs := logs st;
                  files := files st |} in
    match server (trace st) r with
    | NetFail e => (Raise e, st')
    | Arrives resp => (Ok resp, st')
    end.

(** [response.raise_for_status()]; of the URL, the message keeps the part
    before the query string. *)
Definition raise_for_status (url : string) (resp : response) : M unit :=
  let http_error kind :=
    raise {| exn_cls := HTTPError;
             exn_msg := str_Z (status_code resp) ++ kind ++ reason resp
                        ++ " for url: " ++ url |} in
  if (400 <=? status_code resp) && (status_code resp <? 500)
  then http_error " Client Error: "
  else if (500 <=? status_code resp) && (status_code resp <? 600)
  then http_error " Server Error: "
  else ret tt.

Definition _make_request (url : string) (ps : params) : M response :=
  let ps :=
    match p_lang ps with
    | None => {| p_from := p_from ps; p_till := p_till ps;
                 p_interval := p_interval ps; p_start := p_start ps;
                 p_lang := Some "ru" |}
    | Some _ => ps
    end in
  try_except
    (resp <- session_get url ps ;;
     raise_for_status url resp ;;;
     ret resp)
    (fun e =>
       if is_RequestException e then
         logger ERROR ("Ошибка запроса к " ++ url ++ ": " ++ exn_msg e) ;;;
         raise e
       else raise e).

Definition _get_json_data (url : string) (ps : params) : M iss_document :=
  resp <- _make_request (url ++ ".json") ps ;;
  match body resp with
  | Some d => ret d
  | None =>
      raise {| exn_cls := JSONDecodeError;
               exn_msg := "Expecting value: line 1 column 1 (char 0)" |}
  end.

(** [params['start'] = n]. *)
Definition set_start (ps : params) (n : nat) : params :=
  {| p_from := p_from ps; p_till := p_till ps; p_interval := p_interval ps;
     p_start := n; p_lang := p_lang ps |}.

(** The loop [while len(df) < total_records: ...].  It is defined by
    recursion on the number of rows still missing, which every iteration
    that does not leave the loop decreases. *)
Equations? pagination (url : string) (ps : params) (total_records : Z)
  (df : DataFrame) (st : state) : result DataFrame * state
  by wf (Z.to_nat (total_records - Z.of_nat (len df))) lt :=
pagination url ps total_records df st
  with Z_lt_dec (Z.of_nat (len df)) total_records := {
  | right _ => (Ok df, st)
  | left _ with inspect (_get_json_data url (set_start ps (len df)) st) := {
    | exist _ (Raise e, st') _ => (Raise e, st')
    | exist _ (Ok more_data, st') _ with inspect (history_rows more_data) := {
      | exist _ (Some b) _ =>
          pagination url ps total_records (concat df (frame_of_block b)) st'
      | exist _ None _ => (Ok df, st') } } }.
Proof.
  unfold history_rows in *.
  destruct (history more_data) as [b'|]; [|discriminate].
  destruct (data b') as [|r rs] eqn:Hd; [discriminate|].
  match goal with Hb : Some _ = Some _ |- _ => injection Hb as <- end.
  unfold len, concat, frame_of_block in *. simpl.
  rewrite Hd, length_app. simpl. lia.
Qed.

(** [from_date.strftime('%Y-%m-%d')] when [from_date] is a [datetime],
    the string itself otherwise. *)
Definition date_to_string (a : date_arg) : string :=
  match a with
  | DateObject d => strftime_Y_m_d d
  | DateString s => s
  end.

(** The block "convert the date column": taken when ['TRADEDATE'] is among
    the columns.  [sort_values] is called without [kind], whose default is
    ['quicksort'].  Nothing here touches the state. *)
Definition convert_and_sort (df : DataFrame) : result DataFrame :=
  match column_index "TRADEDATE" (df_columns df) with
  | Some i =>
      match to_datetime (column_values i (df_rows df)) with
      | Raise e => Raise e
      | Ok keys =>
          let df' :=
            {| df_columns := df_columns df;
               df_rows := assign_column i (df_rows df)
                            (map Timestamp keys) |} in
          Ok (sort_values quicksort keys df')
      end
  | None => Ok df
  end.

Definition get_historical_data (engine market board security : string)
  (from_date till_date : option date_arg) (interval : Z) : M DataFrame :=
  from_date <- match from_date with
               | None => d <- sub_days now 30 ;; ret (DateObject d)
               | Some a => ret a
               end ;;
  let till_date := match till_date with
                   | None => DateObject now
                   | Some a => a
                   end in
  let from_date := date_to_string from_date in
  let till_date := date_to_string till_date in
  let url := HISTORY_URL ++ "/engines/" ++ engine ++ "/markets/" ++ market
             ++ "/boards/" ++ board ++ "/securities/" ++ security in
  let ps := {| p_from := from_date; p_till := till_date;
               p_interval := interval; p_start := 0; p_lang := None |} in
  data <- _get_json_data url ps ;;
  match history_rows data with
  | None =>
      logger WARNING ("Нет данных для " ++ security ++ " за период "
                      ++ from_date ++ " — " ++ till_date) ;;;
      ret empty_frame
  | Some b =>
      let df := frame_of_block b in
      df <- match cursor_data_of data with
            | [] => ret df
            | first :: _ =>
                match nth_error first 1 with
                | Some total_records =>
                    pagination url ps total_records df
                | None =>
                    raise {| exn_cls := IndexError;
                             exn_msg := "list index out of range" |}
                end
            end ;;
      df <- lift (convert_and_sort df) ;;
      logger INFO ("Загружено " ++ str_nat (len df) ++ " записей для "
                   ++ security ++ " за период " ++ from_date ++ " — "
                   ++ till_date) ;;;
      ret df
  end.

Definition get_index_history (index_code : string)
  (start_date end_date : option date_arg) (board : string) : M DataFrame :=
  get_historical_data "stock" "index" board index_code
    start_date end_date 24.

End Client.

(** ** A sorting back end that meets the [Pandas] contract *)

Section InsertionSort.

(** Insertion sort of positions under a total, transitive comparison. *)
Variable leb : nat -> nat -> bool.
Hypothesis leb_total : forall a b, leb a b = true \/ leb b a = true.
Hypothesis leb_trans :
  forall a b c, leb a b = true -> leb b c = true -> leb a c = true.

Fixpoint insert_by (x : nat) (l : list nat) : list nat :=
  match l with
  | [] => [x]
  | y :: l' => if leb x y then x :: l else y :: insert_by x l'
  end.

Definition isort (l : list nat) : list nat := fold_right insert_by [] l.

Lemma insert_by_perm x l : Permutation (insert_by x l) (x :: l).
Proof.
  induction l as [|y l IH]; simpl; [reflexivity|].
  destruct (leb x y); [reflexivity|].
  rewrite IH. apply perm_swap.
Qed.

Lemma isort_perm l : Permutation (isort l) l.
Proof.
  induction l as [|x l IH]; simpl; [reflexivity|].
  rewrite insert_by_perm. now apply perm_skip.
Qed.

Lemma insert_by_sorted x l :
  StronglySorted (fun a b => leb a b = true) l ->
  StronglySorted (fun a b => leb a b = true) (insert_by x l).
Proof.
  induction 1 as [|y l Hs IH Hy]; simpl.
  - repeat constructor.
  - destruct (leb x y) eqn:Hxy.
    + constructor; [constructor; assumption|].
      constructor; [assumption|].
      eapply List.Forall_impl; [|exact Hy]. intros c Hc. simpl in Hc.
      eapply leb_trans; eassumption.
    + constructor; [assumption|].
      eapply Permutation_Forall; [symmetry; apply insert_by_perm|].
      constructor; [|assumption].
      destruct (leb_total x y) as [Hc|Hc]; congruence.
Qed.

Lemma isort_sorted l : StronglySorted (fun a b => leb a b = true) (isort l).
Proof.
  induction l as [|x l IH]; simpl; [constructor|].
  now apply insert_by_sorted.
Qed.

End InsertionSort.

(** Ascending keys, ties in position order. *)
Definition leb_stable (ks : list Z) (i j : nat) : bool :=
  (nth i ks 0 <? nth j ks 0)
  || ((nth i ks 0 =? nth j ks 0) && (i <=? j)%nat).

Definition stable_argsort (ks : list Z) : list nat :=
  isort (leb_stable ks) (seq 0 (length ks)).

Lemma leb_stable_total ks a b :
  leb_stable ks a b = true \/ leb_stable ks b a = true.
Proof. unfold leb_stable. lia. Qed.

Lemma leb_stable_trans ks a b c :
  leb_stable ks a b = true -> leb_stable ks b c = true ->
  leb_stable ks a c = true.
Proof. unfold leb_stable. lia. Qed.

Lemma StronglySorted_map_impl {A B} (R : A -> A -> Prop) (R' : B -> B -> Prop)
  (f : A -> B) (l : list A) :
  (forall a b, R a b -> R' (f a) (f b)) ->
  StronglySorted R l -> StronglySorted R' (map f l).
Proof.
  intros HR. induction 1 as [|a l Hs IH Ha]; simpl; constructor; auto.
  apply List.Forall_map. eapply List.Forall_impl; [|exact Ha]. auto.
Qed.

Lemma stable_argsort_perm ks :
  Permutation (stable_argsort ks) (seq 0 (length ks)).
Proof. apply isort_perm. Qed.

Lemma stable_argsort_lex ks : StronglySorted (lex_le ks) (stable_argsort ks).
Proof.
  unfold stable_argsort.
  pose proof (isort_sorted (leb_stable ks) (leb_stable_total ks)
                (leb_stable_trans ks) (seq 0 (length ks))) as Hs.
  rewrite <- (map_id (isort _ _)).
  eapply StronglySorted_map_impl; [|exact Hs].
  unfold leb_stable, lex_le, id. intros a b. lia.
Qed.

Lemma stable_argsort_sorted ks :
  Sorted Z.le (map (fun i => nth i ks 0) (stable_argsort ks)).
Proof.
  apply StronglySorted_Sorted.
  eapply StronglySorted_map_impl; [|apply stable_argsort_lex].
  unfold lex_le. intros a b. lia.
Qed.

(** A date parser for the back end below: ISO dates and nulls. *)
Module IsoDates.

Definition is_leap (year : Z) : bool :=
  (year mod 4 =? 0) && (negb (year mod 100 =? 0) || (year mod 400 =? 0)).

Definition days_in_month (year month : Z) : Z :=
  if (month =? 2) && is_leap year then 29
  else nth (Z.to_nat month) DAYS_IN_MONTH 0.

Definition ymd2ord (year month day : Z) : Z :=
  let y := year - 1 in
  y * 365 + y / 4 - y / 100 + y / 400
  + (nth (Z.to_nat month) DAYS_BEFORE_MONTH 0
     + b2z ((2 <? month) && is_leap year))
  + day.

Definition digit_value (c : ascii) : Z := Z.of_N (N_of_ascii c) - 48.

(** Nanoseconds since 1970-01-01 of the midnight of an ISO date. *)
Definition parse_iso (s : string) : option Z :=
  match list_ascii_of_string s with
  | [y1; y2; y3; y4; _; m1; m2; _; d1; d2] =>
      let y := digit_value y1 * 1000 + digit_value y2 * 100
               + digit_value y3 * 10 + digit_value y4 in
      let m := digit_value m1 * 10 + digit_value m2 in
      let d := digit_value d1 * 10 + digit_value d2 in
      if is_YYYY_MM_DD s && (1 <=? y) && (1 <=? m) && (m <=? 12)
         && (1 <=? d) && (d <=? days_in_month y m)
      then Some ((ymd2ord y m d - 719163) * 86400000000000)
      else None
  | _ => None
  end.

Definition parse_cell (v : value) : result timestamp :=
  match v with
  | JNull => Ok NaT
  | Timestamp t => Ok t
  | JStr s =>
      match parse_iso s with
      | Some ns => Ok (Ts ns)
      | None =>
          Raise {| exn_cls := ValueError;
                   exn_msg := "Unknown datetime string format" |}
      end
  | JNum _ =>
      Raise {| exn_cls := ValueError;
               exn_msg := "Unknown datetime string format" |}
  end.

Fixpoint parse_column (vs : list value) : result (list timestamp) :=
  match vs with
  | [] => Ok []
  | v :: vs' =>
      match parse_cell v with
      | Raise e => Raise e
      | Ok t =>
          match parse_column vs' with
          | Raise e => Raise e
          | Ok ts => Ok (t :: ts)
          end
      end
  end.

Lemma parse_column_length vs ts :
  parse_column vs = Ok ts -> length ts = length vs.
Proof.
  revert ts. induction vs as [|v vs IH]; simpl; intros ts Hp.
  - now injection Hp as <-.
  - destruct (parse_cell v); [|discriminate].
    destruct (parse_column vs) as [ts'|]; [|discriminate].
    injection Hp as <-. simpl. f_equal. now apply IH.
Qed.

End IsoDates.

(** Every kind is the stable insertion sort. *)
Definition stable_pandas : Pandas := {|
  to_datetime := IsoDates.parse_column;
  to_datetime_length := IsoDates.parse_column_length;
  argsort := fun _ => stable_argsort;
  argsort_perm := fun _ => stable_argsort_perm;
  argsort_sorted := fun _ => stable_argsort_sorted;
  argsort_stable := fun _ ks _ => stable_argsort_lex ks
|}.

(** ** indices.py: the registries and the batch download *)

(** The two registries, in source order.  A descriptor is kept as its
    ["board"] entry, the only one the download path reads; every descriptor
    has one. *)
Definition BOND_INDICES : list (string * string) :=
  [("RGBI", "SNDX"); ("RGBITR", "SNDX"); ("RUGBITR1Y", "SNDX");
   ("RUGBITR3Y", "SNDX"); ("RUGBITR5Y", "SNDX"); ("RUGBITR7Y+", "SNDX");
   ("RUGBINFTR", "SNDX"); ("RUCBITR", "SNDX"); ("RUCBTRNS", "SNDX");
   ("RUCBHYTR", "SNDX"); ("RUCBTRAAANS", "SNDX"); ("RUCBTRAANS", "SNDX");
   ("RUCBTRANS", "SNDX"); ("RUCBTRBBBNS", "SNDX"); ("RUMBTRNS", "SNDX");
   ("DOMMBSTR", "SNDX"); ("RUCNYTR", "SNDX"); ("RUEUTR", "SNDX");
   ("RUABITR", "SNDX"); ("RUESGTR", "SNDX"); ("RUGROWTR", "SNDX")].

Definition EQUITY_INDICES : list (string * string) :=
  [("IMOEX", "SNDX"); ("RTSI", "RTSI"); ("MOEX10", "SNDX");
   ("MOEXBC", "SNDX"); ("MOEXBMI", "SNDX"); ("MCXSM", "SNDX");
   ("MOEXOG", "SNDX"); ("MOEXFN", "SNDX"); ("MOEXMM", "SNDX");
   ("MOEXEU", "SNDX"); ("MOEXTL", "SNDX"); ("MOEXTN", "SNDX");
   ("MOEXCH", "SNDX"); ("MOEXCN", "SNDX"); ("MOEXRE", "SNDX");
   ("MOEXIT", "SNDX"); ("MESG", "SNDX"); ("MRRT", "SNDX");
   ("RUCGI", "SNDX"); ("MOEXINN", "SNDX"); ("MIPO", "SNDX")].

(** [registry[code]] when [code in registry]. *)
Fixpoint registry_get (code : string) (registry : list (string * string))
  : option string :=
  match registry with
  | [] => None
  | (c, board) :: registry' =>
      if String.eqb code c then Some board else registry_get code registry'
  end.

(** What the download path asks of the file system. *)
Inductive fs_op :=
| Mkdir (path : string)
| ToCsv (path : string).

(** The disk: an operation goes through, or raises. *)
Definition disk_model := fs_op -> option exn.

(** The date of a timestamp as [.dt.strftime('%Y-%m-%d')] prints it; [NaT]
    becomes a missing value. *)
Definition timestamp_strftime (t : timestamp) : value :=
  match t with
  | Ts ns => JStr (strftime_Y_m_d (719163 + ns / 86400000000000))
  | NaT => JNull
  end.

Section Indices.

Context `{Pandas}.

Variable server : http_server.
Variable now : datetime.
Variable disk : disk_model.

(** [output_path.mkdir(parents=True, exist_ok=True)]. *)
Definition mkdir (path : string) : M unit :=
  fun st =>
    match disk (Mkdir path) with
    | Some e => (Raise e, st)
    | None => (Ok tt, st)
    end.

(** [df.to_csv(filepath, index=False, encoding='utf-8')]. *)
Definition to_csv (df : DataFrame) (path : string) : M unit :=
  fun st =>
    match disk (ToCsv path) with
    | Some e => (Raise e, st)
    | None =>
        (Ok tt,
         {| trace := trace st; logs := logs st;
            files := files st ++ [(path, df)] |})
    end.

(** [df['TRADEDATE'] = pd.to_datetime(df['TRADEDATE']).dt.strftime(...)]
    when the column is there. *)
Definition dates_to_strings (df : DataFrame) : M DataFrame :=
  match column_index "TRADEDATE" (df_columns df) with
  | Some i =>
      match to_datetime (column_values i (df_rows df)) with
      | Raise e => raise e
      | Ok keys =>
          ret {| df_columns := df_columns df;
                 df_rows := assign_column i (df_rows df)
                              (map timestamp_strftime keys) |}
      end
  | None => ret df
  end.

Definition download_index (index_code output_dir : string)
  (start_date end_date : option string) : M (option DataFrame) :=
  let start_date := match start_date with
                    | None => "2010-01-01"
                    | Some s => s
                    end in
  let end_date := match end_date with
                  | None => strftime_Y_m_d now
                  | Some s => s
                  end in
  let board :=
    match registry_get index_code EQUITY_INDICES with
    | Some b => b
    | None =>
        match registry_get index_code BOND_INDICES with
        | Some b => b
        | None => "SNDX"
        end
    end in
  logger INFO ("Загрузка " ++ index_code ++ " за период " ++ start_date
               ++ " — " ++ end_date ++ "...") ;;;
  try_except
    (df <- get_index_history server now index_code
             (Some (DateString start_date)) (Some (DateString end_date))
             board ;;
     if df_empty df then
       logger WARNING ("Нет данных для " ++ index_code) ;;;
       ret None
     else
       mkdir output_dir ;;;
       let date_suffix := strftime_Ymd now in
       let filename := index_code ++ "_" ++ date_suffix ++ ".csv" in
       let filepath := output_dir ++ "/" ++ filename in
       df <- dates_to_strings df ;;
       to_csv df filepath ;;;
       logger INFO ("Сохранено " ++ str_nat (len df) ++ " записей в "
                    ++ filepath) ;;;
       ret (Some df))
    (fun e =>
       logger ERROR ("Ошибка при загрузке " ++ index_code ++ ": "
                     ++ exn_msg e) ;;;
       ret None).

(** [df is not None]. *)
Definition is_not_None (df : option DataFrame) : bool :=
  match df with Some _ => true | None => false end.

(** The loop [for index_code in indices: ...] of both batch functions. *)
Fixpoint download_each (indices : list string) (output_dir : string)
  (start_date end_date : option string) (results : gmap string bool)
  : M (gmap string bool) :=
  match indices with
  | [] => ret results
  | index_code :: indices' =>
      df <- download_index index_code output_dir start_date end_date ;;
      download_each indices' output_dir start_date end_date
        (<[index_code := is_not_None df]> results)
  end.

(** [sum(results.values())]. *)
Definition successful (results : gmap string bool) : nat :=
  length (List.filter (fun kv => snd kv) (map_to_list results)).

Definition download_bond_indices (indices : option (list string))
  (output_dir : string) (start_date end_date : option string)
  : M (gmap string bool) :=
  let indices := match indices with
                 | None => map fst BOND_INDICES
                 | Some l => l
                 end in
  logger INFO ("Начинаем загрузку " ++ str_nat (length indices)
               ++ " индексов облигаций...") ;;;
  results <- download_each indices output_dir start_date end_date ∅ ;;
  logger INFO ("Загрузка завершена: " ++ str_nat (successful results) ++ "/"
               ++ str_nat (length indices) ++ " успешно") ;;;
  ret results.

Definition download_equity_indices (indices : option (list string))
  (output_dir : string) (start_date end_date : option string)
  : M (gmap string bool) :=
  let indices := match indices with
                 | None => map fst EQUITY_INDICES
                 | Some l => l
                 end in
  logger INFO ("Начинаем загрузку " ++ str_nat (length indices)
               ++ " индексов акций...") ;;;
  results <- download_each indices output_dir start_date end_date ∅ ;;
  logger INFO ("Загрузка завершена: " ++ str_nat (successful results) ++ "/"
               ++ str_nat (length indices) ++ " успешно") ;;;
  ret results.

End Indices.

(** ** client.py: saving the history of one index *)

(** [series.dt.strftime('%Y-%m-%d')].  The [.dt] accessor is there on a
    column of timestamps only; [None] stands for the [AttributeError]
    raised on any other column. *)
Fixpoint dt_strftime (vs : list value) : option (list value) :=
  match vs with
  | [] => Some []
  | Timestamp t :: vs' =>
      option_map (cons (timestamp_strftime t)) (dt_strftime vs')
  | _ :: _ => None
  end.

Section SaveOne.

Context `{Pandas}.

Variable server : http_server.
Variable now : datetime.
Variable disk : disk_model.

(** The handler [except Exception as e] sees nothing of an exception but
    its message, so the [AttributeError] of [.dt] goes to it as its
    message. *)
Definition download_to_csv (index_code output_path : string)
  (start_date end_date : option string) (board : string) : M bool :=
  let failed (msg : string) : M bool :=
    logger ERROR ("Ошибка при сохранении " ++ index_code ++ ": " ++ msg) ;;;
    ret false in
  let save (df : DataFrame) : M bool :=
    to_csv disk df output_path ;;;
    logger INFO ("Данные сохранены в " ++ output_path) ;;;
    ret true in
  try_except
    (df <- get_index_history server now index_code
             (option_map DateString start_date)
             (option_map DateString end_date) board ;;
     if df_empty df then
       logger WARNING ("Нет данных для сохранения: " ++ index_code) ;;;
       ret false
     else
       match column_index "TRADEDATE" (df_columns df) with
       | Some i =>
           match dt_strftime (column_values i (df_rows df)) with
           | Some series =>
               save {| df_columns := df_columns df;
                       df_rows := assign_column i (df_rows df) series |}
           | None =>
               failed "Can only use .dt accessor with datetimelike values"
           end
       | None => save df
       end)
    (fun e => failed (exn_msg e)).

End SaveOne.

(** ** indices.py: the registries in full *)

(** A descriptor of the registries. *)
Record descriptor := {
  name_ru : string;
  name_en : string;
  type : string;
  board : string;
  description : string
}.

(** [BOND_INDICES] and [EQUITY_INDICES] with every field, in source
    order. *)
Definition BOND_DESCRIPTORS : list (string * descriptor) :=
  [("RGBI",
    {| name_ru := "Индекс государственных облигаций";
       name_en := "Government Bond Index";
       type := "government"; board := "SNDX";
       description :=
         "Ценовой индекс ОФЗ (без учёта купонов)" |});
   ("RGBITR",
    {| name_ru := "Индекс гособлигаций полной доходности";
       name_en := "Government Bond Total Return Index";
       type := "government"; board := "SNDX";
       description :=
         "Индекс ОФЗ с учётом реинвестирования купонов" |});
   ("RUGBITR1Y",
    {| name_ru := "ОФЗ до 1 года (полная доходность)";
       name_en := "Government Bonds <1Y Total Return";
       type := "government"; board := "SNDX";
       description :=
         "Краткосрочные ОФЗ — низкая чувствительность к ставке" |});
   ("RUGBITR3Y",
    {| name_ru := "ОФЗ 1-3 года (полная доходность)";
       name_en := "Government Bonds 1-3Y Total Return";
       type := "government"; board := "SNDX";
       description :=
         "Среднесрочные ОФЗ" |});
   ("RUGBITR5Y",
    {| name_ru := "ОФЗ 3-5 лет (полная доходность)";
       name_en := "Government Bonds 3-5Y Total Return";
       type := "government"; board := "SNDX";
       description :=
         "Среднесрочные ОФЗ" |});
   ("RUGBITR7Y+",
    {| name_ru := "ОФЗ более 7 лет (полная доходность)";
       name_en := "Government Bonds 7Y+ Total Return";
       type := "government"; board := "SNDX";
       description :=
         "Долгосрочные ОФЗ — высокая чувствительность к ставке" |});
   ("RUGBINFTR",
    {| name_ru := "ОФЗ с защитой от инфляции";
       name_en := "Inflation-Linked Government Bonds TR";
       type := "government"; board := "SNDX";
       description :=
         "Индекс ОФЗ-ИН (номинал индексируется на инфляцию)" |});
   ("RUCBITR",
    {| name_ru := "Индекс корпоративных облигаций";
       name_en := "Corporate Bond Total Return Index";
       type := "corporate"; board := "SNDX";
       description :=
         "Широкий индекс корпоративных облигаций (legacy)" |});
   ("RUCBTRNS",
    {| name_ru := "Корпоративные облигации (новая серия)";
       name_en := "Corporate Bonds New Series TR";
       type := "corporate"; board := "SNDX";
       description :=
         "Новая серия корпоративного индекса (с 2020)" |});
   ("RUCBHYTR",
    {| name_ru := "Высокодоходные облигации";
       name_en := "High Yield Corporate Bonds TR";
       type := "corporate"; board := "SNDX";
       description :=
         "Облигации с рейтингом ниже BBB (повышенный риск/доходность)" |});
   ("RUCBTRAAANS",
    {| name_ru := "Корпоративные AAA";
       name_en := "Corporate Bonds AAA TR";
       type := "corporate"; board := "SNDX";
       description :=
         "Облигации эмитентов с наивысшим рейтингом" |});
   ("RUCBTRAANS",
    {| name_ru := "Корпоративные AA";
       name_en := "Corporate Bonds AA TR";
       type := "corporate"; board := "SNDX";
       description :=
         "Облигации эмитентов с рейтингом AA" |});
   ("RUCBTRANS",
    {| name_ru := "Корпоративные A";
       name_en := "Corporate Bonds A TR";
       type := "corporate"; board := "SNDX";
       description :=
         "Облигации эмитентов с рейтингом A" |});
   ("RUCBTRBBBNS",
    {| name_ru := "Корпоративные BBB";
       name_en := "Corporate Bonds BBB TR";
       type := "corporate"; board := "SNDX";
       description :=
         "Облигации инвестиционного уровня (нижняя граница)" |});
   ("RUMBTRNS",
    {| name_ru := "Муниципальные облигации";
       name_en := "Municipal Bonds TR";
       type := "municipal"; board := "SNDX";
       description :=
         "Облигации регионов и муниципалитетов" |});
   ("DOMMBSTR",
    {| name_ru := "Ипотечные облигации";
       name_en := "Mortgage-Backed Securities TR";
       type := "mortgage"; board := "SNDX";
       description :=
         "Облигации, обеспеченные пулом ипотечных кредитов" |});
   ("RUCNYTR",
    {| name_ru := "Облигации в юанях";
       name_en := "CNY Bonds TR";
       type := "fx"; board := "SNDX";
       description :=
         "Рублёвые облигации с привязкой к юаню" |});
   ("RUEUTR",
    {| name_ru := "Еврооблигации";
       name_en := "Eurobonds TR";
       type := "fx"; board := "SNDX";
       description :=
         "Российские еврооблигации" |});
   ("RUABITR",
    {| name_ru := "Агрегированный индекс облигаций";
       name_en := "Aggregate Bond Index TR";
       type := "aggregate"; board := "SNDX";
       description :=
         "Широкий индекс всех типов облигаций" |});
   ("RUESGTR",
    {| name_ru := "ESG облигации";
       name_en := "ESG Bonds TR";
       type := "thematic"; board := "SNDX";
       description :=
         "Облигации эмитентов с высоким ESG-рейтингом" |});
   ("RUGROWTR",
    {| name_ru := "Сектор роста";
       name_en := "Growth Sector Bonds TR";
       type := "thematic"; board := "SNDX";
       description :=
         "Облигации компаний сектора роста" |})].

Definition EQUITY_DESCRIPTORS : list (string * descriptor) :=
  [("IMOEX",
    {| name_ru := "Индекс МосБиржи";
       name_en := "MOEX Russia Index";
       type := "broad_market"; board := "SNDX";
       description :=
         "Основной рублёвый индекс (~50 наиболее ликвидных акций)" |});
   ("RTSI",
    {| name_ru := "Индекс RTS";
       name_en := "RTS Index";
       type := "broad_market"; board := "RTSI";
       description :=
         "Долларовый эквивалент IMOEX" |});
   ("MOEX10",
    {| name_ru := "MOEX 10";
       name_en := "MOEX 10 Index";
       type := "broad_market"; board := "SNDX";
       description :=
         "Топ-10 наиболее ликвидных акций" |});
   ("MOEXBC",
    {| name_ru := "Голубые фишки";
       name_en := "Blue Chip Index";
       type := "broad_market"; board := "SNDX";
       description :=
         "15 крупнейших и наиболее ликвидных компаний" |});
   ("MOEXBMI",
    {| name_ru := "Широкий рынок";
       name_en := "Broad Market Index";
       type := "broad_market"; board := "SNDX";
       description :=
         "~100 акций — полное покрытие рынка" |});
   ("MCXSM",
    {| name_ru := "Малая и средняя капитализация";
       name_en := "Small & Mid Cap Index";
       type := "broad_market"; board := "SNDX";
       description :=
         "Акции компаний средней и малой капитализации" |});
   ("MOEXOG",
    {| name_ru := "Нефть и газ";
       name_en := "Oil & Gas Index";
       type := "sector"; board := "SNDX";
       description :=
         "Газпром, Роснефть, Лукойл, Новатэк и др." |});
   ("MOEXFN",
    {| name_ru := "Финансы";
       name_en := "Financials Index";
       type := "sector"; board := "SNDX";
       description :=
         "Сбербанк, ВТБ, Тинькофф, Московская биржа" |});
   ("MOEXMM",
    {| name_ru := "Металлы и добыча";
       name_en := "Metals & Mining Index";
       type := "sector"; board := "SNDX";
       description :=
         "Норникель, Северсталь, НЛМК, Русал" |});
   ("MOEXEU",
    {| name_ru := "Электроэнергетика";
       name_en := "Electric Utilities Index";
       type := "sector"; board := "SNDX";
       description :=
         "Интер РАО, Русгидро, ФСК ЕЭС" |});
   ("MOEXTL",
    {| name_ru := "Телекоммуникации";
       name_en := "Telecom Index";
       type := "sector"; board := "SNDX";
       description :=
         "МТС, Ростелеком" |});
   ("MOEXTN",
    {| name_ru := "Транспорт";
       name_en := "Transportation Index";
       type := "sector"; board := "SNDX";
       description :=
         "Аэрофлот, НМТП, Globaltrans" |});
   ("MOEXCH",
    {| name_ru := "Химия и нефтехимия";
       name_en := "Chemicals Index";
       type := "sector"; board := "SNDX";
       description :=
         "ФосАгро, Акрон, Казаньоргсинтез" |});
   ("MOEXCN",
    {| name_ru := "Потребительский сектор";
       name_en := "Consumer Index";
       type := "sector"; board := "SNDX";
       description :=
         "Магнит, X5, Детский мир" |});
   ("MOEXRE",
    {| name_ru := "Недвижимость";
       name_en := "Real Estate Index";
       type := "sector"; board := "SNDX";
       description :=
         "ПИК, Самолёт, Эталон" |});
   ("MOEXIT",
    {| name_ru := "Информационные технологии";
       name_en := "IT Index";
       type := "sector"; board := "SNDX";
       description :=
         "Яндекс, VK, Positive Technologies, HeadHunter" |});
   ("MESG",
    {| name_ru := "MOEX-RAEX ESG";
       name_en := "MOEX-RAEX ESG Index";
       type := "esg"; board := "SNDX";
       description :=
         "Компании с высоким ESG-рейтингом" |});
   ("MRRT",
    {| name_ru := "Ответственность и открытость";
       name_en := "Responsibility & Transparency Index";
       type := "esg"; board := "SNDX";
       description :=
         "Индекс качества корпоративного управления" |});
   ("RUCGI",
    {| name_ru := "Корпоративное управление";
       name_en := "Corporate Governance Index";
       type := "esg"; board := "SNDX";
       description :=
         "Компании с лучшими практиками управления" |});
   ("MOEXINN",
    {| name_ru := "Инновации";
       name_en := "Innovation Index";
       type := "thematic"; board := "SNDX";
       description :=
         "Высокотехнологичные и инновационные компании" |});
   ("MIPO",
    {| name_ru := "IPO индекс";
       name_en := "IPO Index";
       type := "thematic"; board := "SNDX";
       description :=
         "Недавно размещённые компании" |})].

(** [registry[code]] when [code in registry]. *)
Fixpoint descriptor_get (code : string)
  (registry : list (string * descriptor)) : option descriptor :=
  match registry with
  | [] => None
  | (c, info) :: registry' =>
      if String.eqb code c then Some info else descriptor_get code registry'
  end.

(** ** cli.py: the commands *)

(** What a command has printed so far, line by line, beside the state of
    the library. *)
Record console := { stdout : list string; world : state }.

Definition CLI (A : Type) : Type := console -> result A * console.

Definition cli_ret {A} (a : A) : CLI A := fun c => (Ok a, c).

Definition cli_bind {A B} (m : CLI A) (f : A -> CLI B) : CLI B :=
  fun c =>
    match m c with
    | (Ok a, c') => f a c'
    | (Raise e, c') => (Raise e, c')
    end.

(** A call into the library. *)
Definition library {A} (m : M A) : CLI A :=
  fun c =>
    let (r, st') := m (world c) in
    (r, {| stdout := stdout c; world := st' |}).

(** [print(line)]. *)
Definition print (line : string) : CLI unit :=
  fun c => (Ok tt, {| stdout := stdout c ++ [line]; world := world c |}).

Notation "x <~ m ;; k" := (cli_bind m (fun x => k))
  (at level 100, m at next level, right associativity).
Notation "m ;;> k" := (cli_bind m (fun _ => k))
  (at level 100, right associativity).

(** The line feed of ["\n"]. *)
Definition LF : string := String "010"%char "".

(** [s * n]. *)
Fixpoint str_mul (s : string) (n : nat) : string :=
  match n with
  | O => ""
  | S n' => s ++ str_mul s n'
  end.

(** [s or default] on an optional string: [None] and [""] are false. *)
Definition or_default (s : option string) (default : string) : string :=
  match s with
  | Some (String _ _ as s') => s'
  | Some EmptyString | None => default
  end.

(** The arguments of [download], and of [download-bonds] and
    [download-equity]. *)
Record download_namespace := {
  args_indices : list string;
  args_start : option string;
  args_end : option string;
  args_output : string
}.

Record batch_namespace := {
  batch_start : option string;
  batch_end : option string;
  batch_output : string
}.

Section Commands.

Context `{Pandas}.

Variable server : http_server.
Variable now : datetime.
Variable disk : disk_model.

(** [Path.absolute], which reads the working directory; [str.upper]; and
    the text an f-string makes of a cell. *)
Variable absolute : string -> string.
Variable upper : string -> string.
Variable str_cell : value -> string.

(** The loop [for index_code in indices: ...] of [cmd_download]. *)
Fixpoint cmd_download_loop (indices : list string) (output_dir : string)
  (start_date end_date : option string) (success_count : nat) : CLI nat :=
  match indices with
  | [] => cli_ret success_count
  | index_code :: indices' =>
      df <~ library (download_index server now disk index_code output_dir
                       start_date end_date) ;;
      match df with
      | Some df =>
          print ("✓ " ++ index_code ++ ": загружено " ++ str_nat (len df)
                 ++ " записей") ;;>
          cmd_download_loop indices' output_dir start_date end_date
            (S success_count)
      | None =>
          print ("✗ " ++ index_code ++ ": ошибка загрузки") ;;>
          cmd_download_loop indices' output_dir start_date end_date
            success_count
      end
  end.

(** A path is kept as the string it was made from. *)
Definition cmd_download (args : download_namespace) : CLI Z :=
  print (str_mul "=" 60) ;;>
  print "MOEX ISS — Загрузка данных" ;;>
  print (str_mul "=" 60) ;;>
  let indices := args_indices args in
  let start_date := args_start args in
  let end_date := args_end args in
  let output_dir := args_output args in
  print (LF ++ "Индексы: " ++ String.concat ", " indices) ;;>
  print ("Период: " ++ or_default start_date "2010-01-01" ++ " — "
         ++ or_default end_date "сегодня") ;;>
  print ("Директория: " ++ absolute output_dir) ;;>
  print (str_mul "-" 60) ;;>
  success_count <~ cmd_download_loop indices output_dir start_date
                     end_date 0 ;;
  print (str_mul "-" 60) ;;>
  print ("Итого: " ++ str_nat success_count ++ "/"
         ++ str_nat (length indices) ++ " индексов загружено успешно") ;;>
  cli_ret (if (success_count =? length indices)%nat then 0 else 1).

Definition cmd_download_bonds (args : batch_namespace) : CLI Z :=
  print (str_mul "=" 60) ;;>
  print "MOEX ISS — Загрузка индексов облигаций" ;;>
  print (str_mul "=" 60) ;;>
  print (LF ++ "Всего индексов: " ++ str_nat (length BOND_INDICES)) ;;>
  print ("Директория: " ++ batch_output args) ;;>
  print (str_mul "-" 60) ;;>
  results <~ library (download_bond_indices server now disk None
                        (batch_output args) (batch_start args)
                        (batch_end args)) ;;
  let success_count := successful results in
  print (str_mul "-" 60) ;;>
  print ("Итого: " ++ str_nat success_count ++ "/"
         ++ str_nat (size results) ++ " индексов загружено успешно") ;;>
  cli_ret (if (success_count =? size results)%nat then 0 else 1).

Definition cmd_download_equity (args : batch_namespace) : CLI Z :=
  print (str_mul "=" 60) ;;>
  print "MOEX ISS — Загрузка индексов акций" ;;>
  print (str_mul "=" 60) ;;>
  print (LF ++ "Всего индексов: " ++ str_nat (length EQUITY_INDICES)) ;;>
  print ("Директория: " ++ batch_output args) ;;>
  print (str_mul "-" 60) ;;>
  results <~ library (download_equity_indices server now disk None
                        (batch_output args) (batch_start args)
                        (batch_end args)) ;;
  let success_count := successful results in
  print (str_mul "-" 60) ;;>
  print ("Итого: " ++ str_nat success_count ++ "/"
         ++ str_nat (size results) ++ " индексов загружено успешно") ;;>
  cli_ret (if (success_count =? size results)%nat then 0 else 1).

(** [last_row.get(name, 'N/A')] inside an f-string. *)
Definition row_get (df : DataFrame) (last_row : row) (name : string)
  : string :=
  match column_index name (df_columns df) with
  | Some i => str_cell (nth i last_row JNull)
  | None => "N/A"
  end.

Definition cmd_info (index : string) : CLI Z :=
  let index_code := upper index in
  print (str_mul "=" 60) ;;>
  print ("MOEX ISS — Информация об индексе " ++ index_code) ;;>
  print (str_mul "=" 60) ;;>
  let found :=
    match descriptor_get index_code BOND_DESCRIPTORS with
    | Some info => Some (info, "облигации")
    | None =>
        match descriptor_get index_code EQUITY_DESCRIPTORS with
        | Some info => Some (info, "акции")
        | None => None
        end
    end in
  match found with
  | Some (info, category) =>
      print (LF ++ "  Код:         " ++ index_code) ;;>
      print ("  Название:    " ++ name_ru info) ;;>
      print ("  Категория:   " ++ category) ;;>
      print ("  Тип:         " ++ type info) ;;>
      print ("  Режим:       " ++ board info) ;;>
      print ("  Описание:    " ++ description info)
  | None =>
      print (LF ++ "  Индекс " ++ index_code
             ++ " не найден в справочнике.") ;;>
      print "  Попробуйте команду 'list' для просмотра доступных индексов."
  end ;;>
  print (LF ++ "  Последние данные с биржи:") ;;>
  print ("  " ++ str_mul "-" 40) ;;>
  df <~ library (get_index_history server now index_code None None
                   "SNDX") ;;
  (if negb (df_empty df) then
     let last_row := List.last (df_rows df) [] in
     print ("  Дата:        " ++ row_get df last_row "TRADEDATE") ;;>
     print ("  Открытие:    " ++ row_get df last_row "OPEN") ;;>
     print ("  Закрытие:    " ++ row_get df last_row "CLOSE") ;;>
     print ("  Максимум:    " ++ row_get df last_row "HIGH") ;;>
     print ("  Минимум:     " ++ row_get df last_row "LOW")
   else
     print "  Данные недоступны") ;;>
  cli_ret 0.

End Commands.

(** ** Sample sessions *)

Module Samples.

(** Row [k] of a sample history: two rows per trading day from 2024-01-01
    on, and the row number as its second cell. *)
Definition sample_row (k : nat) : row :=
  [JStr (strftime_Y_m_d (738886 + Z.of_nat k / 2)); JNum (str_nat k)].

Definition sample_page (start n : nat) : block :=
  {| columns := ["TRADEDATE"; "CLOSE"];
     data := map sample_row (seq start n) |}.

Definition ok_response (d : iss_document) : http_outcome :=
  Arrives {| status_code := 200; reason := "OK"; body := Some d |}.

(** The document with [n] rows from offset [start] and a cursor declaring
    [total]. *)
Definition sample_doc (start n : nat) (total : Z) : iss_document :=
  {| history := Some (sample_page start n);
     history_cursor := Some (Some [[Z.of_nat start; total; 100]]) |}.

(** A server that holds [available] rows, declares [total] in its cursor
    and serves pages of at most 100 rows from the offset asked. *)
Definition paged_server (available : nat) (total : Z) : http_server :=
  fun _ r =>
    let k := p_start (req_params r) in
    ok_response (sample_doc k (Nat.min 100 (available - k)) total).

(** The same rows, served without a cursor block. *)
Definition cursorless_server (available : nat) : http_server :=
  fun _ r =>
    let k := p_start (req_params r) in
    ok_response
      {| history := Some (sample_page k (Nat.min 100 (available - k)));
         history_cursor := None |}.

(** [paged_server], except that the request number [n] (from 0) times out. *)
Definition failing_server (n : nat) (available : nat) (total : Z)
  : http_server :=
  fun tr r =>
    if (length tr =? n)%nat
    then NetFail {| exn_cls := Timeout; exn_msg := "Read timed out." |}
    else paged_server available total tr r.

(** [paged_server 120 120], except that every request for the URL [bad]
    times out. *)
Definition flaky_server (bad : string) : http_server :=
  fun tr r =>
    if String.eqb (req_url r) bad
    then NetFail {| exn_cls := Timeout; exn_msg := "Read timed out." |}
    else paged_server 120 120 tr r.

(** Two rows of one trade date, in one page without cursor. *)
Definition two_rows_one_date : http_server :=
  fun _ _ =>
    ok_response
      {| history :=
           Some {| columns := ["TRADEDATE"; "CLOSE"];
                   data := [[JStr "2024-01-10"; JNum "1"];
                            [JStr "2024-01-10"; JNum "2"]] |};
         history_cursor := None |}.

(** A disk on which every operation goes through. *)
Definition good_disk : disk_model := fun _ => None.

(** 2024-01-31. *)
Definition today : datetime := 738916.

End Samples.

(** * Properties *)

Open Scope list_scope.
Open Scope Z_scope.

(** ** Running the monad *)

Lemma bind_run {A B} (m : M A) (k : A -> M B) st :
  bind m k st = match m st with
                | (Ok a, st') => k a st'
                | (Raise e, st') => (Raise e, st')
                end.
Proof. reflexivity. Qed.

Lemma ret_run {A} (a : A) st : ret a st = (Ok a, st).
Proof. reflexivity. Qed.

Lemma raise_run {A} (e : exn) st : raise (A:=A) e st = (Raise e, st).
Proof. reflexivity. Qed.

Lemma lift_run {A} (r : result A) st : lift r st = (r, st).
Proof. reflexivity. Qed.

Lemma logger_run l msg st :
  logger l msg st
  = (Ok tt, {| trace := trace st;
               logs := logs st ++ [{| lvl := l; message := msg |}];
               files := files st |}).
Proof. reflexivity. Qed.

Lemma try_except_run {A} (m : M A) (h : exn -> M A) st :
  try_except m h st = match m st with
                      | (Ok a, st') => (Ok a, st')
                      | (Raise e, st') => h e st'
                      end.
Proof. reflexivity. Qed.

(** ** One exchange with the server *)

(** [params] as [_make_request] sends it: ['lang'] is filled in. *)
Definition with_lang (ps : params) : params :=
  match p_lang ps with
  | None => {| p_from := p_from ps; p_till := p_till ps;
               p_interval := p_interval ps; p_start := p_start ps;
               p_lang := Some "ru" |}
  | Some _ => ps
  end.

(** The request [_get_json_data url ps] puts on the wire. *)
Definition sent (url : string) (ps : params) : request :=
  {| req_url := url ++ ".json"; req_params := with_lang ps |}.

(** What the accessor makes of the server's answer to request [r]: the
    decoded document, or the exception it raises. *)
Definition decode (r : request) (o : http_outcome) : result iss_document :=
  match o with
  | NetFail e => Raise e
  | Arrives resp =>
      let http_error kind :=
        Raise {| exn_cls := HTTPError;
                 exn_msg := str_Z (status_code resp) ++ kind ++ reason resp
                            ++ " for url: " ++ req_url r |} in
      if (400 <=? status_code resp) && (status_code resp <? 500)
      then http_error " Client Error: "
      else if (500 <=? status_code resp) && (status_code resp <? 600)
      then http_error " Server Error: "
      else match body resp with
           | Some d => Ok d
           | None =>
               Raise {| exn_cls := JSONDecodeError;
                        exn_msg := "Expecting value: line 1 column 1 (char 0)" |}
           end
  end.

(** The line [_make_request] logs before it re-raises. *)
Definition error_lines (r : request) (res : result iss_document)
  : list log_record :=
  match res with
  | Raise e =>
      if is_RequestException e then
        [{| lvl := ERROR;
            message := "Ошибка запроса к " ++ req_url r ++ ": " ++ exn_msg e |}]
      else []
  | Ok _ => []
  end.

Section Exchange.

Context `{Pandas}.
Variable server : http_server.

Lemma get_json_data_run url ps st :
  let r := sent url ps in
  let res := decode r (server (trace st) r) in
  _get_json_data server url ps st =
  (res, {| trace := trace st ++ [r];
           logs := logs st ++ error_lines r res;
           files := files st |}).
Proof.
  intros r res. subst r res.
  unfold _get_json_data, _make_request, bind, try_except, session_get,
    raise_for_status, raise, ret, logger, sent, decode, error_lines.
  fold (with_lang ps). cbn [req_url req_params trace logs files].
  destruct (server _ _) as [e|resp].
  - destruct (is_RequestException e); cbn; rewrite ?app_nil_r; reflexivity.
  - destruct ((400 <=? status_code resp) && (status_code resp <? 500));
      [cbn; reflexivity|].
    destruct ((500 <=? status_code resp) && (status_code resp <? 600));
      [cbn; reflexivity|].
    cbn. destruct (body resp); cbn; rewrite app_nil_r; reflexivity.
Qed.

End Exchange.

(** The state after request [r] got the outcome [res]. *)
Definition after_request (st : state) (r : request)
  (res : result iss_document) : state :=
  {| trace := trace st ++ [r];
     logs := logs st ++ error_lines r res;
     files := files st |}.

(** [df] with the rows of [pages] appended, page after page. *)
Definition append_pages (df : DataFrame) (pages : list block) : DataFrame :=
  {| df_columns := df_columns df;
     df_rows := df_rows df ++ flat_map data pages |}.

(** The offsets at which pages are asked for when the table holds [n] rows
    and the pages [pages] arrive one after the other: each is the number of
    rows held when it is asked for. *)
Fixpoint offsets (n : nat) (pages : list block) : list nat :=
  match pages with
  | [] => []
  | b :: pages' => n :: offsets (n + length (data b)) pages'
  end.

(** How the loop was left. *)
Inductive ending :=
| Completed             (* the condition [len(df) < total_records] failed *)
| EndOfData             (* [break]: a page without rows *)
| Failed (e : exn).     (* a request raised *)

Definition loop_result (en : ending) (df : DataFrame) : result DataFrame :=
  match en with
  | Completed | EndOfData => Ok df
  | Failed e => Raise e
  end.

(** ** The pagination loop, step by step *)

Section Pagination.

Context `{Pandas}.
Variable server : http_server.
Variable url : string.
Variable ps : params.
Variable T : Z.

(** The request for the page at offset [k]. *)
Definition page_request (k : nat) : request := sent url (set_start ps k).

(** What the server, asked the pages at [offs] one after the other once
    [tr] had been sent, answered: the pages [pages], all with rows. *)
Inductive Replies : list request -> list nat -> list block -> Prop :=
| Replies_nil tr : Replies tr [] []
| Replies_cons tr k offs d b pages :
    decode (page_request k) (server tr (page_request k)) = Ok d ->
    history_rows d = Some b ->
    Replies (tr ++ [page_request k]) offs pages ->
    Replies tr (k :: offs) (b :: pages).

(** The runs of the loop: from table [df] in state [st], the pages [pages]
    are appended and the loop is left as [en] says, in state [st']. *)
Inductive Loop : DataFrame -> state -> list block -> ending -> state -> Prop :=
| Loop_completed df st :
    T <= Z.of_nat (len df) ->
    Loop df st [] Completed st
| Loop_failed df st e :
    Z.of_nat (len df) < T ->
    decode (page_request (len df))
      (server (trace st) (page_request (len df))) = Raise e ->
    Loop df st [] (Failed e)
      (after_request st (page_request (len df)) (Raise e))
| Loop_end_of_data df st d :
    Z.of_nat (len df) < T ->
    decode (page_request (len df))
      (server (trace st) (page_request (len df))) = Ok d ->
    history_rows d = None ->
    Loop df st [] EndOfData
      (after_request st (page_request (len df)) (Ok d))
| Loop_more df st d b pages en st' :
    Z.of_nat (len df) < T ->
    decode (page_request (len df))
      (server (trace st) (page_request (len df))) = Ok d ->
    history_rows d = Some b ->
    Loop (concat df (frame_of_block b))
      (after_request st (page_request (len df)) (Ok d)) pages en st' ->
    Loop df st (b :: pages) en st'.

Lemma pagination_eq df st :
  pagination server url ps T df st =
  if Z.of_nat (len df) <? T then
    match _get_json_data server url (set_start ps (len df)) st with
    | (Raise e, st') => (Raise e, st')
    | (Ok more_data, st') =>
        match history_rows more_data with
        | Some b =>
            pagination server url ps T (concat df (frame_of_block b)) st'
        | None => (Ok df, st')
        end
    end
  else (Ok df, st).
Proof.
  simp pagination.
  destruct (Z_lt_dec (Z.of_nat (len df)) T) as [Hlt|Hge]; simpl.
  - destruct (Z.ltb_spec (Z.of_nat (len df)) T); [|lia].
    destruct (_get_json_data server url (set_start ps (len df)) st)
      as [[d|e] st']; simpl; [|reflexivity].
    destruct (history_rows d); reflexivity.
  - destruct (Z.ltb_spec (Z.of_nat (len df)) T); [lia|]. reflexivity.
Qed.

Lemma history_rows_nonempty d b : history_rows d = Some b -> data b <> [].
Proof.
  unfold history_rows. destruct (history d) as [b'|]; [|discriminate].
  destruct (data b') eqn:Hd; [discriminate|].
  intros [= <-]. now rewrite Hd.
Qed.

Lemma len_concat df b :
  len (concat df (frame_of_block b)) = (len df + length (data b))%nat.
Proof. unfold len, concat, frame_of_block. simpl. apply length_app. Qed.

Lemma append_pages_cons df b pages :
  append_pages (concat df (frame_of_block b)) pages
  = append_pages df (b :: pages).
Proof.
  unfold append_pages, concat, frame_of_block. simpl.
  now rewrite <- app_assoc.
Qed.

Lemma append_pages_nil df : append_pages df [] = df.
Proof.
  unfold append_pages. simpl. rewrite app_nil_r. now destruct df.
Qed.

(** The loop is one of the runs, whatever the server answers. *)
Lemma pagination_Loop df st :
  exists pages en st',
    Loop df st pages en st'
    /\ pagination server url ps T df st
       = (loop_result en (append_pages df pages), st').
Proof.
  remember (Z.to_nat (T - Z.of_nat (len df))) as n eqn:Hn.
  revert df st Hn.
  induction n as [n IH] using lt_wf_ind. intros df st Hn.
  rewrite pagination_eq.
  destruct (Z.ltb_spec (Z.of_nat (len df)) T) as [Hlt|Hge].
  - rewrite get_json_data_run. fold (page_request (len df)).
    destruct (decode _ _) as [d|e] eqn:Hdec.
    + destruct (history_rows d) as [b|] eqn:Hb.
      * pose proof (history_rows_nonempty _ _ Hb) as Hne.
        destruct (IH (Z.to_nat (T - Z.of_nat
                        (len (concat df (frame_of_block b))))))
          with (df := concat df (frame_of_block b))
               (st := after_request st (page_request (len df)) (Ok d))
          as (pages & en & st' & HL & Heq); [|reflexivity|].
        { rewrite len_concat. destruct (data b); [now elim Hne|].
          simpl length. lia. }
        exists (b :: pages), en, st'. split.
        -- eapply Loop_more; eassumption.
        -- unfold after_request in Heq. rewrite Heq.
           now rewrite append_pages_cons.
      * exists [], EndOfData,
          (after_request st (page_request (len df)) (Ok d)).
        split; [now apply Loop_end_of_data|].
        now rewrite append_pages_nil.
    + exists [], (Failed e),
        (after_request st (page_request (len df)) (Raise e)).
      split; [now apply Loop_failed|reflexivity].
  - exists [], Completed, st. split; [now apply Loop_completed|].
    now rewrite append_pages_nil.
Qed.

Lemma pagination_done df st :
  T <= Z.of_nat (len df) ->
  pagination server url ps T df st = (Ok df, st).
Proof.
  intros Hge. rewrite pagination_eq.
  destruct (Z.ltb_spec (Z.of_nat (len df)) T); [lia|reflexivity].
Qed.

(** The offsets of all the requests of a run: one per page appended, and
    one more when the loop was left on a request. *)
Definition requested (n : nat) (pages : list block) (en : ending)
  : list nat :=
  offsets n pages
  ++ match en with
     | Completed => []
     | EndOfData | Failed _ => [(n + length (flat_map data pages))%nat]
     end.

Lemma len_append_pages df pages :
  len (append_pages df pages)
  = (len df + length (flat_map data pages))%nat.
Proof. unfold len, append_pages. simpl. apply length_app. Qed.

Lemma requested_cons n b pages en :
  requested n (b :: pages) en
  = n :: requested (n + length (data b)) pages en.
Proof.
  unfold requested. simpl. rewrite length_app.
  now rewrite Nat.add_assoc.
Qed.

Lemma Loop_trace df st pages en st' :
  Loop df st pages en st' ->
  trace st' = trace st ++ map page_request (requested (len df) pages en).
Proof.
  induction 1 as [df st Hge|df st e Hlt Hdec|df st d Hlt Hdec Hb
                 |df st d b pages en st' Hlt Hdec Hb HL IH].
  - unfold requested. simpl. now rewrite app_nil_r.
  - unfold requested. simpl. now rewrite Nat.add_0_r.
  - unfold requested. simpl. now rewrite Nat.add_0_r.
  - rewrite IH, requested_cons, len_concat. simpl.
    now rewrite <- app_assoc.
Qed.

Lemma Loop_files df st pages en st' :
  Loop df st pages en st' -> files st' = files st.
Proof. induction 1; simpl in *; congruence. Qed.

(** The loop logs nothing of its own: the only lines are the accessor's,
    when a request fails. *)
Lemma Loop_logs df st pages en st' :
  Loop df st pages en st' ->
  logs st' = logs st
             ++ match en with
                | Failed e =>
                    error_lines
                      (page_request (len (append_pages df pages))) (Raise e)
                | Completed | EndOfData => []
                end.
Proof.
  induction 1 as [df st Hge|df st e Hlt Hdec|df st d Hlt Hdec Hb
                 |df st d b pages en st' Hlt Hdec Hb HL IH].
  - now rewrite app_nil_r.
  - now rewrite append_pages_nil.
  - reflexivity.
  - rewrite IH, append_pages_cons. simpl. now rewrite app_nil_r.
Qed.

Lemma Loop_pages_nonempty df st pages en st' :
  Loop df st pages en st' -> Forall (fun b => data b <> []) pages.
Proof.
  induction 1; try constructor; eauto using history_rows_nonempty.
Qed.

(** The loop is left complete exactly when the table has reached the
    declared total; otherwise it is still short of it. *)
Lemma Loop_ending df st pages en st' :
  Loop df st pages en st' ->
  match en with
  | Completed => T <= Z.of_nat (len (append_pages df pages))
  | EndOfData | Failed _ => Z.of_nat (len (append_pages df pages)) < T
  end.
Proof.
  induction 1 as [df st Hge|df st e Hlt Hdec|df st d Hlt Hdec Hb
                 |df st d b pages en st' Hlt Hdec Hb HL IH];
    rewrite ?append_pages_nil; try assumption.
  now rewrite <- append_pages_cons.
Qed.

(** Every request of the loop was sent while the table was short of the
    declared total. *)
Lemma Loop_requested_lt df st pages en st' :
  Loop df st pages en st' ->
  Forall (fun k => Z.of_nat k < T) (requested (len df) pages en).
Proof.
  induction 1 as [df st Hge|df st e Hlt Hdec|df st d Hlt Hdec Hb
                 |df st d b pages en st' Hlt Hdec Hb HL IH].
  - constructor.
  - unfold requested. simpl. rewrite Nat.add_0_r. now repeat constructor.
  - unfold requested. simpl. rewrite Nat.add_0_r. now repeat constructor.
  - rewrite requested_cons. constructor; [assumption|].
    now rewrite <- len_concat.
Qed.

Lemma Loop_replies df st pages en st' :
  Loop df st pages en st' ->
  Replies (trace st) (offsets (len df) pages) pages.
Proof.
  induction 1 as [df st Hge|df st e Hlt Hdec|df st d Hlt Hdec Hb
                 |df st d b pages en st' Hlt Hdec Hb HL IH];
    try constructor.
  simpl. econstructor; [eassumption..|].
  now rewrite <- len_concat.
Qed.

(** The answer to the request on which the loop was left. *)
Lemma Loop_last df st pages en st' :
  Loop df st pages en st' ->
  let tr := trace st ++ map page_request (offsets (len df) pages) in
  let r := page_request (len (append_pages df pages)) in
  match en with
  | Completed => True
  | EndOfData =>
      exists d, decode r (server tr r) = Ok d /\ history_rows d = None
  | Failed e => decode r (server tr r) = Raise e
  end.
Proof.
  induction 1 as [df st Hge|df st e Hlt Hdec|df st d Hlt Hdec Hb
                 |df st d b pages en st' Hlt Hdec Hb HL IH]; simpl.
  - exact I.
  - now rewrite append_pages_nil, app_nil_r.
  - rewrite append_pages_nil, app_nil_r. eauto.
  - simpl in IH. rewrite append_pages_cons, <- app_assoc in IH.
    now rewrite <- len_concat.
Qed.

(** The number of requests is bounded by the rows missing at the start. *)
Lemma Loop_bound df st pages en st' :
  Loop df st pages en st' ->
  (length (requested (len df) pages en)
   <= Z.to_nat (T - Z.of_nat (len df)))%nat.
Proof.
  induction 1 as [df st Hge|df st e Hlt Hdec|df st d Hlt Hdec Hb
                 |df st d b pages en st' Hlt Hdec Hb HL IH].
  - simpl. lia.
  - unfold requested. simpl. lia.
  - unfold requested. simpl. lia.
  - rewrite requested_cons. simpl.
    pose proof (history_rows_nonempty _ _ Hb) as Hne.
    rewrite len_concat in IH.
    assert (1 <= length (data b))%nat
      by (destruct (data b); [now elim Hne|simpl; lia]).
    lia.
Qed.

(** The state once the requests at [offs] have been answered. *)
Definition after_pages (st : state) (offs : list nat) : state :=
  {| trace := trace st ++ map page_request offs;
     logs := logs st;
     files := files st |}.

Lemma after_pages_nil st : after_pages st [] = st.
Proof. unfold after_pages. simpl. rewrite app_nil_r. now destruct st. Qed.

(** While the server serves pages with rows and the table is short of the
    total, the loop asks for them in turn and appends them. *)
Lemma pagination_replies pages df st :
  Replies (trace st) (offsets (len df) pages) pages ->
  Forall (fun k => Z.of_nat k < T) (offsets (len df) pages) ->
  pagination server url ps T df st
  = pagination server url ps T (append_pages df pages)
      (after_pages st (offsets (len df) pages)).
Proof.
  revert df st. induction pages as [|b pages IH]; intros df st HR HT.
  - now rewrite append_pages_nil, after_pages_nil.
  - simpl in HR, HT. inversion HR as [|tr k offs d b' pages' Hdec Hb HR'];
      subst. inversion HT as [|k offs Hlt HT']; subst.
    rewrite pagination_eq.
    destruct (Z.ltb_spec (Z.of_nat (len df)) T); [|lia].
    rewrite get_json_data_run. fold (page_request (len df)).
    rewrite Hdec, Hb.
    rewrite <- len_concat in HR', HT'.
    rewrite (IH (concat df (frame_of_block b))); [|assumption..].
    rewrite append_pages_cons. f_equal.
    unfold after_pages. simpl. rewrite len_concat, app_nil_r.
    now rewrite <- app_assoc.
Qed.

Lemma pagination_end_of_data df st d :
  Z.of_nat (len df) < T ->
  decode (page_request (len df))
    (server (trace st) (page_request (len df))) = Ok d ->
  history_rows d = None ->
  pagination server url ps T df st
  = (Ok df, after_pages st [len df]).
Proof.
  intros Hlt Hdec Hb. rewrite pagination_eq.
  destruct (Z.ltb_spec (Z.of_nat (len df)) T); [|lia].
  rewrite get_json_data_run. fold (page_request (len df)).
  rewrite Hdec, Hb. unfold after_pages. simpl. now rewrite app_nil_r.
Qed.

(** In a run, a request that the accessor fails on is the last one, and
    the run ends on its exception. *)
Lemma Loop_failure_is_last df st pages en st' :
  Loop df st pages en st' ->
  forall pre r post e,
    map page_request (requested (len df) pages en) = pre ++ r :: post ->
    decode r (server (trace st ++ pre) r) = Raise e ->
    en = Failed e /\ post = [].
Proof.
  induction 1 as [df st Hge|df st e0 Hlt Hdec|df st d Hlt Hdec Hb
                 |df st d b pages en st' Hlt Hdec Hb HL IH];
    intros pre r post e Hsplit Hfail.
  - now destruct pre.
  - unfold requested in Hsplit. simpl in Hsplit. rewrite Nat.add_0_r in Hsplit.
    destruct pre as [|x [|y pre]]; try discriminate.
    injection Hsplit as <- <-. rewrite app_nil_r in Hfail.
    split; [congruence|reflexivity].
  - unfold requested in Hsplit. simpl in Hsplit. rewrite Nat.add_0_r in Hsplit.
    destruct pre as [|x [|y pre]]; try discriminate.
    injection Hsplit as <- <-. rewrite app_nil_r in Hfail. congruence.
  - rewrite requested_cons in Hsplit. simpl in Hsplit.
    destruct pre as [|x pre].
    + injection Hsplit as <- _. rewrite app_nil_r in Hfail. congruence.
    + injection Hsplit as <- Hsplit. rewrite <- len_concat in Hsplit.
      apply (IH pre r post e Hsplit).
      simpl. now rewrite <- app_assoc.
Qed.

Lemma offsets_le n pages k :
  In k (offsets n pages) -> (k <= n + length (flat_map data pages))%nat.
Proof.
  revert n. induction pages as [|b pages IH]; intros n; simpl; [tauto|].
  rewrite length_app. intros [<-|Hk]; [lia|].
  apply IH in Hk. lia.
Qed.

Lemma offsets_app n pages b :
  offsets n (pages ++ [b])
  = offsets n pages ++ [(n + length (flat_map data pages))%nat].
Proof.
  revert n. induction pages as [|b' pages IH]; intros n; simpl.
  - now rewrite Nat.add_0_r.
  - rewrite IH, length_app. now rewrite Nat.add_assoc.
Qed.

(** C10: the loop terminates whatever the server answers.  [pagination] is
    defined by recursion on the number of rows missing from the declared
    total, so it returns on every input, and it sends at most that many
    requests.  One iteration does one of two things: a page with rows is
    appended, which makes the table strictly longer while the total stays
    what it is, and the loop goes on from there; a page without rows, or a
    response with no history block at all, leaves the loop at once with the
    table as it is, and nothing is logged about it. *)
Theorem C10_pagination_terminates df st :
  let r := pagination server url ps T df st in
  let q := page_request (len df) in
  (length (trace (snd r))
   <= length (trace st) + Z.to_nat (T - Z.of_nat (len df)))%nat
  /\ (T <= Z.of_nat (len df) -> r = (Ok df, st))
  /\ (forall d b,
        Z.of_nat (len df) < T ->
        decode q (server (trace st) q) = Ok d ->
        history_rows d = Some b ->
        (len df < len (concat df (frame_of_block b)))%nat
        /\ r = pagination server url ps T (concat df (frame_of_block b))
                 (after_request st q (Ok d)))
  /\ (forall d,
        Z.of_nat (len df) < T ->
        decode q (server (trace st) q) = Ok d ->
        (history d = None \/ exists b, history d = Some b /\ data b = []) ->
        r = (Ok df, after_request st q (Ok d))
        /\ logs (snd r) = logs st).
Proof.
  cbv zeta. split; [|split; [|split]].
  - destruct (pagination_Loop df st) as (pages & en & st' & HL & ->).
    simpl. rewrite (Loop_trace _ _ _ _ _ HL), length_app, length_map.
    pose proof (Loop_bound _ _ _ _ _ HL). lia.
  - apply pagination_done.
  - intros d b Hlt Hdec Hb. split.
    + rewrite len_concat. pose proof (history_rows_nonempty _ _ Hb) as Hne.
      destruct (data b); [now elim Hne|simpl; lia].
    + rewrite pagination_eq at 1.
      destruct (Z.ltb_spec (Z.of_nat (len df)) T); [|lia].
      rewrite get_json_data_run. fold (page_request (len df)).
      now rewrite Hdec, Hb.
  - intros d Hlt Hdec Hrows.
    assert (Hnone : history_rows d = None).
    { unfold history_rows. destruct Hrows as [->|(b & -> & ->)]; reflexivity. }
    rewrite pagination_eq.
    destruct (Z.ltb_spec (Z.of_nat (len df)) T); [|lia].
    rewrite get_json_data_run. fold (page_request (len df)).
    rewrite Hdec, Hnone. split; [reflexivity|]. simpl. apply app_nil_r.
Qed.

End Pagination.

(** ** The date column and the sort *)

(** The order of the sort keys: timestamps by their value, [NaT] last. *)
Definition ts_le (a b : timestamp) : Prop :=
  match a, b with
  | Ts x, Ts y => x <= y
  | _, NaT => True
  | NaT, Ts _ => False
  end.

(** Every row has a cell in column [i]. *)
Definition has_column (i : nat) (rows : list row) : Prop :=
  Forall (fun r => (i < length r)%nat) rows.

Lemma map_nth_seq {A} (l : list A) (d : A) :
  map (fun i => nth i l d) (seq 0 (length l)) = l.
Proof.
  induction l as [|a l IH]; simpl; [reflexivity|].
  f_equal. rewrite <- seq_shift, map_map. exact IH.
Qed.

Lemma filter_split_perm {A} (f : A -> bool) (l : list A) :
  Permutation (List.filter f l ++ List.filter (fun x => negb (f x)) l) l.
Proof.
  induction l as [|a l IH]; simpl; [constructor|].
  destruct (f a); simpl.
  - now constructor.
  - rewrite <- Permutation_middle. now constructor.
Qed.

Lemma ts_le_trans a b c : ts_le a b -> ts_le b c -> ts_le a c.
Proof. destruct a, b, c; simpl; try tauto; lia. Qed.


Lemma length_assign_column i rows series :
  length (assign_column i rows series) = length rows.
Proof.
  revert series. induction rows as [|r rows IH]; intros [|v series]; simpl;
    auto.
Qed.

Lemma nth_set_cell i v r : (i < length r)%nat -> nth i (set_cell i v r) JNull = v.
Proof.
  revert r. induction i as [|i IH]; intros [|c r]; simpl; try lia; auto.
  intros Hi. apply IH. lia.
Qed.

Lemma column_values_assign i rows series :
  has_column i rows -> length series = length rows ->
  column_values i (assign_column i rows series) = series.
Proof.
  intros Hc. revert series.
  induction Hc as [|r rows Hr Hc IH]; intros [|v series]; simpl;
    try discriminate; [reflexivity|].
  intros [= Hlen]. f_equal; [now apply nth_set_cell|now apply IH].
Qed.

(** The date of a row, once the column has been converted. *)
Definition date_at (i : nat) (r : row) : timestamp :=
  match nth i r JNull with
  | Timestamp t => t
  | _ => NaT
  end.

Definition ts_eqb (a b : timestamp) : bool :=
  match a, b with
  | Ts x, Ts y => x =? y
  | NaT, NaT => true
  | _, _ => false
  end.

(** Rows of one date come in [after] in the order they have in [before]. *)
Definition keeps_order_of_equal_dates (i : nat) (before after : list row)
  : Prop :=
  forall t,
    List.filter (fun r => ts_eqb (date_at i r) t) after
    = List.filter (fun r => ts_eqb (date_at i r) t) before.

Lemma ts_eqb_eq a b : ts_eqb a b = true <-> a = b.
Proof.
  destruct a as [x|], b as [y|]; simpl; split; try congruence;
    try discriminate.
  - intros Hxy. f_equal. lia.
  - intros [= ->]. lia.
Qed.

Lemma Permutation_filter {A} (f : A -> bool) (l l' : list A) :
  Permutation l l' -> Permutation (List.filter f l) (List.filter f l').
Proof.
  induction 1 as [|x l l' Hp IH|x y l|l l' l'' Hp1 IH1 Hp2 IH2]; simpl.
  - constructor.
  - destruct (f x); [now constructor|assumption].
  - destruct (f x), (f y); try reflexivity. apply perm_swap.
  - now transitivity (List.filter f l').
Qed.

Lemma StronglySorted_filter {A} (R : A -> A -> Prop) (f : A -> bool) l :
  StronglySorted R l -> StronglySorted R (List.filter f l).
Proof.
  induction 1 as [|a l Hs IH Ha]; simpl; [constructor|].
  destruct (f a); [|assumption]. constructor; [assumption|].
  apply List.Forall_forall. intros b Hb. apply filter_In in Hb as [Hb _].
  rewrite List.Forall_forall in Ha. auto.
Qed.

Lemma StronglySorted_seq s n : StronglySorted lt (seq s n).
Proof.
  revert s. induction n as [|n IH]; intros s; simpl; constructor; [apply IH|].
  apply List.Forall_forall. intros k Hk. apply in_seq in Hk. lia.
Qed.

Lemma StronglySorted_app {A} (R : A -> A -> Prop) la lb :
  StronglySorted R la -> StronglySorted R lb ->
  (forall a b, In a la -> In b lb -> R a b) ->
  StronglySorted R (la ++ lb).
Proof.
  intros Hla Hlb Hcross. induction Hla as [|a la Hs IH Ha]; simpl;
    [assumption|].
  constructor.
  - apply IH. intros x y Hx Hy. apply Hcross; [now right|assumption].
  - apply Forall_app. split; [assumption|].
    apply List.Forall_forall. intros b Hb. apply Hcross; [now left|assumption].
Qed.

Lemma StronglySorted_In_impl {A} (R R' : A -> A -> Prop) l :
  (forall a b, In a l -> In b l -> R a b -> R' a b) ->
  StronglySorted R l -> StronglySorted R' l.
Proof.
  intros Himp Hs. induction Hs as [|a l Hs IH Ha]; constructor.
  - apply IH. intros x y Hx Hy. apply Himp; now right.
  - rewrite List.Forall_forall in Ha |- *. intros b Hb.
    apply Himp; [now left|now right|auto].
Qed.

Lemma StronglySorted_NoDup_ne {A} (R : A -> A -> Prop) l :
  StronglySorted R l -> List.NoDup l ->
  StronglySorted (fun a b => R a b /\ a <> b) l.
Proof.
  induction 1 as [|a l Hs IH Ha]; intros Hnd; constructor.
  - apply IH. now inversion Hnd.
  - inversion Hnd as [|? ? Hnotin Hnd']; subst.
    rewrite List.Forall_forall in Ha |- *. intros b Hb.
    split; [auto|]. intros ->. contradiction.
Qed.

Lemma nth_StronglySorted_lt l j1 j2 :
  StronglySorted lt l -> (j1 < j2)%nat -> (j2 < length l)%nat ->
  (nth j1 l 0 < nth j2 l 0)%nat.
Proof.
  intros Hs. revert j1 j2.
  induction Hs as [|a l Hs IH Ha]; intros j1 j2 Hlt Hlen; simpl in Hlen;
    [lia|].
  destruct j2 as [|j2]; [lia|]. destruct j1 as [|j1]; simpl.
  - rewrite List.Forall_forall in Ha. apply Ha, nth_In. lia.
  - apply IH; lia.
Qed.

(** Positions of one key are in ascending order. *)
Definition ties_ascend (keys : list timestamp) (a b : nat) : Prop :=
  nth a keys NaT = nth b keys NaT -> (a < b)%nat.

Lemma filter_ties_ascend keys t l :
  StronglySorted (ties_ascend keys) l ->
  StronglySorted lt
    (List.filter (fun k => ts_eqb (nth k keys NaT) t) l).
Proof.
  induction 1 as [|a l Hs IH Ha]; simpl; [constructor|].
  destruct (ts_eqb (nth a keys NaT) t) eqn:Hta; [|assumption].
  constructor; [assumption|].
  apply List.Forall_forall. intros b Hb. apply filter_In in Hb as [Hb Htb].
  rewrite List.Forall_forall in Ha. apply (Ha b Hb).
  apply ts_eqb_eq in Hta, Htb. congruence.
Qed.

Section Sorting.

Context `{Pandas}.

Lemma positions_lt p keys k :
  In k (positions p keys) ->
  (k < length keys)%nat /\ p (nth k keys NaT) = true.
Proof.
  unfold positions. rewrite filter_In, in_seq. intros [Hk Hp]. split;
    [lia|assumption].
Qed.

Lemma nargsort_perm kind keys :
  Permutation (nargsort kind keys) (seq 0 (length keys)).
Proof.
  unfold nargsort.
  set (non_nan_idx := positions notna keys).
  rewrite (Permutation_map _ (argsort_perm kind _)).
  rewrite length_map, map_nth_seq.
  apply filter_split_perm.
Qed.

Lemma length_nargsort kind keys :
  length (nargsort kind keys) = length keys.
Proof.
  rewrite (Permutation_length (nargsort_perm kind keys)).
  apply length_seq.
Qed.


(** With a kind that pandas documents as stable, positions of one key stay
    in ascending order in the indexer. *)
Lemma nargsort_stable kind keys :
  is_stable_kind kind = true ->
  StronglySorted (ties_ascend keys) (nargsort kind keys).
Proof.
  intros Hkind. unfold nargsort.
  set (non_nan_idx := positions notna keys).
  set (non_nans := map (fun i => asi8 (nth i keys NaT)) non_nan_idx).
  assert (Hnn : StronglySorted lt non_nan_idx)
    by apply StronglySorted_filter, StronglySorted_seq.
  assert (Hm : length non_nans = length non_nan_idx)
    by apply length_map.
  assert (Hkey : forall j, (j < length non_nan_idx)%nat ->
                   nth (nth j non_nan_idx 0%nat) keys NaT
                   = Ts (nth j non_nans 0)).
  { intros j Hj. unfold non_nans.
    rewrite (nth_indep _ 0 (asi8 (nth 0%nat keys NaT)))
      by (now rewrite length_map).
    rewrite (map_nth (fun i => asi8 (nth i keys NaT))).
    destruct (positions_lt notna keys (nth j non_nan_idx 0%nat))
      as [_ Hp]; [now apply nth_In|].
    now destruct (nth (nth j non_nan_idx 0%nat) keys NaT). }
  pose proof (argsort_perm kind non_nans) as Hperm.
  apply StronglySorted_app.
  - apply (StronglySorted_map_impl
             (fun a b => (lex_le non_nans a b /\ a <> b)
                         /\ (a < length non_nan_idx)%nat
                         /\ (b < length non_nan_idx)%nat)).
    + intros a b [[Hlex Hne] [Ha Hb]] Heq.
      rewrite (Hkey a Ha), (Hkey b Hb) in Heq. injection Heq as Heq.
      apply nth_StronglySorted_lt; [assumption| |assumption].
      destruct Hlex as [Hlt|[_ Hle]]; lia.
    + apply (StronglySorted_In_impl
               (fun a b => lex_le non_nans a b /\ a <> b)).
      * intros a b Ha Hb Hab.
        apply (Permutation_in _ Hperm), in_seq in Ha.
        apply (Permutation_in _ Hperm), in_seq in Hb.
        rewrite Hm in Ha, Hb. simpl in Ha, Hb. tauto.
      * apply StronglySorted_NoDup_ne; [now apply argsort_stable|].
        apply (Permutation_NoDup (Permutation_sym Hperm)), seq_NoDup.
  - apply (StronglySorted_In_impl lt); [unfold ties_ascend; auto|].
    apply StronglySorted_filter, StronglySorted_seq.
  - intros a b Ha Hb Heq. exfalso.
    apply in_map_iff in Ha as (j & <- & Hj).
    apply (Permutation_in _ Hperm), in_seq in Hj. rewrite Hm in Hj.
    rewrite Hkey in Heq by (simpl in Hj; tauto).
    apply positions_lt in Hb as [_ Hb]. unfold isna in Hb.
    rewrite <- Heq in Hb. discriminate.
Qed.

Lemma take_perm (rows : list row) idx :
  Permutation idx (seq 0 (length rows)) -> Permutation (take rows idx) rows.
Proof.
  intros Hp. unfold take. rewrite (Permutation_map _ Hp).
  now rewrite map_nth_seq.
Qed.

Lemma column_values_take i rows idx :
  column_values i (take rows idx)
  = map (fun k => nth k (column_values i rows) (nth i [] JNull)) idx.
Proof.
  unfold column_values, take. rewrite map_map.
  apply map_ext. intros k.
  now rewrite (map_nth (fun r => nth i r JNull)).
Qed.

(** The table keeps its columns and its number of rows. *)
Lemma convert_and_sort_shape df df' :
  convert_and_sort df = Ok df' ->
  df_columns df' = df_columns df /\ len df' = len df.
Proof.
  unfold convert_and_sort.
  destruct (column_index "TRADEDATE" (df_columns df)) as [i|];
    [|now intros [= <-]].
  destruct (to_datetime _) as [keys|] eqn:Hk; [|discriminate].
  intros [= <-]. split; [reflexivity|].
  unfold len, sort_values, take. simpl.
  rewrite length_map, length_nargsort.
  apply to_datetime_length in Hk. rewrite Hk.
  unfold column_values. apply length_map.
Qed.

(** The dates of the table can be read: there is no date column, or
    [pd.to_datetime] accepts it. *)
Definition dates_parse (df : DataFrame) : Prop :=
  match column_index "TRADEDATE" (df_columns df) with
  | Some i => exists keys, to_datetime (column_values i (df_rows df)) = Ok keys
  | None => True
  end.

Lemma convert_and_sort_ok df :
  dates_parse df ->
  exists df', convert_and_sort df = Ok df' /\ len df' = len df.
Proof.
  intros Hd.
  assert (exists df', convert_and_sort df = Ok df') as [df' Hc].
  { unfold convert_and_sort, dates_parse in *.
    destruct (column_index _ _); [|eauto].
    destruct Hd as [keys ->]. eauto. }
  exists df'. split; [assumption|].
  now apply convert_and_sort_shape in Hc.
Qed.

Lemma convert_and_sort_no_dates df :
  column_index "TRADEDATE" (df_columns df) = None ->
  convert_and_sort df = Ok df.
Proof. unfold convert_and_sort. now intros ->. Qed.

Lemma nth_map_Timestamp k keys d :
  (k < length keys)%nat ->
  nth k (map Timestamp keys) d = Timestamp (nth k keys NaT).
Proof.
  intros Hk. rewrite (nth_indep _ d (Timestamp NaT))
    by (now rewrite length_map).
  apply (map_nth Timestamp).
Qed.


(** Had the code asked for a stable kind, rows of one trade date would have
    kept their order. *)
Lemma sort_values_stable_kind_keeps_order kind cols i rows keys :
  is_stable_kind kind = true ->
  has_column i rows ->
  length keys = length rows ->
  let rows' := assign_column i rows (map Timestamp keys) in
  keeps_order_of_equal_dates i rows'
    (df_rows (sort_values kind keys
                {| df_columns := cols; df_rows := rows' |})).
Proof.
  intros Hkind Hcol Hlen rows' t. unfold sort_values. simpl.
  assert (Hlen' : length rows' = length keys).
  { unfold rows'. now rewrite length_assign_column. }
  assert (Hdate : forall k, (k < length keys)%nat ->
                    date_at i (nth k rows' []) = nth k keys NaT).
  { intros k Hk. unfold date_at.
    pose proof (column_values_assign i rows (map Timestamp keys) Hcol) as Hcv.
    rewrite length_map in Hcv. specialize (Hcv Hlen). fold rows' in Hcv.
    assert (Hn : nth k (column_values i rows') (nth i [] JNull)
                 = Timestamp (nth k keys NaT))
      by (rewrite Hcv; now apply nth_map_Timestamp).
    unfold column_values in Hn.
    rewrite (map_nth (fun r => nth i r JNull)) in Hn. cbv beta in Hn.
    unfold row in *. now rewrite Hn. }
  pose proof (nargsort_perm kind keys) as Hperm.
  rewrite <- (map_nth_seq rows' []) at 2. fold (take rows' (seq 0 (length rows'))).
  unfold take. rewrite !filter_map_swap. f_equal. rewrite Hlen'.
  rewrite (filter_ext_in _ (fun k => ts_eqb (nth k keys NaT) t)
             (nargsort kind keys)).
  2:{ intros k Hk. apply (Permutation_in _ Hperm), in_seq in Hk.
      rewrite Hdate by lia. reflexivity. }
  rewrite (filter_ext_in _ (fun k => ts_eqb (nth k keys NaT) t)
             (seq 0 (length keys))).
  2:{ intros k Hk. apply in_seq in Hk. rewrite Hdate by lia. reflexivity. }
  apply (StronglySorted_unique_strong lt).
  - intros; lia.
  - now apply filter_ties_ascend, nargsort_stable.
  - apply StronglySorted_filter, StronglySorted_seq.
  - now apply Permutation_filter.
Qed.

End Sorting.

(** ** One call of [get_historical_data] *)

(** The total the cursor block declares: its first row's second entry. *)
Definition declared_total (d : iss_document) : option Z :=
  match cursor_data_of d with
  | first :: _ => nth_error first 1
  | [] => None
  end.

(** [s] occurs in [msg]. *)
Definition occurs_in (s msg : string) : Prop :=
  exists pre post : string, msg = (pre ++ s ++ post)%string.

Lemma string_app_assoc (a b c : string) :
  ((a ++ b) ++ c = a ++ b ++ c)%string.
Proof.
  induction a as [|x a IH]; [reflexivity|].
  change (String x ((a ++ b) ++ c) = String x (a ++ b ++ c))%string.
  now f_equal.
Qed.

Lemma string_app_nil_r (a : string) : (a ++ "" = a)%string.
Proof.
  induction a as [|x a IH]; [reflexivity|].
  change (String x (a ++ "") = String x a)%string. now f_equal.
Qed.

Lemma occurs_in_head s post : occurs_in s (s ++ post)%string.
Proof. now exists ""%string, post. Qed.

Lemma occurs_in_refl s : occurs_in s s.
Proof. exists ""%string, ""%string. simpl. now rewrite string_app_nil_r. Qed.

Lemma occurs_in_app_r s p m : occurs_in s m -> occurs_in s (p ++ m)%string.
Proof.
  intros (pre & post & ->). exists (p ++ pre)%string, post.
  now rewrite string_app_assoc.
Qed.

Create HintDb occurs.

#[local] Hint Resolve occurs_in_head occurs_in_refl occurs_in_app_r : occurs.

Definition add_log (st : state) (l : log_record) : state :=
  {| trace := trace st; logs := logs st ++ [l]; files := files st |}.

Section Fetch.

Context `{Pandas}.
Variable server : http_server.
Variable now : datetime.
Variables engine market board security : string.
Variables from_date till_date : option date_arg.
Variable interval : Z.

(** The clock shows a date [datetime] can hold, past January of year 1. *)
Hypothesis Hclock : 30 < now <= MAXORDINAL.

Definition history_url : string :=
  (HISTORY_URL ++ "/engines/" ++ engine ++ "/markets/" ++ market
   ++ "/boards/" ++ board ++ "/securities/" ++ security)%string.

(** The two date strings of the request. *)
Definition from_string : string :=
  match from_date with
  | None => strftime_Y_m_d (now - 30)
  | Some a => date_to_string a
  end.

Definition till_string : string :=
  match till_date with
  | None => strftime_Y_m_d now
  | Some a => date_to_string a
  end.

Definition first_params : params :=
  {| p_from := from_string; p_till := till_string; p_interval := interval;
     p_start := 0; p_lang := None |}.

(** The request for the page at offset [k] of this call. *)
#[local] Abbreviation request_at := (page_request history_url first_params).

Definition no_data_line : log_record :=
  {| lvl := WARNING;
     message := ("Нет данных для " ++ security ++ " за период "
                 ++ from_string ++ " — " ++ till_string)%string |}.

Definition loaded_line (df : DataFrame) : log_record :=
  {| lvl := INFO;
     message := ("Загружено " ++ str_nat (len df) ++ " записей для "
                 ++ security ++ " за период " ++ from_string ++ " — "
                 ++ till_string)%string |}.

(** The end of the function: the date column, the final log line. *)
Definition finish (df : DataFrame) (st : state) : result DataFrame * state :=
  match convert_and_sort df with
  | Ok df' => (Ok df', add_log st (loaded_line df'))
  | Raise e => (Raise e, st)
  end.

Definition run (st : state) : result DataFrame * state :=
  get_historical_data server now engine market board security
    from_date till_date interval st.

(** The function, read off its text with the first exchange resolved. *)
Lemma run_eq st :
  run st =
  let r0 := request_at 0 in
  let res0 := decode r0 (server (trace st) r0) in
  let st1 := after_request st r0 res0 in
  match res0 with
  | Raise e => (Raise e, st1)
  | Ok d =>
      match history_rows d with
      | None => (Ok empty_frame, add_log st1 no_data_line)
      | Some b =>
          match cursor_data_of d with
          | [] => finish (frame_of_block b) st1
          | first :: _ =>
              match nth_error first 1 with
              | None =>
                  (Raise {| exn_cls := IndexError;
                            exn_msg := "list index out of range" |}, st1)
              | Some total_records =>
                  match pagination server history_url first_params
                          total_records (frame_of_block b) st1 with
                  | (Ok df, st2) => finish df st2
                  | (Raise e, st2) => (Raise e, st2)
                  end
              end
          end
      end
  end.
Proof.
  unfold run, get_historical_data.
  assert (Hsub : forall st0, sub_days now 30 st0 = (Ok (now - 30), st0)).
  { intros st0. unfold sub_days.
    destruct (Z.ltb_spec 0 (now - 30)); [|lia].
    destruct (Z.leb_spec (now - 30) MAXORDINAL); [|lia]. reflexivity. }
  unfold page_request, set_start, finish, loaded_line,
    no_data_line, first_params, from_string, till_string, history_url,
    after_request.
  cbn [p_from p_till p_interval p_start p_lang].
  destruct from_date as [a|], till_date as [a'|]; cbv beta iota;
    rewrite !bind_run, ?Hsub, ?ret_run, ?bind_run, ?ret_run;
    cbn [date_to_string]; rewrite get_json_data_run; cbv zeta.
  all: match goal with
       | |- context [decode ?r ?o] => destruct (decode r o) as [d|e]
       end; [|reflexivity].
  all: destruct (history_rows d) as [b|]; [|reflexivity].
  all: rewrite bind_run.
  all: destruct (cursor_data_of d) as [|first rest];
    [rewrite ret_run|destruct (nth_error first 1) as [total_records|]];
    [| |rewrite raise_run; reflexivity].
  all: try match goal with
           | |- context [pagination ?s ?u ?p ?t ?f ?x] =>
               destruct (pagination s u p t f x) as [[df|e] st2]
           end.
  all: cbv beta iota; try reflexivity.
  all: rewrite bind_run, lift_run;
    destruct (convert_and_sort _); [|reflexivity];
    rewrite bind_run, logger_run, ret_run; reflexivity.
Qed.

Lemma fst_finish df st : fst (finish df st) = convert_and_sort df.
Proof. unfold finish. now destruct (convert_and_sort df). Qed.

Lemma trace_finish df st : trace (snd (finish df st)) = trace st.
Proof. unfold finish. now destruct (convert_and_sort df). Qed.

Lemma logs_finish df st df' :
  convert_and_sort df = Ok df' ->
  logs (snd (finish df st)) = logs st ++ [loaded_line df'].
Proof. unfold finish. now intros ->. Qed.

Lemma no_cursor_total d :
  history_cursor d = None -> declared_total d = Some 0.
Proof. unfold declared_total, cursor_data_of. now intros ->. Qed.

Lemma declared_total_inv d T :
  declared_total d = Some T ->
  exists first rest,
    cursor_data_of d = first :: rest /\ nth_error first 1 = Some T.
Proof.
  unfold declared_total. destruct (cursor_data_of d) as [|first rest];
    [discriminate|eauto].
Qed.

(** A call whose first page has rows and whose cursor declares a total is
    the first exchange, a run of the loop, and the end of the function. *)
Lemma run_paged st d b T :
  decode (request_at 0) (server (trace st) (request_at 0)) = Ok d ->
  history_rows d = Some b ->
  declared_total d = Some T ->
  exists more en st2,
    Loop server history_url first_params T (frame_of_block b)
      (after_request st (request_at 0) (Ok d)) more en st2
    /\ run st = match en with
                | Failed e => (Raise e, st2)
                | Completed | EndOfData =>
                    finish (append_pages (frame_of_block b) more) st2
                end.
Proof.
  intros Hdec Hb Htot.
  apply declared_total_inv in Htot as (first & rest & Hc & Hn).
  destruct (pagination_Loop server history_url first_params T
              (frame_of_block b) (after_request st (request_at 0) (Ok d)))
    as (more & en & st2 & HL & Heq).
  exists more, en, st2. split; [assumption|].
  rewrite run_eq. cbv zeta. rewrite Hdec, Hb, Hc, Hn, Heq.
  now destruct en.
Qed.

(** C5: when the first page has no rows (the history block is missing or
    its data is empty), the call returns the empty frame and raises
    nothing, logs one warning that carries the security code and both
    dates of the range, and has sent the first request only. *)
Theorem C5_first_page_without_rows st d :
  decode (request_at 0) (server (trace st) (request_at 0)) = Ok d ->
  (history d = None \/ exists b, history d = Some b /\ data b = []) ->
  fst (run st) = Ok empty_frame
  /\ trace (snd (run st)) = trace st ++ [request_at 0]
  /\ logs (snd (run st)) = logs st ++ [no_data_line]
  /\ lvl no_data_line = WARNING
  /\ occurs_in security (message no_data_line)
  /\ occurs_in from_string (message no_data_line)
  /\ occurs_in till_string (message no_data_line).
Proof.
  intros Hdec Hrows.
  assert (Hnone : history_rows d = None).
  { unfold history_rows. destruct Hrows as [->|(b & -> & ->)]; reflexivity. }
  rewrite run_eq. cbv zeta. rewrite Hdec, Hnone. simpl.
  rewrite app_nil_r.
  repeat split; auto 10 with occurs.
Qed.

(** C7: when the first page has rows and the response has no cursor block,
    or the cursor declares a total of 0, the first page is the whole
    table: only the first request is sent and what is returned is the
    first page put through the final date conversion and sort, so the
    first page itself when it has no trade-date column, and in any case a
    table of the first page's columns and as many rows. *)
Theorem C7_first_page_is_complete st d b :
  decode (request_at 0) (server (trace st) (request_at 0)) = Ok d ->
  history_rows d = Some b ->
  (history_cursor d = None \/ declared_total d = Some 0) ->
  trace (snd (run st)) = trace st ++ [request_at 0]
  /\ fst (run st) = convert_and_sort (frame_of_block b)
  /\ (column_index "TRADEDATE" (columns b) = None ->
      fst (run st) = Ok (frame_of_block b))
  /\ (dates_parse (frame_of_block b) ->
      exists df', fst (run st) = Ok df'
                  /\ df_columns df' = columns b
                  /\ len df' = length (data b)).
Proof.
  intros Hdec Hb Hcur.
  assert (Htot : declared_total d = Some 0)
    by (destruct Hcur; auto using no_cursor_total).
  apply declared_total_inv in Htot as (first & rest & Hc & Hn).
  assert (Hfst : fst (run st) = convert_and_sort (frame_of_block b)
                 /\ trace (snd (run st)) = trace st ++ [request_at 0]).
  { rewrite run_eq. cbv zeta. rewrite Hdec, Hb, Hc, Hn.
    rewrite pagination_done by (simpl; lia).
    unfold finish. destruct (convert_and_sort _); simpl; auto. }
  destruct Hfst as [Hres Htr]. rewrite Hres.
  repeat split; [assumption| |].
  - intros Hno. now apply convert_and_sort_no_dates.
  - intros Hd. destruct (convert_and_sort_ok _ Hd) as (df' & Hc' & Hl).
    exists df'. apply convert_and_sort_shape in Hc' as Hs.
    destruct Hs as [Hcols _]. auto.
Qed.

(** C1: after a first page with rows whose cursor declares the total [T],
    and when every follow-up request the call sends is answered by a page
    with rows (nothing is assumed of requests the call does not send), the
    requests are sent at the offsets [offsets 0 pages]: each follow-up
    offset is the number of rows accumulated when it is sent; the pages are
    appended in the order received; and the loop stops as soon as the count
    reaches [T]: the count is then at least [T], and it was below [T] at
    every follow-up request.  In particular, with [T = 250] and pages of
    100, 100 and 50 rows at offsets 0, 100 and 200, three requests are sent
    and the table has 250 rows. *)
Theorem C1_follow_up_offsets_track_row_count :
  (forall st d b T,
      decode (request_at 0) (server (trace st) (request_at 0)) = Ok d ->
      history_rows d = Some b ->
      declared_total d = Some T ->
      (forall pre r post,
         trace (snd (run st)) = trace st ++ request_at 0 :: pre ++ r :: post ->
         exists d' b',
           decode r (server (trace st ++ request_at 0 :: pre) r) = Ok d'
           /\ history_rows d' = Some b') ->
      exists more,
        Replies server history_url first_params (trace st)
          (offsets 0 (b :: more)) (b :: more)
        /\ trace (snd (run st))
           = trace st ++ map request_at (offsets 0 (b :: more))
        /\ fst (run st)
           = convert_and_sort (append_pages (frame_of_block b) more)
        /\ T <= Z.of_nat (length (flat_map data (b :: more)))
        /\ Forall (fun k => Z.of_nat k < T)
             (offsets (length (data b)) more))
  /\ (forall st d0 b0 d1 b1 d2 b2,
        decode (request_at 0) (server (trace st) (request_at 0)) = Ok d0 ->
        history_rows d0 = Some b0 ->
        declared_total d0 = Some 250 ->
        length (data b0) = 100%nat ->
        decode (request_at 100)
          (server (trace st ++ [request_at 0]) (request_at 100)) = Ok d1 ->
        history_rows d1 = Some b1 ->
        length (data b1) = 100%nat ->
        decode (request_at 200)
          (server (trace st ++ [request_at 0; request_at 100])
             (request_at 200)) = Ok d2 ->
        history_rows d2 = Some b2 ->
        length (data b2) = 50%nat ->
        let table := append_pages (frame_of_block b0) [b1; b2] in
        trace (snd (run st))
        = trace st ++ [request_at 0; request_at 100; request_at 200]
        /\ len table = 250%nat
        /\ fst (run st) = convert_and_sort table
        /\ (dates_parse table ->
            exists df', fst (run st) = Ok df' /\ len df' = 250%nat)).
Proof.
  split.
  - intros st d b T Hdec Hb Htot Hall.
    destruct (run_paged st d b T Hdec Hb Htot)
      as (more & en & st2 & HL & Hrun).
    pose proof (history_rows_nonempty _ _ Hb) as Hne.
    assert (Hpos : (0 < len (append_pages (frame_of_block b) more))%nat).
    { rewrite len_append_pages. unfold len. simpl.
      destruct (data b); [now elim Hne|simpl; lia]. }
    assert (Hen : en = Completed).
    { pose proof (Loop_last _ _ _ _ _ _ _ _ _ HL) as Hlast. simpl in Hlast.
      pose proof (Loop_trace _ _ _ _ _ _ _ _ _ HL) as Htr0.
      assert (Hsent : en <> Completed ->
                trace st2
                = trace st
                  ++ request_at 0
                     :: map request_at
                          (offsets (len (frame_of_block b)) more)
                     ++ request_at
                          (len (append_pages (frame_of_block b) more))
                        :: []).
      { intros Hne'. rewrite Htr0. unfold requested.
        rewrite len_append_pages, map_app. simpl.
        rewrite <- app_assoc. simpl.
        destruct en; [now elim Hne'|reflexivity|reflexivity]. }
      destruct en as [| |e]; [reflexivity| |].
      - destruct Hlast as (dl & Hdl & Hnone).
        destruct (Hall (map request_at
                          (offsets (len (frame_of_block b)) more))
                    (request_at (len (append_pages (frame_of_block b) more)))
                    []) as (d' & b' & Hd' & Hb').
        + rewrite Hrun, trace_finish. apply Hsent. discriminate.
        + change (trace st ++ request_at 0 :: ?x)
            with (trace st ++ [request_at 0] ++ x) in Hd'.
          rewrite app_assoc in Hd'. congruence.
      - destruct (Hall (map request_at
                          (offsets (len (frame_of_block b)) more))
                    (request_at (len (append_pages (frame_of_block b) more)))
                    []) as (d' & b' & Hd' & Hb').
        + rewrite Hrun. apply Hsent. discriminate.
        + change (trace st ++ request_at 0 :: ?x)
            with (trace st ++ [request_at 0] ++ x) in Hd'.
          rewrite app_assoc in Hd'. congruence. }
    subst en. exists more.
    pose proof (Loop_trace _ _ _ _ _ _ _ _ _ HL) as Htr.
    pose proof (Loop_ending _ _ _ _ _ _ _ _ _ HL) as Hend.
    pose proof (Loop_requested_lt _ _ _ _ _ _ _ _ _ HL) as Hlt.
    pose proof (Loop_replies _ _ _ _ _ _ _ _ _ HL) as Hrep.
    unfold requested in Htr, Hlt. rewrite app_nil_r in Htr, Hlt.
    simpl in Hend. rewrite len_append_pages in Hend.
    rewrite Hrun, fst_finish, trace_finish, Htr.
    repeat split.
    + econstructor; eassumption.
    + simpl. now rewrite <- app_assoc.
    + simpl. rewrite length_app. unfold len in Hend. simpl in Hend. lia.
    + exact Hlt.
  - intros st d0 b0 d1 b1 d2 b2 Hdec0 Hb0 Htot Hl0 Hdec1 Hb1 Hl1
      Hdec2 Hb2 Hl2 table.
    apply declared_total_inv in Htot as (first & rest & Hc & Hn).
    assert (Hlen0 : len (frame_of_block b0) = 100%nat) by exact Hl0.
    assert (Hlen : len table = 250%nat).
    { unfold table. rewrite len_append_pages, Hlen0. simpl.
      rewrite !length_app, Hl1, Hl2. reflexivity. }
    assert (Hrun : run st
                   = finish table
                       (after_pages history_url first_params
                          (after_request st (request_at 0) (Ok d0))
                          [100; 200]%nat)).
    { rewrite run_eq. cbv zeta. rewrite Hdec0, Hb0, Hc, Hn.
      rewrite (pagination_replies _ _ _ _ [b1; b2]).
      - simpl offsets. rewrite Hlen0, Hl1. simpl Nat.add.
        fold table. rewrite pagination_done by lia. reflexivity.
      - simpl offsets. rewrite Hlen0, Hl1. simpl Nat.add.
        repeat econstructor; simpl; try eassumption.
        now rewrite <- app_assoc.
      - simpl offsets. rewrite Hlen0, Hl1. simpl Nat.add.
        repeat constructor; lia. }
    rewrite Hrun, fst_finish, trace_finish.
    repeat split.
    + simpl. now rewrite <- app_assoc.
    + exact Hlen.
    + intros Hd. destruct (convert_and_sort_ok _ Hd) as (df' & Hc' & Hl').
      exists df'. split; [assumption|congruence].
Qed.

(** C6: when the cursor declares more rows than the server has and a
    follow-up request comes back without rows, the loop stops there: that
    request is the last, what is returned is the table accumulated so far
    put through the final conversion and sort, with as many rows, and the
    zero-row page raises nothing. *)
Theorem C6_zero_row_page_ends_the_fetch st d b T more dz :
  decode (request_at 0) (server (trace st) (request_at 0)) = Ok d ->
  history_rows d = Some b ->
  declared_total d = Some T ->
  Replies server history_url first_params (trace st ++ [request_at 0])
    (offsets (length (data b)) more) more ->
  let table := append_pages (frame_of_block b) more in
  Z.of_nat (len table) < T ->
  decode (request_at (len table))
    (server (trace st ++ map request_at (offsets 0 (b :: more)))
       (request_at (len table))) = Ok dz ->
  history_rows dz = None ->
  trace (snd (run st))
  = trace st ++ map request_at (offsets 0 (b :: more) ++ [len table])
  /\ fst (run st) = convert_and_sort table
  /\ (dates_parse table ->
      exists df', fst (run st) = Ok df' /\ len df' = len table).
Proof.
  intros Hdec Hb Htot HR table Hlt Hdz Hnone.
  apply declared_total_inv in Htot as (first & rest & Hc & Hn).
  assert (Hrun : run st
                 = finish table
                     (after_pages history_url first_params
                        (after_pages history_url first_params
                           (after_request st (request_at 0) (Ok d))
                           (offsets (length (data b)) more))
                        [len table])).
  { rewrite run_eq. cbv zeta. rewrite Hdec, Hb, Hc, Hn.
    rewrite (pagination_replies _ _ _ _ more); [|exact HR|].
    - fold table.
      rewrite (pagination_end_of_data _ _ _ _ _ _ dz); auto.
      simpl. rewrite <- app_assoc. exact Hdz.
    - apply List.Forall_forall. intros k Hk. apply offsets_le in Hk.
      unfold table in Hlt. rewrite len_append_pages in Hlt. lia. }
  rewrite Hrun, fst_finish, trace_finish. repeat split.
  - simpl. rewrite map_app, <- !app_assoc. reflexivity.
  - intros Hd. destruct (convert_and_sort_ok _ Hd) as (df' & Hc' & Hl').
    eauto.
Qed.

(** C2, as the code has it: for every fetch that completes without an error
    after a first page with rows whose cursor declares the total [T], the
    table returned has at least [T] rows, unless the last request came back
    without rows, in which case it has fewer than [T].  Its rows are those
    of the pages the server served, the requests sent are the requests for
    these pages, followed by the one that came back without rows when the
    table is short of [T], and every follow-up page was asked for while the
    count was below [T]: only the page received last can take the count
    past [T].  In both cases the only line the call logs is the final INFO
    line: no warning. *)
Theorem C2_row_count_against_declared_total st d b T df' :
  decode (request_at 0) (server (trace st) (request_at 0)) = Ok d ->
  history_rows d = Some b ->
  declared_total d = Some T ->
  fst (run st) = Ok df' ->
  (T <= Z.of_nat (len df')
   \/ (Z.of_nat (len df') < T
       /\ exists tr r dz,
            trace (snd (run st)) = tr ++ [r]
            /\ decode r (server tr r) = Ok dz
            /\ history_rows dz = None))
  /\ (exists more,
        Replies server history_url first_params (trace st)
          (offsets 0 (b :: more)) (b :: more)
        /\ trace (snd (run st))
           = trace st
             ++ map request_at
                  (offsets 0 (b :: more)
                   ++ (if T <=? Z.of_nat (len df') then [] else [len df']))
        /\ len df' = length (flat_map data (b :: more))
        /\ Forall (fun k => Z.of_nat k < T) (offsets (length (data b)) more))
  /\ logs (snd (run st)) = logs st ++ [loaded_line df']
  /\ lvl (loaded_line df') = INFO.
Proof.
  intros Hdec Hb Htot Hok.
  destruct (run_paged st d b T Hdec Hb Htot) as (more & en & st2 & HL & Hrun).
  pose proof (Loop_trace _ _ _ _ _ _ _ _ _ HL) as Htr.
  pose proof (Loop_ending _ _ _ _ _ _ _ _ _ HL) as Hend.
  pose proof (Loop_requested_lt _ _ _ _ _ _ _ _ _ HL) as Hlt.
  pose proof (Loop_logs _ _ _ _ _ _ _ _ _ HL) as Hlogs.
  pose proof (Loop_last _ _ _ _ _ _ _ _ _ HL) as Hlast.
  rewrite Hrun in Hok |- *.
  assert (Hfin : en <> Completed -> en <> EndOfData -> False).
  { destruct en; try congruence. simpl in Hok. discriminate. }
  assert (Hconv : convert_and_sort (append_pages (frame_of_block b) more)
                  = Ok df').
  { destruct en; [| |exfalso; apply Hfin; discriminate];
      now rewrite fst_finish in Hok. }
  apply convert_and_sort_shape in Hconv as Hshape.
  destruct Hshape as [_ Hlen].
  assert (Hrows : len df' = length (flat_map data (b :: more))).
  { rewrite Hlen, len_append_pages. simpl. now rewrite length_app. }
  assert (Hoffs : Forall (fun k => Z.of_nat k < T)
                    (offsets (length (data b)) more)).
  { unfold requested in Hlt. apply Forall_app in Hlt. tauto. }
  assert (Hrep : Replies server history_url first_params (trace st)
                   (offsets 0 (b :: more)) (b :: more)).
  { simpl. econstructor; [eassumption..|].
    exact (Loop_replies _ _ _ _ _ _ _ _ _ HL). }
  assert (Hserved : exists more0,
             Replies server history_url first_params (trace st)
               (offsets 0 (b :: more0)) (b :: more0)
             /\ trace st2
                = trace st
                  ++ map request_at
                       (offsets 0 (b :: more0)
                        ++ (if T <=? Z.of_nat (len df') then []
                            else [len df']))
             /\ len df' = length (flat_map data (b :: more0))
             /\ Forall (fun k => Z.of_nat k < T)
                  (offsets (length (data b)) more0)).
  { exists more. split; [exact Hrep|]. split; [|split; assumption].
    rewrite Htr, Hlen. unfold requested.
    change (trace (after_request st (request_at 0) (Ok d)))
      with (trace st ++ [request_at 0]).
    change (offsets 0 (b :: more))
      with (0%nat :: offsets (len (frame_of_block b)) more).
    rewrite <- app_assoc. cbn [app map]. do 3 f_equal.
    destruct en as [| |e]; [| |exfalso; apply Hfin; discriminate];
      cbv beta iota in Hend;
      destruct (Z.leb_spec T
                  (Z.of_nat (len (append_pages (frame_of_block b) more))));
      try lia; [reflexivity|].
    now rewrite len_append_pages. }
  destruct en as [| |e]; [| |exfalso; apply Hfin; discriminate].
  - split; [left; simpl in Hend; lia|].
    split; [now rewrite trace_finish|].
    rewrite (logs_finish _ _ _ Hconv), Hlogs. simpl.
    now rewrite !app_nil_r.
  - split.
    + right. split; [simpl in Hend; lia|].
      destruct Hlast as (dz & Hdz & Hnone).
      exists (trace (after_request st (request_at 0) (Ok d))
              ++ map request_at (offsets (len (frame_of_block b)) more)),
        (request_at (len (append_pages (frame_of_block b) more))), dz.
      split; [|split; assumption].
      rewrite trace_finish, Htr. unfold requested.
      rewrite map_app, app_assoc, len_append_pages. reflexivity.
    + split; [now rewrite trace_finish|].
      rewrite (logs_finish _ _ _ Hconv), Hlogs. simpl.
      now rewrite !app_nil_r.
Qed.

Lemma split_singleton {A} (l pre post : list A) (x y : A) :
  l ++ [x] = l ++ pre ++ y :: post -> pre = [] /\ y = x /\ post = [].
Proof.
  intros Heq. apply app_inv_head in Heq.
  destruct pre as [|z [|z' pre]]; try discriminate.
  now injection Heq as -> <-.
Qed.

(** C4: whichever request of a call the accessor fails on (the server is
    unreachable or times out, the status is an error status, the body is
    not JSON), the call raises that very exception, sends no further
    request, and returns no table: the result is the exception alone. *)
Theorem C4_request_failure_propagates st pre r post e :
  trace (snd (run st)) = trace st ++ pre ++ r :: post ->
  decode r (server (trace st ++ pre) r) = Raise e ->
  fst (run st) = Raise e /\ post = [].
Proof.
  intros Htr Hfail.
  assert (Hone : trace (snd (run st)) = trace st ++ [request_at 0] ->
                 decode (request_at 0) (server (trace st) (request_at 0))
                 = Raise e /\ post = []).
  { intros Hone. rewrite Hone in Htr.
    apply split_singleton in Htr as (-> & -> & ->).
    now rewrite app_nil_r in Hfail. }
  destruct (decode (request_at 0) (server (trace st) (request_at 0)))
    as [d|e0] eqn:Hdec.
  - destruct (history_rows d) as [b|] eqn:Hb.
    + destruct (declared_total d) as [T|] eqn:Htot.
      * destruct (run_paged st d b T Hdec Hb Htot)
          as (more & en & st2 & HL & Hrun).
        pose proof (Loop_trace _ _ _ _ _ _ _ _ _ HL) as Htr2.
        assert (Htrace : trace (snd (run st))
                         = trace st ++ request_at 0
                           :: map request_at
                                (requested (len (frame_of_block b)) more en)).
        { rewrite Hrun. destruct en; rewrite ?trace_finish; simpl;
            rewrite Htr2; simpl; now rewrite <- app_assoc. }
        rewrite Htrace in Htr. apply app_inv_head in Htr.
        destruct pre as [|x pre].
        -- injection Htr as <- _. rewrite app_nil_r in Hfail. congruence.
        -- injection Htr as <- Htr.
           destruct (Loop_failure_is_last _ _ _ _ _ _ _ _ _ HL
                       pre r post e Htr) as [-> ->].
           ++ simpl. now rewrite <- app_assoc.
           ++ now rewrite Hrun.
      * destruct Hone as [Hno _]; [|discriminate].
        rewrite run_eq. cbv zeta. rewrite Hdec, Hb.
        unfold declared_total in Htot.
        destruct (cursor_data_of d) as [|first rest];
          [now rewrite trace_finish|].
        rewrite Htot. reflexivity.
    + destruct Hone as [Hno _]; [|discriminate].
      rewrite run_eq. cbv zeta. now rewrite Hdec, Hb.
  - assert (Hrun : run st = (Raise e0, after_request st (request_at 0)
                                         (Raise e0))).
    { rewrite run_eq. cbv zeta. now rewrite Hdec. }
    rewrite Hrun in Hone |- *. destruct (Hone eq_refl) as [[= ->] ->].
    auto.
Qed.

(** Every call sends the request for offset 0 first, and after it only
    requests of the same call. *)
Lemma run_trace st :
  exists offs,
    trace (snd (run st)) = trace st ++ map request_at (0%nat :: offs).
Proof.
  rewrite run_eq. cbv zeta.
  destruct (decode _ _) as [d|e]; [|exists []; reflexivity].
  destruct (history_rows d) as [b|]; [|exists []; reflexivity].
  destruct (cursor_data_of d) as [|first rest];
    [exists []; now rewrite trace_finish|].
  destruct (nth_error first 1) as [T|]; [|exists []; reflexivity].
  destruct (pagination_Loop server history_url first_params T
              (frame_of_block b)
              (after_request st (request_at 0) (Ok d)))
    as (more & en & st2 & HL & ->).
  exists (requested (len (frame_of_block b)) more en).
  pose proof (Loop_trace _ _ _ _ _ _ _ _ _ HL) as Htr.
  destruct en; simpl; rewrite ?trace_finish, Htr; simpl;
    now rewrite <- app_assoc.
Qed.

(** C8: a date that is left out is filled in, [from_date] with the day 30
    days before today and [till_date] with today; a [datetime] is printed
    as [YYYY-MM-DD] and a string is passed as it is; these two strings are
    the ['from'] and ['till'] of every request the call sends, and they
    have the canonical form [YYYY-MM-DD] whenever the strings the caller
    gave have it. *)
Theorem C8_dates_default_and_normalise st :
  let from_s := match from_date with
                | None => strftime_Y_m_d (now - 30)
                | Some (DateObject d) => strftime_Y_m_d d
                | Some (DateString s) => s
                end in
  let till_s := match till_date with
                | None => strftime_Y_m_d now
                | Some (DateObject d) => strftime_Y_m_d d
                | Some (DateString s) => s
                end in
  (exists sent_now,
      trace (snd (run st)) = trace st ++ sent_now
      /\ sent_now <> []
      /\ Forall (fun r => p_from (req_params r) = from_s
                          /\ p_till (req_params r) = till_s) sent_now)
  /\ ((forall s, from_date = Some (DateString s) -> is_YYYY_MM_DD s = true) ->
      is_YYYY_MM_DD from_s = true)
  /\ ((forall s, till_date = Some (DateString s) -> is_YYYY_MM_DD s = true) ->
      is_YYYY_MM_DD till_s = true).
Proof.
  cbv zeta. split; [|split].
  - destruct (run_trace st) as (offs & Htr).
    exists (map request_at (0%nat :: offs)). split; [assumption|].
    split; [discriminate|].
    apply List.Forall_map, List.Forall_forall. intros k _.
    unfold page_request, sent, with_lang, set_start, first_params,
      from_string, till_string. simpl.
    destruct from_date as [[s|d]|], till_date as [[s'|d']|]; auto.
  - destruct from_date as [[s|d]|]; auto using strftime_is_YYYY_MM_DD.
  - destruct till_date as [[s|d]|]; auto using strftime_is_YYYY_MM_DD.
Qed.

End Fetch.

(** ** The batch download *)

(** The board [download_index] picks for a code. *)
Definition board_of (index_code : string) : string :=
  match registry_get index_code EQUITY_INDICES with
  | Some b => b
  | None =>
      match registry_get index_code BOND_INDICES with
      | Some b => b
      | None => "SNDX"%string
      end
  end.

Section Batch.

Context `{Pandas}.
Variable server : http_server.
Variable now : datetime.
Variable disk : disk_model.
Variable output_dir : string.
Variables start_date end_date : option string.

Hypothesis Hclock : 30 < now <= MAXORDINAL.

Definition start_string : string :=
  match start_date with None => "2010-01-01"%string | Some s => s end.

Definition end_string : string :=
  match end_date with None => strftime_Y_m_d now | Some s => s end.

(** The first request of the download of one index. *)
Definition index_request (index_code : string) : request :=
  page_request (history_url "stock" "index" (board_of index_code) index_code)
    (first_params now (Some (DateString start_string))
       (Some (DateString end_string)) 24) 0.

(** The fetch [download_index] makes for a code. *)
Definition fetch (index_code : string) : M DataFrame :=
  get_index_history server now index_code
    (Some (DateString start_string)) (Some (DateString end_string))
    (board_of index_code).

(** The line [download_index] logs before it fetches. *)
Definition loading_line (index_code : string) : log_record :=
  {| lvl := INFO;
     message := ("Загрузка " ++ index_code ++ " за период "
                 ++ start_string ++ " — " ++ end_string ++ "...")%string |}.

(** The fetch as [download_index] makes it from state [st]. *)
Definition fetch_of (index_code : string) (st : state)
  : result DataFrame * state :=
  fetch index_code (add_log st (loading_line index_code)).

(** The fetch of a code raises whenever it is made. *)
Definition fetch_always_fails (index_code : string) : Prop :=
  forall st, exists e, fst (fetch index_code st) = Raise e.

Lemma download_index_run index_code st :
  exists df st',
    download_index server now disk index_code output_dir start_date end_date st
    = (Ok df, st')
    /\ trace st' = trace (snd (fetch_of index_code st))
    /\ (forall e, fst (fetch_of index_code st) = Raise e -> df = None).
Proof.
  unfold fetch_of, fetch, loading_line, download_index.
  fold start_string. fold end_string. fold (board_of index_code).
  rewrite bind_run, logger_run, try_except_run, bind_run. unfold add_log.
  destruct (get_index_history _ _ _ _ _ _ _) as [[df|e] st1]; simpl.
  2:{ rewrite bind_run, logger_run, ret_run. eauto. }
  assert (Hdone : forall (r : result (option DataFrame)) st2,
             trace st2 = trace st1 ->
             exists df0 st',
               match r with
               | Ok a => (Ok a, st2)
               | Raise e =>
                   (logger ERROR
                      ("Ошибка при загрузке " ++ index_code ++ ": "
                       ++ exn_msg e)%string ;;;
                    ret None) st2
               end = (Ok df0, st')
               /\ trace st' = trace st1
               /\ (forall e : exn, Ok df = Raise e -> df0 = None)).
  { intros [a|e] st2 Htr; [|rewrite bind_run, logger_run, ret_run];
      do 2 eexists; (split; [reflexivity|]); (split; [|discriminate]);
      assumption. }
  destruct (df_empty df).
  { rewrite bind_run, logger_run, ret_run.
    (refine (Hdone (Ok None) _ _); reflexivity). }
  rewrite bind_run. unfold mkdir at 1.
  destruct (disk (Mkdir output_dir)); [(refine (Hdone (Raise _) _ _); reflexivity)|].
  rewrite bind_run. unfold dates_to_strings.
  assert (Hsave : forall df1,
             exists df0 st',
               (let (r, st'0) :=
                  (to_csv disk df1
                     (output_dir ++ "/" ++ index_code ++ "_"
                      ++ strftime_Ymd now ++ ".csv")%string ;;;
                   logger INFO
                     ("Сохранено " ++ str_nat (len df1) ++ " записей в "
                      ++ output_dir ++ "/" ++ index_code ++ "_"
                      ++ strftime_Ymd now ++ ".csv")%string ;;;
                   ret (Some df1)) st1 in
                match r with
                | Ok a => (Ok a, st'0)
                | Raise e =>
                    (logger ERROR
                       ("Ошибка при загрузке " ++ index_code ++ ": "
                        ++ exn_msg e)%string ;;;
                     ret None) st'0
                end) = (Ok df0, st')
               /\ trace st' = trace st1
               /\ (forall e : exn, Ok df = Raise e -> df0 = None)).
  { intros df1. rewrite bind_run. unfold to_csv at 1.
    destruct (disk (ToCsv _)); [(refine (Hdone (Raise _) _ _); reflexivity)|].
    rewrite bind_run, logger_run, ret_run.
    (refine (Hdone (Ok _) _ _); reflexivity). }
  destruct (column_index "TRADEDATE" (df_columns df)) as [i|];
    [|rewrite ret_run; apply Hsave].
  destruct (to_datetime _) as [keys|e];
    [rewrite ret_run; apply Hsave
    |rewrite raise_run; (refine (Hdone (Raise _) _ _); reflexivity)].
Qed.

Lemma fetch_of_trace index_code st :
  exists more,
    trace (snd (fetch_of index_code st))
    = trace st ++ index_request index_code :: more.
Proof.
  unfold fetch_of, fetch, get_index_history.
  destruct (run_trace server now "stock" "index" (board_of index_code)
              index_code (Some (DateString start_string))
              (Some (DateString end_string)) 24 Hclock
              (add_log st (loading_line index_code)))
    as (offs & Htr).
  unfold run in Htr. rewrite Htr. simpl. eauto.
Qed.

(** A request that fails ends the fetch with its exception: nothing inside
    [get_historical_data] catches it. *)
Lemma fetch_fails index_code e st :
  (forall tr, decode (index_request index_code)
                (server tr (index_request index_code)) = Raise e) ->
  fst (fetch index_code st) = Raise e.
Proof.
  intros Hfail. unfold fetch, get_index_history.
  pose proof (run_eq server now "stock" "index" (board_of index_code)
                index_code (Some (DateString start_string))
                (Some (DateString end_string)) 24 Hclock st) as Heq.
  unfold run in Heq. rewrite Heq. cbv zeta.
  fold (index_request index_code). now rewrite Hfail.
Qed.

Lemma download_each_run indices results st :
  exists results' st',
    download_each server now disk indices output_dir start_date end_date
      results st = (Ok results', st')
    /\ (exists more, trace st' = trace st ++ more)
    /\ (forall c, In c indices ->
          is_Some (results' !! c) /\ In (index_request c) (trace st'))
    /\ (forall c, ~ In c indices -> results' !! c = results !! c)
    /\ (forall c, In c indices -> fetch_always_fails c ->
          results' !! c = Some false).
Proof.
  revert results st. induction indices as [|c0 rest IH]; intros results st.
  - simpl. rewrite ret_run. exists results, st.
    split; [reflexivity|]. split; [exists []; now rewrite app_nil_r|].
    repeat split; intros; simpl in *; tauto.
  - simpl. rewrite bind_run.
    destruct (download_index_run c0 st) as (df & st1 & -> & Htr1 & Hfail1).
    destruct (fetch_of_trace c0 st) as (more1 & Hmore1).
    rewrite Hmore1 in Htr1.
    destruct (IH (<[c0 := is_not_None df]> results) st1)
      as (results' & st' & -> & (more & Hmore) & Hin & Hout & Hf).
    exists results', st'. split; [reflexivity|].
    assert (Hc0 : ~ In c0 rest ->
                  results' !! c0 = Some (is_not_None df)).
    { intros Hno. rewrite (Hout c0 Hno). apply lookup_insert_eq. }
    split; [|split; [|split]].
    + exists (index_request c0 :: more1 ++ more).
      rewrite Hmore, Htr1, <- app_assoc. reflexivity.
    + intros c Hc. destruct (in_dec string_dec c rest) as [Hr|Hr];
        [now apply Hin|].
      destruct Hc as [<-|Hc]; [|contradiction].
      split; [rewrite (Hc0 Hr); eauto|].
      rewrite Hmore, Htr1. apply in_or_app. left.
      apply in_or_app. right. now left.
    + intros c Hc. simpl in Hc.
      rewrite Hout by tauto. apply lookup_insert_ne. tauto.
    + intros c Hc Hfail.
      destruct (in_dec string_dec c rest) as [Hr|Hr]; [now apply (Hf c)|].
      destruct Hc as [<-|Hc]; [|contradiction].
      rewrite (Hc0 Hr). f_equal.
      destruct (Hfail (add_log st (loading_line c0))) as [e He].
      now rewrite (Hfail1 e).
Qed.

(** C9: in a batch, an index whose fetch fails does not stop the others.
    An exception raised by a request leaves [get_historical_data] (called
    through [get_index_history]) uncaught; and when the fetch of a code
    raises, on whichever page, [download_index] catches the exception and
    returns [None], and both batch functions return without raising, map
    that code to [False], give every code of the batch an entry and have
    sent the first request of every one of them. *)
Theorem C9_failed_index_does_not_stop_the_batch indices code st :
  (forall e,
      (forall tr, decode (index_request code)
                    (server tr (index_request code)) = Raise e) ->
      forall st0, fst (fetch code st0) = Raise e)
  /\ (In code indices ->
      fetch_always_fails code ->
      (forall st0,
          fst (download_index server now disk code output_dir
                 start_date end_date st0) = Ok None)
      /\ (forall batch,
            batch = download_bond_indices server now disk
            \/ batch = download_equity_indices server now disk ->
            exists results st',
              batch (Some indices) output_dir start_date end_date st
              = (Ok results, st')
              /\ results !! code = Some false
              /\ (forall c, In c indices ->
                    is_Some (results !! c)
                    /\ In (index_request c) (trace st')))).
Proof.
  split; [intros e Hreq st0; now apply fetch_fails|].
  intros Hin Hfail. split.
  - intros st0.
    destruct (download_index_run code st0) as (df & st1 & -> & _ & Hnone).
    destruct (Hfail (add_log st0 (loading_line code))) as [e He].
    simpl. f_equal. now apply (Hnone e).
  - intros batch Hbatch.
    assert (Hrun : forall st0,
               exists results st',
                 download_each server now disk indices output_dir
                   start_date end_date ∅ st0 = (Ok results, st')
                 /\ results !! code = Some false
                 /\ (forall c, In c indices ->
                       is_Some (results !! c)
                       /\ In (index_request c) (trace st'))).
    { intros st0.
      destruct (download_each_run indices ∅ st0)
        as (results & st' & Heq & _ & Hall & _ & Hf).
      exists results, st'. eauto. }
    destruct Hbatch as [-> | ->];
      unfold download_bond_indices, download_equity_indices;
      rewrite bind_run, logger_run, bind_run;
      match goal with
      | |- context [download_each _ _ _ _ _ _ _ _ ?s] =>
          destruct (Hrun s) as (results & st' & -> & Hcode & Hall)
      end;
      rewrite bind_run, logger_run, ret_run;
      exists results; eexists; (split; [reflexivity|]); auto.
Qed.

End Batch.

(** * The scenarios of the specification, run *)

Import Samples.

Lemma today_ok : 30 < today <= MAXORDINAL.
Proof. unfold today, MAXORDINAL. lia. Qed.

(** Scenario A: the server holds no row. *)
Lemma C5_first_page_without_rows_witness :
  let r := run (H:=stable_pandas) (paged_server 0 0) today
             "stock" "index" "SNDX" "IMOEX" None None 24 initial_state in
  fst r = Ok empty_frame
  /\ length (trace (snd r)) = 1%nat
  /\ map lvl (logs (snd r)) = [WARNING].
Proof.
  pose proof (C5_first_page_without_rows (H:=stable_pandas)
                (paged_server 0 0) today "stock" "index" "SNDX" "IMOEX"
                None None 24 today_ok initial_state (sample_doc 0 0 0)
                eq_refl
                (or_intror (ex_intro _ (sample_page 0 0)
                              (conj eq_refl eq_refl))))
    as (Hres & Htr & Hlog & _).
  cbv zeta. rewrite Hres, Htr, Hlog. repeat split.
Defined.

(** Scenario D: fifty rows, no cursor block. *)
Lemma C7_first_page_is_complete_witness :
  let r := run (H:=stable_pandas) (cursorless_server 50) today
             "stock" "index" "SNDX" "IMOEX" None None 24 initial_state in
  map (fun q => p_start (req_params q)) (trace (snd r)) = [0%nat]
  /\ exists df', fst r = Ok df' /\ len df' = 50%nat.
Proof.
  destruct (C7_first_page_is_complete (H:=stable_pandas)
              (cursorless_server 50) today "stock" "index" "SNDX" "IMOEX"
              None None 24 today_ok initial_state
              {| history := Some (sample_page 0 50); history_cursor := None |}
              (sample_page 0 50) eq_refl eq_refl (or_introl eq_refl))
    as (Htr & _ & _ & Hok).
  cbv zeta. rewrite Htr. split; [reflexivity|].
  destruct Hok as (df' & Hres & _ & Hlen).
  - eexists. vm_compute. reflexivity.
  - exists df'. split; [assumption|]. rewrite Hlen. reflexivity.
Defined.

(** Scenario B: 250 rows declared and held, by its pages and by the
    requests sent. *)
Lemma C1_follow_up_offsets_track_row_count_witness :
  (let r := run (H:=stable_pandas) (paged_server 250 250) today
              "stock" "index" "SNDX" "IMOEX" None None 24 initial_state in
   map (fun q => p_start (req_params q)) (trace (snd r)) = [0; 100; 200]%nat
   /\ exists df', fst r = Ok df' /\ len df' = 250%nat)
  /\ (let r := run (H:=stable_pandas) (paged_server 250 250) today
                 "stock" "index" "SNDX" "IMOEX" None None 24 initial_state in
      exists more,
        map (fun q => p_start (req_params q)) (trace (snd r))
        = offsets 0 (sample_page 0 100 :: more)
        /\ 250 <= Z.of_nat (length (flat_map data (sample_page 0 100 :: more)))).
Proof.
  split.
  - destruct (proj2 (C1_follow_up_offsets_track_row_count (H:=stable_pandas)
                       (paged_server 250 250) today "stock" "index" "SNDX"
                       "IMOEX" None None 24 today_ok)
                initial_state
                (sample_doc 0 100 250) (sample_page 0 100)
                (sample_doc 100 100 250) (sample_page 100 100)
                (sample_doc 200 50 250) (sample_page 200 50))
      as (Htr & _ & _ & Hok); try reflexivity.
    cbv zeta. rewrite Htr. split; [reflexivity|].
    apply Hok. eexists. vm_compute. reflexivity.
  - destruct (proj1 (C1_follow_up_offsets_track_row_count (H:=stable_pandas)
                       (paged_server 250 250) today "stock" "index" "SNDX"
                       "IMOEX" None None 24 today_ok)
                initial_state (sample_doc 0 100 250) (sample_page 0 100) 250)
      as (more & _ & Htr & _ & Htot & _); try reflexivity.
    + intros pre r post Hsent.
      assert (Hrun : trace
                       (snd (run (H:=stable_pandas) (paged_server 250 250)
                               today "stock" "index" "SNDX" "IMOEX" None None
                               24 initial_state))
                     = map (page_request
                              (history_url "stock" "index" "SNDX" "IMOEX")
                              (first_params today None None 24))
                         [0; 100; 200]%nat)
        by (vm_compute; reflexivity).
      rewrite Hrun in Hsent. simpl in Hsent. injection Hsent as Hsent.
      destruct pre as [|q1 [|q2 pre]]; simpl in Hsent.
      * injection Hsent as <- _. do 2 eexists. split; reflexivity.
      * injection Hsent as _ <- _. do 2 eexists. split; reflexivity.
      * injection Hsent as _ _ Hsent. destruct pre; discriminate Hsent.
    + cbv zeta. exists more. rewrite Htr. split; [|exact Htot].
      rewrite app_nil_l, map_map. simpl. f_equal.
      apply map_id.
Defined.

(** Scenario C: 300 rows declared, 200 held. *)
Lemma C6_zero_row_page_ends_the_fetch_witness :
  let r := run (H:=stable_pandas) (paged_server 200 300) today
             "stock" "index" "SNDX" "IMOEX" None None 24 initial_state in
  map (fun q => p_start (req_params q)) (trace (snd r)) = [0; 100; 200]%nat
  /\ exists df', fst r = Ok df' /\ len df' = 200%nat.
Proof.
  destruct (C6_zero_row_page_ends_the_fetch (H:=stable_pandas)
              (paged_server 200 300) today "stock" "index" "SNDX" "IMOEX"
              None None 24 today_ok initial_state
              (sample_doc 0 100 300) (sample_page 0 100) 300
              [sample_page 100 100] (sample_doc 200 0 300))
    as (Htr & _ & Hok); try reflexivity.
  - econstructor; [reflexivity..|constructor].
  - cbv zeta. rewrite Htr. split; [reflexivity|].
    apply Hok. eexists. vm_compute. reflexivity.
Defined.

(** A server that declares 150 rows and serves 200: the second page takes
    the table past the total.  And scenario C again: the table stays short
    of the total and the log has no warning. *)
Lemma C2_counterexample :
  (let r := run (H:=stable_pandas) (paged_server 200 150) today
              "stock" "index" "SNDX" "IMOEX" None None 24 initial_state in
   declared_total (sample_doc 0 100 150) = Some 150
   /\ exists df',
        fst r = Ok df'
        /\ ~ (Z.of_nat (len df') = 150
              \/ (Z.of_nat (len df') < 150
                  /\ Exists (fun l => lvl l = WARNING) (logs (snd r)))))
  /\ (let r := run (H:=stable_pandas) (paged_server 200 300) today
                 "stock" "index" "SNDX" "IMOEX" None None 24 initial_state in
      declared_total (sample_doc 0 100 300) = Some 300
      /\ exists df',
           fst r = Ok df'
           /\ ~ (Z.of_nat (len df') = 300
                 \/ (Z.of_nat (len df') < 300
                     /\ Exists (fun l => lvl l = WARNING) (logs (snd r))))).
Proof.
  split; cbv zeta; (split; [reflexivity|]); eexists;
    (split; [vm_compute; reflexivity|]).
  - vm_compute. intros [Heq|[Hlt _]]; discriminate.
  - intros [Heq|[_ Hw]]; [vm_compute in Heq; discriminate|].
    vm_compute in Hw.
    inversion Hw as [? ? Hl|? ? Hl]; [discriminate|inversion Hl].
Qed.

Lemma C2_row_count_against_declared_total_witness :
  let r := run (H:=stable_pandas) (paged_server 101 101) today
             "stock" "index" "SNDX" "IMOEX" None None 24 initial_state in
  exists df', fst r = Ok df'
              /\ 101 <= Z.of_nat (len df')
              /\ map lvl (logs (snd r)) = [INFO].
Proof.
  cbv zeta. eexists. split; [vm_compute; reflexivity|].
  match goal with
  | |- context [len ?df] =>
      destruct (C2_row_count_against_declared_total (H:=stable_pandas)
                  (paged_server 101 101) today "stock" "index" "SNDX"
                  "IMOEX" None None 24 today_ok initial_state
                  (sample_doc 0 100 101) (sample_page 0 100) 101 df)
        as (Hcount & _ & Hlogs & Hlvl); try reflexivity
  end.
  split.
  - destruct Hcount as [Hge|[Hlt _]]; [exact Hge|].
    vm_compute in Hlt. discriminate.
  - rewrite Hlogs. reflexivity.
Defined.

(** Scenario E: the second request times out. *)
Lemma C4_request_failure_propagates_witness :
  let r := run (H:=stable_pandas) (failing_server 1 250 250) today
             "stock" "index" "SNDX" "IMOEX" None None 24 initial_state in
  fst r = Raise {| exn_cls := Timeout; exn_msg := "Read timed out." |}
  /\ map (fun q => p_start (req_params q)) (trace (snd r)) = [0; 100]%nat.
Proof.
  cbv zeta. split; [|vm_compute; reflexivity].
  eapply (C4_request_failure_propagates (H:=stable_pandas)
            (failing_server 1 250 250) today "stock" "index" "SNDX" "IMOEX"
            None None 24 today_ok initial_state [_] _ []).
  - vm_compute. reflexivity.
  - vm_compute. reflexivity.
Defined.

(** A call without [from_date], with [till_date] given as a string. *)
Lemma C8_dates_default_and_normalise_witness :
  let r := run (H:=stable_pandas) (paged_server 250 250) today
             "stock" "index" "SNDX" "IMOEX"
             None (Some (DateString "2024-01-15")) 24 initial_state in
  map (fun q => (p_from (req_params q), p_till (req_params q)))
    (trace (snd r))
  = [("2024-01-01", "2024-01-15"); ("2024-01-01", "2024-01-15");
     ("2024-01-01", "2024-01-15")]
  /\ is_YYYY_MM_DD "2024-01-01" = true
  /\ is_YYYY_MM_DD "2024-01-15" = true.
Proof.
  destruct (C8_dates_default_and_normalise (H:=stable_pandas)
              (paged_server 250 250) today "stock" "index" "SNDX" "IMOEX"
              None (Some (DateString "2024-01-15")) 24 today_ok
              initial_state)
    as (_ & Hfrom & Htill).
  split; [vm_compute; reflexivity|]. split.
  - apply Hfrom. discriminate.
  - apply Htill. now intros s [= <-].
Defined.


(** A batch of three codes; every request for the second one times out. *)
Lemma C9_failed_index_does_not_stop_the_batch_witness :
  let server :=
    flaky_server
      "http://iss.moex.com/iss/history/engines/stock/markets/index/boards/SNDX/securities/RGBI.json" in
  exists results st',
    download_bond_indices (H:=stable_pandas) server today good_disk
      (Some ["RGBITR"; "RGBI"; "RUCBITR"]%string) "./data/bonds" None None
      initial_state = (Ok results, st')
    /\ results !! "RGBI"%string = Some false
    /\ is_Some (results !! "RUCBITR"%string).
Proof.
  intros server.
  destruct (C9_failed_index_does_not_stop_the_batch (H:=stable_pandas)
              server today good_disk "./data/bonds" None None today_ok
              ["RGBITR"; "RGBI"; "RUCBITR"]%string "RGBI" initial_state)
    as (Hraise & Hbatch).
  destruct Hbatch as (_ & Hbatch).
  - simpl. tauto.
  - intros st0.
    exists {| exn_cls := Timeout; exn_msg := "Read timed out." |}.
    apply Hraise. intros tr. reflexivity.
  - destruct (Hbatch _ (or_introl eq_refl))
      as (results & st' & Heq & Hcode & Hall).
    exists results, st'. split; [assumption|]. split; [assumption|].
    apply Hall. simpl. tauto.
Defined.

(** The same batch, run: the code that failed is mapped to
    [False], the two others to [True]. *)
Example batch_of_three :
  let server :=
    flaky_server
      "http://iss.moex.com/iss/history/engines/stock/markets/index/boards/SNDX/securities/RGBI.json" in
  match download_bond_indices (H:=stable_pandas) server today good_disk
          (Some ["RGBITR"; "RGBI"; "RUCBITR"]%string) "./data/bonds" None None
          initial_state with
  | (Ok results, st') =>
      (results !! "RGBITR"%string, results !! "RGBI"%string,
       results !! "RUCBITR"%string, map fst (files st'))
      = (Some true, Some false, Some true,
         ["./data/bonds/RGBITR_20240131.csv";
          "./data/bonds/RUCBITR_20240131.csv"]%string)
  | _ => False
  end.
Proof. vm_compute. reflexivity. Qed.

(** The loop of scenario C, from the first page on. *)
Lemma C10_pagination_terminates_witness :
  let ps := {| p_from := "2024-01-01"; p_till := "2024-01-31";
               p_interval := 24; p_start := 0; p_lang := None |} in
  let df := frame_of_block (sample_page 0 100) in
  let r := pagination (paged_server 200 300) "history" ps 300 df
             initial_state in
  (length (trace (snd r)) <= 200)%nat
  /\ (len df < len (concat df (frame_of_block (sample_page 100 100))))%nat.
Proof.
  intros ps df r.
  destruct (C10_pagination_terminates (paged_server 200 300) "history" ps 300
              df initial_state) as (Hbound & _ & Hstep & _).
  split; [exact Hbound|].
  apply (Hstep (sample_doc 100 100 300) (sample_page 100 100));
    reflexivity.
Defined.

(** * Further properties of the history fetch *)

(** ** The offsets of a run of the loop *)

Section LoopOffsets.

Variable server : http_server.
Variable url : string.
Variable ps : params.
Variable T : Z.

(** Every request of the loop is sent at an offset beyond the one before,
    and none below the number of rows the loop started with. *)
Lemma Loop_requested_sorted df st pages en st' :
  Loop server url ps T df st pages en st' ->
  StronglySorted lt (requested (len df) pages en)
  /\ Forall (fun k => (len df <= k)%nat) (requested (len df) pages en).
Proof.
  induction 1 as [df st Hge|df st e Hlt Hdec|df st d Hlt Hdec Hb
                 |df st d b pages en st' Hlt Hdec Hb HL IH].
  - unfold requested. simpl. split; constructor.
  - unfold requested. simpl. rewrite Nat.add_0_r.
    split; repeat constructor.
  - unfold requested. simpl. rewrite Nat.add_0_r.
    split; repeat constructor.
  - rewrite requested_cons. rewrite len_concat in IH.
    destruct IH as [IHs IHf].
    pose proof (history_rows_nonempty _ _ Hb) as Hne.
    assert (1 <= length (data b))%nat
      by (destruct (data b); [now elim Hne|simpl; lia]).
    split; constructor; auto.
    + eapply List.Forall_impl; [|exact IHf]. intros k Hk. simpl in Hk. lia.
    + eapply List.Forall_impl; [|exact IHf]. intros k Hk. simpl in Hk. lia.
Qed.

End LoopOffsets.

(** ** One call, whatever the server answers *)

Section Call.

Context `{Pandas}.
Variable server : http_server.
Variable now : datetime.
Variables engine market board security : string.
Variables from_date till_date : option date_arg.
Variable interval : Z.

Hypothesis Hclock : 30 < now <= MAXORDINAL.

#[local] Abbreviation url_of_call :=
  (history_url engine market board security).
#[local] Abbreviation params_of_call :=
  (first_params now from_date till_date interval).
#[local] Abbreviation request_at :=
  (page_request url_of_call params_of_call).
#[local] Abbreviation call :=
  (run server now engine market board security from_date till_date interval).
#[local] Abbreviation finish_call :=
  (finish now security from_date till_date).

(** A call whose first page has rows, split by what the cursor block
    holds. *)
Lemma call_after_first_page st d b :
  decode (request_at 0) (server (trace st) (request_at 0)) = Ok d ->
  history_rows d = Some b ->
  let st1 := after_request st (request_at 0) (Ok d) in
  (cursor_data_of d = [] /\ call st = finish_call (frame_of_block b) st1)
  \/ (exists first rest,
        cursor_data_of d = first :: rest /\ nth_error first 1 = None
        /\ call st = (Raise {| exn_cls := IndexError;
                               exn_msg := "list index out of range" |}, st1))
  \/ (exists T more en st2,
        declared_total d = Some T
        /\ Loop server url_of_call params_of_call T (frame_of_block b) st1
             more en st2
        /\ call st = match en with
                     | Failed e => (Raise e, st2)
                     | Completed | EndOfData =>
                         finish_call (append_pages (frame_of_block b) more)
                           st2
                     end).
Proof.
  intros Hdec Hb st1.
  destruct (cursor_data_of d) as [|first rest] eqn:Hc.
  - left. split; [reflexivity|].
    rewrite run_eq by assumption. cbv zeta. now rewrite Hdec, Hb, Hc.
  - destruct (nth_error first 1) as [T|] eqn:Hn.
    + right. right.
      assert (Htot : declared_total d = Some T)
        by (unfold declared_total; now rewrite Hc).
      destruct (run_paged server now engine market board security from_date
                  till_date interval Hclock st d b T Hdec Hb Htot)
        as (more & en & st2 & HL & Hrun).
      exists T, more, en, st2. auto.
    + right. left. exists first, rest. repeat split; auto.
      rewrite run_eq by assumption. cbv zeta. now rewrite Hdec, Hb, Hc, Hn.
Qed.

(** X1: when the cursor block holds no row at all, or the total it declares is
    already reached by the first page (zero and negative totals included),
    the call sends the first request only and returns the first page put
    through the final date conversion and sort. *)
Theorem first_page_reaching_the_total_is_the_only_request st d b :
  decode (request_at 0) (server (trace st) (request_at 0)) = Ok d ->
  history_rows d = Some b ->
  (cursor_data_of d = []
   \/ exists T, declared_total d = Some T
                /\ T <= Z.of_nat (length (data b))) ->
  trace (snd (call st)) = trace st ++ [request_at 0]
  /\ fst (call st) = convert_and_sort (frame_of_block b).
Proof.
  intros Hdec Hb Hcur.
  rewrite run_eq by assumption. cbv zeta. rewrite Hdec, Hb.
  destruct Hcur as [->|(T & Htot & Hle)].
  - now rewrite trace_finish, fst_finish.
  - apply declared_total_inv in Htot as (first & rest & -> & ->).
    rewrite pagination_done by exact Hle.
    now rewrite trace_finish, fst_finish.
Qed.

(** X2: when the first row of the cursor block has fewer than two entries, the
    total cannot be read: the call raises [IndexError] after the first
    request, returns no table and logs nothing. *)
Theorem cursor_row_without_total_raises_IndexError st d b first rest :
  decode (request_at 0) (server (trace st) (request_at 0)) = Ok d ->
  history_rows d = Some b ->
  cursor_data_of d = first :: rest ->
  (length first <= 1)%nat ->
  fst (call st) = Raise {| exn_cls := IndexError;
                           exn_msg := "list index out of range" |}
  /\ trace (snd (call st)) = trace st ++ [request_at 0]
  /\ logs (snd (call st)) = logs st.
Proof.
  intros Hdec Hb Hc Hlen.
  assert (Hn : nth_error first 1 = None) by now apply nth_error_None.
  rewrite run_eq by assumption. cbv zeta. rewrite Hdec, Hb, Hc, Hn.
  simpl. now rewrite app_nil_r.
Qed.

(** X3: the requests of one call: the first asks for offset 0, every later one
    for an offset beyond the one before, so no page is asked for twice; and
    they differ in the offset only: all go to the history URL of the
    security with the two date strings, the interval and [lang=ru]. *)
Theorem requests_of_a_call st :
  exists offs,
    trace (snd (call st)) = trace st ++ map request_at (0%nat :: offs)
    /\ StronglySorted lt (0%nat :: offs)
    /\ forall k,
         request_at k
         = {| req_url := (url_of_call ++ ".json")%string;
              req_params :=
                {| p_from := from_string now from_date;
                   p_till := till_string now till_date;
                   p_interval := interval;
                   p_start := k;
                   p_lang := Some "ru"%string |} |}.
Proof.
  assert (Hone : forall st',
             trace st' = trace st ++ [request_at 0] ->
             exists offs,
               trace st' = trace st ++ map request_at (0%nat :: offs)
               /\ StronglySorted lt (0%nat :: offs)).
  { intros st' ->. exists []. split; [reflexivity|]. repeat constructor. }
  assert (Hreq : exists offs,
             trace (snd (call st)) = trace st ++ map request_at (0%nat :: offs)
             /\ StronglySorted lt (0%nat :: offs)).
  { destruct (decode (request_at 0) (server (trace st) (request_at 0)))
      as [d|e] eqn:Hdec.
    2:{ apply Hone. rewrite run_eq by assumption. cbv zeta.
        now rewrite Hdec. }
    destruct (history_rows d) as [b|] eqn:Hb.
    2:{ apply Hone. rewrite run_eq by assumption. cbv zeta.
        now rewrite Hdec, Hb. }
    destruct (call_after_first_page st d b Hdec Hb)
      as [[_ ->]|[(first & rest & _ & _ & ->)
                 |(T & more & en & st2 & _ & HL & ->)]].
    - apply Hone. now rewrite trace_finish.
    - now apply Hone.
    - exists (requested (len (frame_of_block b)) more en).
      pose proof (Loop_trace _ _ _ _ _ _ _ _ _ HL) as Htr.
      destruct (Loop_requested_sorted _ _ _ _ _ _ _ _ _ HL) as [Hs Hf].
      pose proof (history_rows_nonempty _ _ Hb) as Hne.
      assert (1 <= len (frame_of_block b))%nat
        by (unfold len; simpl; destruct (data b);
            [now elim Hne|simpl; lia]).
      split.
      + destruct en; rewrite ?trace_finish; simpl; rewrite Htr; simpl;
          now rewrite <- app_assoc.
      + constructor; [assumption|].
        eapply List.Forall_impl; [|exact Hf]. intros k Hk. simpl in Hk. lia. }
  destruct Hreq as (offs & Htr & Hs). exists offs. auto.
Qed.

(** A call that returns a table: the first page had no rows and the table
    is the empty frame, or the table is what the final conversion and sort
    make of the pages received. *)
Lemma call_returns_converted st df' :
  fst (call st) = Ok df' ->
  (df' = empty_frame
   /\ exists d,
        decode (request_at 0) (server (trace st) (request_at 0)) = Ok d
        /\ history_rows d = None)
  \/ exists d b more,
       decode (request_at 0) (server (trace st) (request_at 0)) = Ok d
       /\ history_rows d = Some b
       /\ Replies server url_of_call params_of_call (trace st)
            (offsets 0 (b :: more)) (b :: more)
       /\ convert_and_sort (append_pages (frame_of_block b) more) = Ok df'.
Proof.
  intros Hok.
  destruct (decode (request_at 0) (server (trace st) (request_at 0)))
    as [d|e] eqn:Hdec.
  2:{ rewrite run_eq in Hok by assumption. cbv zeta in Hok.
      rewrite Hdec in Hok. discriminate. }
  destruct (history_rows d) as [b|] eqn:Hb.
  2:{ left. rewrite run_eq in Hok by assumption. cbv zeta in Hok.
      rewrite Hdec, Hb in Hok. injection Hok as <-. eauto. }
  right. exists d, b.
  assert (Hfirst : forall more,
             Replies server url_of_call params_of_call
               (trace st ++ [request_at 0])
               (offsets (length (data b)) more) more ->
             Replies server url_of_call params_of_call (trace st)
               (offsets 0 (b :: more)) (b :: more)).
  { intros more Hr. simpl. econstructor; eassumption. }
  destruct (call_after_first_page st d b Hdec Hb)
    as [[_ Hrun]|[(first & rest & _ & _ & Hrun)
                 |(T & more & en & st2 & _ & HL & Hrun)]];
    rewrite Hrun in Hok.
  - exists []. do 2 (split; [first [reflexivity|assumption]|]).
    split; [apply Hfirst; constructor|].
    rewrite append_pages_nil. now rewrite fst_finish in Hok.
  - discriminate.
  - exists more. do 2 (split; [first [reflexivity|assumption]|]).
    split; [apply Hfirst; apply (Loop_replies _ _ _ _ _ _ _ _ _ HL)|].
    destruct en; [| |discriminate]; now rewrite fst_finish in Hok.
Qed.

(** The pages of one call are of one schema: every page has the columns
    of the first one, and every row a cell for every column. *)
Definition same_schema (b : block) (more : list block) : Prop :=
  Forall (fun p => columns p = columns b
                   /\ Forall (fun r => length r = length (columns p))
                        (data p))
    (b :: more).

(** X4: the table a call returns is made of the rows the server served,
    and of nothing else.  Either the first page had no rows and the table
    is the empty frame, or the table has as many rows as the pages received
    have together; and when these pages are of one schema, the table has
    the columns of the first page and its rows are the rows received, in
    the order received when there is no trade-date column, and otherwise
    rearranged, each with its date cell converted.  No row is dropped, none
    is repeated. *)
Theorem table_is_the_pages_served st df' :
  fst (call st) = Ok df' ->
  (df' = empty_frame
   /\ exists d,
        decode (request_at 0) (server (trace st) (request_at 0)) = Ok d
        /\ history_rows d = None)
  \/ exists d b more,
       decode (request_at 0) (server (trace st) (request_at 0)) = Ok d
       /\ history_rows d = Some b
       /\ Replies server url_of_call params_of_call (trace st)
            (offsets 0 (b :: more)) (b :: more)
       /\ len df' = length (flat_map data (b :: more))
       /\ (same_schema b more ->
           df_columns df' = columns b
           /\ match column_index "TRADEDATE" (columns b) with
              | None => df_rows df' = flat_map data (b :: more)
              | Some i =>
                  exists keys,
                    to_datetime
                      (column_values i (flat_map data (b :: more)))
                    = Ok keys
                    /\ Permutation (df_rows df')
                         (assign_column i (flat_map data (b :: more))
                            (map Timestamp keys))
              end).
Proof.
  intros Hok.
  destruct (call_returns_converted st df' Hok)
    as [Hempty|(d & b & more & Hdec & Hb & Hrep & Hconv)]; [now left|].
  right. exists d, b, more. do 3 (split; [assumption|]).
  apply convert_and_sort_shape in Hconv as Hshape.
  destruct Hshape as [Hcols Hlen].
  assert (Hrows : df_rows (append_pages (frame_of_block b) more)
                  = flat_map data (b :: more)) by reflexivity.
  split.
  { rewrite Hlen. unfold len. now rewrite Hrows. }
  intros _. split; [exact Hcols|].
  unfold convert_and_sort in Hconv.
  change (df_columns (append_pages (frame_of_block b) more))
    with (columns b) in Hconv.
  destruct (column_index "TRADEDATE" (columns b)) as [i|].
  - rewrite Hrows in Hconv.
    destruct (to_datetime _) as [keys|e] eqn:Hk; [|discriminate].
    injection Hconv as <-. exists keys. split; [reflexivity|].
    unfold sort_values. cbn [df_rows df_columns]. apply take_perm.
    rewrite length_assign_column.
    apply to_datetime_length in Hk. unfold column_values in Hk.
    rewrite length_map in Hk. unfold row in *. rewrite <- Hk.
    apply nargsort_perm.
  - injection Hconv as <-. exact Hrows.
Qed.

(** A call writes no file. *)
Lemma call_files st : files (snd (call st)) = files st.
Proof.
  assert (Hfin : forall df st0, files (snd (finish_call df st0)) = files st0).
  { intros df st0. unfold finish. now destruct (convert_and_sort df). }
  rewrite run_eq by assumption. cbv zeta.
  destruct (decode (request_at 0) (server (trace st) (request_at 0)))
    as [d|e]; [|reflexivity].
  destruct (history_rows d) as [b|]; [|reflexivity].
  destruct (cursor_data_of d) as [|first rest]; [now rewrite Hfin|].
  destruct (nth_error first 1) as [T|]; [|reflexivity].
  destruct (pagination_Loop server url_of_call params_of_call T
              (frame_of_block b)
              (after_request st (request_at 0) (Ok d)))
    as (more & en & st2 & HL & ->).
  pose proof (Loop_files _ _ _ _ _ _ _ _ _ HL) as Hf.
  destruct en; simpl; rewrite ?Hfin; exact Hf.
Qed.

(** X5: what a call leaves behind: it writes no file, and it adds one line to
    the log when it returns (the final INFO line, or the warning that comes
    with the empty frame) and at most one when it raises, the ERROR line of
    the request that failed. *)
Theorem footprint_of_a_call st :
  files (snd (call st)) = files st
  /\ exists lines,
       logs (snd (call st)) = logs st ++ lines
       /\ match fst (call st) with
          | Ok df' =>
              exists l, lines = [l]
                        /\ (lvl l = INFO
                            \/ (lvl l = WARNING /\ df' = empty_frame))
          | Raise e =>
              lines = []
              \/ (is_RequestException e = true
                  /\ exists l, lines = [l] /\ lvl l = ERROR
                               /\ occurs_in (exn_msg e) (message l))
          end.
Proof.
  assert (Hfin : forall df st0,
             files st0 = files st ->
             (exists lines0, logs st0 = logs st ++ lines0 /\ lines0 = []) ->
             files (snd (finish_call df st0)) = files st
             /\ exists lines,
                  logs (snd (finish_call df st0)) = logs st ++ lines
                  /\ match fst (finish_call df st0) with
                     | Ok df' =>
                         exists l, lines = [l]
                                   /\ (lvl l = INFO
                                       \/ (lvl l = WARNING
                                           /\ df' = empty_frame))
                     | Raise e =>
                         lines = []
                         \/ (is_RequestException e = true
                             /\ exists l, lines = [l] /\ lvl l = ERROR
                                          /\ occurs_in (exn_msg e) (message l))
                     end).
  { intros df st0 Hf (lines0 & Hl & ->). rewrite app_nil_r in Hl.
    unfold finish. destruct (convert_and_sort df) as [df'|e]; simpl.
    - split; [assumption|]. rewrite Hl. eexists. split; [reflexivity|].
      eexists. split; [reflexivity|]. now left.
    - split; [assumption|]. exists []. rewrite app_nil_r. auto. }
  assert (Herr : forall r e,
             exists lines,
               logs (after_request st r (Raise e)) = logs st ++ lines
               /\ (lines = []
                   \/ (is_RequestException e = true
                       /\ exists l, lines = [l] /\ lvl l = ERROR
                                    /\ occurs_in (exn_msg e) (message l)))).
  { intros r e. simpl. eexists. split; [reflexivity|].
    destruct (is_RequestException e); [right|now left].
    split; [reflexivity|]. eexists. split; [reflexivity|].
    split; [reflexivity|]. simpl. auto with occurs. }
  destruct (decode (request_at 0) (server (trace st) (request_at 0)))
    as [d|e] eqn:Hdec.
  2:{ rewrite run_eq by assumption. cbv zeta. rewrite Hdec.
      split; [reflexivity|]. apply Herr. }
  destruct (history_rows d) as [b|] eqn:Hb.
  2:{ rewrite run_eq by assumption. cbv zeta. rewrite Hdec, Hb. simpl.
      split; [reflexivity|]. rewrite app_nil_r.
      eexists. split; [reflexivity|]. eexists. split; [reflexivity|].
      right. now split. }
  destruct (call_after_first_page st d b Hdec Hb)
    as [[_ ->]|[(first & rest & _ & _ & ->)
               |(T & more & en & st2 & _ & HL & ->)]].
  - apply Hfin; [reflexivity|]. exists []. split; [reflexivity|reflexivity].
  - simpl. split; [reflexivity|]. exists []. auto.
  - pose proof (Loop_files _ _ _ _ _ _ _ _ _ HL) as Hfiles.
    pose proof (Loop_logs _ _ _ _ _ _ _ _ _ HL) as Hlogs.
    simpl in Hfiles, Hlogs. rewrite app_nil_r in Hlogs.
    destruct en as [| |e].
    + apply Hfin; [assumption|]. exists []. now rewrite Hlogs.
    + apply Hfin; [assumption|]. exists []. now rewrite Hlogs.
    + simpl. split; [assumption|]. rewrite Hlogs.
      destruct (Herr (page_request url_of_call params_of_call
                        (len (append_pages (frame_of_block b) more))) e)
        as (lines & Hl & Hcase).
      simpl in Hl. apply app_inv_head in Hl. rewrite Hl. eauto.
Qed.

End Call.

(** ** The accessor, outcome by outcome *)

Section Accessor.

Variable server : http_server.

(** X6: one call of [_get_json_data] sends exactly one request, to the URL with
    [.json] appended and with [lang=ru] unless the caller chose a language,
    and writes no file.  An exception of the transport is re-raised as it
    is, after one ERROR line when it is a [RequestException].  A status from
    400 to 599 raises [HTTPError] after one ERROR line, whatever the body.
    Any other status is accepted: a JSON body is returned and nothing is
    logged; a body that is not JSON raises the decoder's error, and that
    one is not logged. *)
Theorem outcomes_of_one_request url ps st :
  let r := {| req_url := (url ++ ".json")%string;
              req_params :=
                {| p_from := p_from ps; p_till := p_till ps;
                   p_interval := p_interval ps; p_start := p_start ps;
                   p_lang := match p_lang ps with
                             | Some l => Some l
                             | None => Some "ru"%string
                             end |} |} in
  let out := _get_json_data server url ps st in
  let error_line e :=
    {| lvl := ERROR;
       message := ("Ошибка запроса к " ++ url ++ ".json" ++ ": "
                   ++ exn_msg e)%string |} in
  trace (snd out) = trace st ++ [r]
  /\ files (snd out) = files st
  /\ match server (trace st) r with
     | NetFail e =>
         fst out = Raise e
         /\ logs (snd out)
            = logs st ++ (if is_RequestException e then [error_line e]
                          else [])
     | Arrives resp =>
         if (400 <=? status_code resp) && (status_code resp <? 600) then
           exists e, fst out = Raise e /\ exn_cls e = HTTPError
                     /\ logs (snd out) = logs st ++ [error_line e]
         else
           match body resp with
           | Some d => fst out = Ok d /\ logs (snd out) = logs st
           | None =>
               exists e, fst out = Raise e /\ exn_cls e = JSONDecodeError
                         /\ logs (snd out) = logs st
           end
     end.
Proof.
  cbv zeta. rewrite get_json_data_run. cbv zeta.
  assert (Hr : sent url ps
               = {| req_url := (url ++ ".json")%string;
                    req_params :=
                      {| p_from := p_from ps; p_till := p_till ps;
                         p_interval := p_interval ps; p_start := p_start ps;
                         p_lang := match p_lang ps with
                                   | Some l => Some l
                                   | None => Some "ru"%string
                                   end |} |}).
  { unfold sent, with_lang. destruct ps as [f t i s [l|]]; reflexivity. }
  rewrite Hr. set (r := {| req_url := _; req_params := _ |}).
  cbn [fst snd trace logs files].
  split; [reflexivity|]. split; [reflexivity|].
  destruct (server (trace st) r) as [e|resp]; cbn [decode].
  - split; [reflexivity|]. unfold error_lines. subst r. cbn [req_url].
    rewrite string_app_assoc.
    destruct (is_RequestException e); reflexivity.
  - destruct (Z.leb_spec 400 (status_code resp)),
      (Z.ltb_spec (status_code resp) 500),
      (Z.leb_spec 500 (status_code resp)),
      (Z.ltb_spec (status_code resp) 600); try lia; cbn [andb].
    all: try (eexists; split; [reflexivity|]; split; [reflexivity|];
              unfold error_lines; cbn [is_RequestException exn_cls];
              subst r; cbn [req_url]; now rewrite string_app_assoc).
    all: destruct (body resp); cbn [error_lines]; rewrite ?app_nil_r; eauto.
Qed.

End Accessor.

(** ** The download of one index *)

Section Saving.

Context `{Pandas}.
Variable server : http_server.
Variable now : datetime.
Variable disk : disk_model.
Variable output_dir : string.
Variables start_date end_date : option string.

Hypothesis Hclock : 30 < now <= MAXORDINAL.

#[local] Abbreviation fetch_from :=
  (fetch_of server now start_date end_date).
#[local] Abbreviation first_request :=
  (index_request now start_date end_date).
#[local] Abbreviation download index_code :=
  (download_index server now disk index_code output_dir start_date end_date).

(** The file [download_index] writes for a code. *)
Definition csv_path (index_code : string) : string :=
  (output_dir ++ "/" ++ index_code ++ "_" ++ strftime_Ymd now
   ++ ".csv")%string.

(** The lines [download_index] logs after the fetch. *)
Definition nothing_to_save_line (index_code : string) : log_record :=
  {| lvl := WARNING; message := ("Нет данных для " ++ index_code)%string |}.

Definition failure_line (index_code : string) (e : exn) : log_record :=
  {| lvl := ERROR;
     message := ("Ошибка при загрузке " ++ index_code ++ ": "
                 ++ exn_msg e)%string |}.

Definition saved_line (df : DataFrame) (path : string) : log_record :=
  {| lvl := INFO;
     message := ("Сохранено " ++ str_nat (len df) ++ " записей в "
                 ++ path)%string |}.

(** The state once [df] is written at [path]. *)
Definition with_file (st : state) (path : string) (df : DataFrame) : state :=
  {| trace := trace st; logs := logs st; files := files st ++ [(path, df)] |}.

(** [download_index], read off its text with the fetch resolved. *)
Lemma download_index_eq index_code st :
  download index_code st =
  match fetch_from index_code st with
  | (Raise e, st1) => (Ok None, add_log st1 (failure_line index_code e))
  | (Ok df, st1) =>
      if df_empty df
      then (Ok None, add_log st1 (nothing_to_save_line index_code))
      else
        match disk (Mkdir output_dir) with
        | Some e => (Ok None, add_log st1 (failure_line index_code e))
        | None =>
            match fst (dates_to_strings df st1) with
            | Raise e => (Ok None, add_log st1 (failure_line index_code e))
            | Ok df1 =>
                match disk (ToCsv (csv_path index_code)) with
                | Some e =>
                    (Ok None, add_log st1 (failure_line index_code e))
                | None =>
                    (Ok (Some df1),
                     add_log (with_file st1 (csv_path index_code) df1)
                       (saved_line df1 (csv_path index_code)))
                end
            end
        end
  end.
Proof.
  unfold fetch_of, fetch, loading_line, download_index, csv_path,
    failure_line, nothing_to_save_line, saved_line, with_file.
  fold (start_string start_date). fold (end_string now end_date).
  fold (board_of index_code).
  rewrite bind_run, logger_run, try_except_run, bind_run. unfold add_log.
  destruct (get_index_history _ _ _ _ _ _ _) as [[df|e] st1];
    [|reflexivity].
  destruct (df_empty df); [reflexivity|].
  rewrite bind_run. unfold mkdir at 1.
  destruct (disk (Mkdir output_dir)); [reflexivity|].
  rewrite bind_run. unfold dates_to_strings.
  destruct (column_index "TRADEDATE" (df_columns df)) as [i|].
  - destruct (to_datetime _) as [keys|e]; [|reflexivity].
    rewrite ret_run. cbn [fst]. rewrite bind_run. unfold to_csv at 1.
    destruct (disk (ToCsv _)); reflexivity.
  - rewrite ret_run. cbn [fst]. rewrite bind_run. unfold to_csv at 1.
    destruct (disk (ToCsv _)); reflexivity.
Qed.

(** The fetch writes no file. *)
Lemma fetch_of_files index_code st :
  files (snd (fetch_from index_code st)) = files st.
Proof.
  unfold fetch_of, fetch, get_index_history.
  pose proof (call_files server now "stock" "index" (board_of index_code)
                index_code (Some (DateString (start_string start_date)))
                (Some (DateString (end_string now end_date))) 24 Hclock
                (add_log st (loading_line now start_date end_date index_code)))
    as Hf.
  unfold run in Hf. exact Hf.
Qed.

(** The table with its dates printed keeps its columns and its rows'
    number. *)
Lemma dates_to_strings_shape df st df1 :
  fst (dates_to_strings df st) = Ok df1 ->
  df_columns df1 = df_columns df /\ len df1 = len df.
Proof.
  unfold dates_to_strings.
  destruct (column_index "TRADEDATE" (df_columns df)) as [i|];
    [|now intros [= <-]].
  destruct (to_datetime _) as [keys|e]; [|discriminate].
  intros [= <-]. split; [reflexivity|].
  unfold len. simpl. apply length_assign_column.
Qed.

(** [download_index] returns; what it adds to the files is the table it
    returns, if any; and it returns [None] when the fetch raised. *)
Lemma download_index_files index_code st :
  exists r st',
    download index_code st = (Ok r, st')
    /\ files st'
       = files st ++ match r with
                     | Some df => [(csv_path index_code, df)]
                     | None => []
                     end
    /\ (forall e, fst (fetch_from index_code st) = Raise e -> r = None).
Proof.
  rewrite download_index_eq.
  pose proof (fetch_of_files index_code st) as Hfiles.
  destruct (fetch_from index_code st) as [[df|e] st1]; simpl in Hfiles.
  2:{ do 2 eexists. split; [reflexivity|]. rewrite app_nil_r. auto. }
  destruct (df_empty df).
  { do 2 eexists. split; [reflexivity|]. rewrite app_nil_r. auto. }
  destruct (disk (Mkdir output_dir)).
  { do 2 eexists. split; [reflexivity|]. rewrite app_nil_r. auto. }
  destruct (fst (dates_to_strings df st1)) as [df1|e].
  2:{ do 2 eexists. split; [reflexivity|]. rewrite app_nil_r. auto. }
  destruct (disk (ToCsv _)).
  { do 2 eexists. split; [reflexivity|]. rewrite app_nil_r. auto. }
  do 2 eexists. split; [reflexivity|]. simpl. rewrite Hfiles.
  split; [reflexivity|discriminate].
Qed.

(** The first request of [download_index] is the one for its code. *)
Lemma download_index_trace index_code st :
  exists more,
    trace (snd (download index_code st))
    = trace st ++ first_request index_code :: more.
Proof.
  rewrite download_index_eq.
  destruct (fetch_of_trace server now start_date end_date Hclock index_code
              st) as (more & Htr).
  exists more.
  destruct (fetch_from index_code st) as [[df|e] st1]; simpl in Htr;
    [|exact Htr].
  destruct (df_empty df); [exact Htr|].
  destruct (disk (Mkdir output_dir)); [exact Htr|].
  destruct (fst (dates_to_strings df st1)); [|exact Htr].
  destruct (disk (ToCsv _)); exact Htr.
Qed.

(** X7: [download_index] never raises, and it returns a table exactly when it
    has written that table: the file is new, it lies in the output
    directory under the name [<code>_<YYYYMMDD>.csv] of today, and the
    table is the one fetched (with at least one row and one column), its
    dates printed.  When it returns [None] the files are what they were. *)
Theorem download_index_returns_what_it_saved index_code st :
  exists r st',
    download index_code st = (Ok r, st')
    /\ match r with
       | Some df =>
           files st' = files st ++ [(csv_path index_code, df)]
           /\ (exists dir,
                 csv_path index_code
                 = (dir ++ index_code ++ "_" ++ strftime_Ymd now
                    ++ ".csv")%string)
           /\ exists fetched,
                fst (fetch_from index_code st) = Ok fetched
                /\ df_empty fetched = false
                /\ df_columns df = df_columns fetched
                /\ len df = len fetched
       | None => files st' = files st
       end.
Proof.
  rewrite download_index_eq.
  pose proof (fetch_of_files index_code st) as Hfiles.
  destruct (fetch_from index_code st) as [[df|e] st1]; simpl in Hfiles.
  2:{ do 2 eexists. split; [reflexivity|]. exact Hfiles. }
  destruct (df_empty df) eqn:Hempty.
  { do 2 eexists. split; [reflexivity|]. exact Hfiles. }
  destruct (disk (Mkdir output_dir)).
  { do 2 eexists. split; [reflexivity|]. exact Hfiles. }
  destruct (fst (dates_to_strings df st1)) as [df1|e] eqn:Hdates.
  2:{ do 2 eexists. split; [reflexivity|]. exact Hfiles. }
  destruct (disk (ToCsv _)).
  { do 2 eexists. split; [reflexivity|]. exact Hfiles. }
  do 2 eexists. split; [reflexivity|]. simpl. rewrite Hfiles.
  split; [reflexivity|]. split.
  - exists (output_dir ++ "/")%string. unfold csv_path.
    now rewrite string_app_assoc.
  - apply dates_to_strings_shape in Hdates as [Hc Hl].
    exists df. auto.
Qed.

(** A date cell as the saved file has it: a date in the form
    [YYYY-MM-DD], or nothing. *)
Definition canonical_date_cell (v : value) : Prop :=
  v = JNull \/ exists s, v = JStr s /\ is_YYYY_MM_DD s = true.

(** X8: in the table [download_index] saves and returns, every cell of the
    trade-date column is a date printed as [YYYY-MM-DD], or empty where the
    date was missing: the timestamps of the fetch do not reach the file. *)
Theorem saved_dates_are_canonical index_code st df st' i :
  download index_code st = (Ok (Some df), st') ->
  column_index "TRADEDATE" (df_columns df) = Some i ->
  (forall fetched,
      fst (fetch_from index_code st) = Ok fetched ->
      has_column i (df_rows fetched)) ->
  Forall canonical_date_cell (column_values i (df_rows df)).
Proof.
  rewrite download_index_eq. intros Hrun Hi Hcol.
  destruct (fetch_from index_code st) as [[fetched|e] st1];
    [|discriminate].
  specialize (Hcol fetched eq_refl).
  destruct (df_empty fetched); [discriminate|].
  destruct (disk (Mkdir output_dir)); [discriminate|].
  destruct (fst (dates_to_strings fetched st1)) as [df1|e] eqn:Hdates;
    [|discriminate].
  destruct (disk (ToCsv _)); [discriminate|].
  injection Hrun as -> _.
  pose proof (dates_to_strings_shape _ _ _ Hdates) as [Hcols _].
  rewrite Hcols in Hi. unfold dates_to_strings in Hdates. rewrite Hi in Hdates.
  destruct (to_datetime _) as [keys|e] eqn:Hk; [|discriminate].
  injection Hdates as <-. cbn [df_rows].
  apply to_datetime_length in Hk. unfold column_values in Hk.
  rewrite length_map in Hk.
  rewrite column_values_assign by (rewrite ?length_map; auto).
  apply List.Forall_map, List.Forall_forall. intros [ns|] _.
  - right. eexists. split; [reflexivity|]. apply strftime_is_YYYY_MM_DD.
  - now left.
Qed.

(** X9: when the exchange has no rows for the index, [download_index] returns
    [None] after the one request, whatever the disk would do: no directory
    is asked for, no file is written, and two warnings follow the opening
    line in the log. *)
Theorem download_index_without_data index_code st d :
  decode (first_request index_code)
    (server (trace st) (first_request index_code)) = Ok d ->
  history_rows d = None ->
  exists st',
    download index_code st = (Ok None, st')
    /\ trace st' = trace st ++ [first_request index_code]
    /\ files st' = files st
    /\ logs st'
       = logs st
         ++ [loading_line now start_date end_date index_code;
             no_data_line now index_code
               (Some (DateString (start_string start_date)))
               (Some (DateString (end_string now end_date)));
             nothing_to_save_line index_code]
    /\ map lvl [loading_line now start_date end_date index_code;
                no_data_line now index_code
                  (Some (DateString (start_string start_date)))
                  (Some (DateString (end_string now end_date)));
                nothing_to_save_line index_code]
       = [INFO; WARNING; WARNING].
Proof.
  intros Hdec Hnone. rewrite download_index_eq.
  unfold fetch_of, fetch, get_index_history.
  pose proof (run_eq server now "stock" "index" (board_of index_code)
                index_code (Some (DateString (start_string start_date)))
                (Some (DateString (end_string now end_date))) 24 Hclock
                (add_log st (loading_line now start_date end_date index_code)))
    as Heq.
  unfold run in Heq. rewrite Heq. cbv zeta.
  fold (first_request index_code). cbn [add_log trace].
  rewrite Hdec, Hnone. cbn [df_empty empty_frame df_rows].
  eexists. split; [reflexivity|]. simpl.
  rewrite app_nil_r, <- !app_assoc. auto.
Qed.

(** X10: when the disk refuses the directory, or the file, [download_index]
    returns [None] although the fetch succeeded: the exception is caught,
    its message goes to the log in an ERROR line, and no file is
    recorded. *)
Theorem download_index_disk_failure index_code st fetched st1 e :
  fetch_from index_code st = (Ok fetched, st1) ->
  df_empty fetched = false ->
  (disk (Mkdir output_dir) = Some e
   \/ (disk (Mkdir output_dir) = None
       /\ (exists df1, fst (dates_to_strings fetched st1) = Ok df1)
       /\ disk (ToCsv (csv_path index_code)) = Some e)) ->
  download index_code st
  = (Ok None, add_log st1 (failure_line index_code e))
  /\ files (add_log st1 (failure_line index_code e)) = files st
  /\ lvl (failure_line index_code e) = ERROR
  /\ occurs_in (exn_msg e) (message (failure_line index_code e)).
Proof.
  intros Hfetch Hempty Hdisk.
  pose proof (fetch_of_files index_code st) as Hfiles.
  rewrite download_index_eq, Hfetch, Hempty. rewrite Hfetch in Hfiles.
  split; [|split; [exact Hfiles|split; [reflexivity|]]].
  - destruct Hdisk as [->|(-> & (df1 & ->) & ->)]; reflexivity.
  - unfold failure_line. simpl. auto 10 with occurs.
Qed.

End Saving.

(** ** The batch, entry by entry *)

Lemma size_list_to_set_le (l : list string) :
  (size (list_to_set l : gset string) <= length l)%nat.
Proof.
  induction l as [|x l IH].
  - rewrite list_to_set_nil, size_empty. reflexivity.
  - rewrite list_to_set_cons, size_union_alt, size_singleton. simpl.
    pose proof (subseteq_size (list_to_set l ∖ {[x]} : gset string)
                  (list_to_set l) (subseteq_difference_l _ _ _ (reflexivity _))).
    lia.
Qed.

Lemma size_list_to_set_lt (l : list string) :
  ~ List.NoDup l -> (size (list_to_set l : gset string) < length l)%nat.
Proof.
  induction l as [|x l IH]; intros Hdup.
  - elim Hdup. constructor.
  - rewrite list_to_set_cons. simpl.
    destruct (in_dec string_dec x l) as [Hin|Hout].
    + assert (Heq : ({[x]} ∪ list_to_set l : gset string) = list_to_set l).
      { apply subseteq_union_1_L, singleton_subseteq_l, elem_of_list_to_set.
        now apply list_elem_of_In. }
      rewrite Heq. pose proof (size_list_to_set_le l). lia.
    + assert (~ List.NoDup l) by (intros Hn; apply Hdup; now constructor).
      rewrite size_union_alt, size_singleton.
      pose proof (subseteq_size (list_to_set l ∖ {[x]} : gset string)
                    (list_to_set l)
                    (subseteq_difference_l _ _ _ (reflexivity _))).
      specialize (IH ltac:(assumption)). lia.
Qed.

Lemma successful_le_size (results : gmap string bool) :
  (successful results <= size results)%nat.
Proof.
  unfold successful. rewrite <- length_map_to_list.
  apply filter_length_le.
Qed.

Section Batches.

Context `{Pandas}.
Variable server : http_server.
Variable now : datetime.
Variable disk : disk_model.
Variable output_dir : string.
Variables start_date end_date : option string.

Hypothesis Hclock : 30 < now <= MAXORDINAL.

#[local] Abbreviation path_of := (csv_path now output_dir).

(** The loop of the batch functions: it returns; the codes it has met are
    the new keys of the dictionary; the files it adds are files of these
    codes, at most one per code met; a code mapped to [True] has its
    file. *)
Lemma download_each_files indices results st :
  exists results' st',
    download_each server now disk indices output_dir start_date end_date
      results st = (Ok results', st')
    /\ dom results' = dom results ∪ list_to_set indices
    /\ (exists more,
          files st' = files st ++ more
          /\ Forall (fun f => exists c, In c indices /\ fst f = path_of c)
               more)
    /\ (forall c, In c indices -> results' !! c = Some true ->
          exists df, In (path_of c, df) (files st'))
    /\ (forall c, ~ In c indices -> results' !! c = results !! c).
Proof.
  revert results st. induction indices as [|c0 rest IH]; intros results st.
  - simpl. rewrite ret_run. exists results, st.
    split; [reflexivity|].
    split; [now rewrite ?list_to_set_nil, (right_id_L ∅ (∪))|].
    split; [exists []; now rewrite app_nil_r|].
    split; intros; simpl in *; tauto.
  - simpl. rewrite bind_run.
    destruct (download_index_files server now disk output_dir start_date
                end_date Hclock c0 st) as (r & st1 & -> & Hf1 & _).
    destruct (IH (<[c0 := is_not_None r]> results) st1)
      as (results' & st' & -> & Hdom & (more & Hmore & Hall) & Hin & Hout).
    exists results', st'. split; [reflexivity|].
    split.
    { rewrite Hdom, dom_insert_L, ?list_to_set_cons.
      now rewrite (comm_L (∪) {[c0]} (dom results)), (assoc_L (∪)). }
    split; [|split].
    + eexists. split; [rewrite Hmore, Hf1, <- app_assoc; reflexivity|].
      apply Forall_app. split.
      * destruct r; repeat constructor. exists c0. simpl. auto.
      * eapply List.Forall_impl; [|exact Hall].
        intros f (c & Hc & Hp). exists c. simpl. auto.
    + intros c Hc Htrue.
      destruct (in_dec string_dec c rest) as [Hr|Hr]; [now apply Hin|].
      destruct Hc as [<-|Hc]; [|contradiction].
      rewrite (Hout c0 Hr), lookup_insert_eq in Htrue.
      destruct r as [df|]; [|discriminate].
      exists df. rewrite Hmore, Hf1. apply in_or_app. left.
      apply in_or_app. right. now left.
    + intros c Hc. simpl in Hc.
      rewrite Hout by tauto. apply lookup_insert_ne. tauto.
Qed.

(** Both batch functions, run on the codes given or on their registry. *)
Lemma batch_run (batch : option (list string) -> string -> option string ->
                         option string -> M (gmap string bool))
  (registry : list (string * string)) indices st :
  (batch = download_bond_indices server now disk
   /\ registry = BOND_INDICES)
  \/ (batch = download_equity_indices server now disk
      /\ registry = EQUITY_INDICES) ->
  let codes := match indices with
               | Some l => l
               | None => map fst registry
               end in
  exists line results st1 st',
    download_each server now disk codes output_dir start_date end_date ∅
      (add_log st line) = (Ok results, st1)
    /\ batch indices output_dir start_date end_date st = (Ok results, st')
    /\ files st' = files st1
    /\ trace st' = trace st1.
Proof.
  intros Hbatch codes.
  destruct Hbatch as [[-> ->]|[-> ->]];
    unfold download_bond_indices, download_equity_indices;
    fold codes; rewrite bind_run, logger_run, bind_run.
  - destruct (download_each_files codes ∅
                (add_log st
                   {| lvl := INFO;
                      message := ("Начинаем загрузку "
                                  ++ str_nat (length codes)
                                  ++ " индексов облигаций...")%string |}))
      as (results & st1 & Heq & _).
    unfold add_log in Heq. rewrite Heq.
    rewrite bind_run, logger_run, ret_run.
    do 4 eexists. split; [exact Heq|]. split; [reflexivity|]. now split.
  - destruct (download_each_files codes ∅
                (add_log st
                   {| lvl := INFO;
                      message := ("Начинаем загрузку "
                                  ++ str_nat (length codes)
                                  ++ " индексов акций...")%string |}))
      as (results & st1 & Heq & _).
    unfold add_log in Heq. rewrite Heq.
    rewrite bind_run, logger_run, ret_run.
    do 4 eexists. split; [exact Heq|]. split; [reflexivity|]. now split.
Qed.

(** X11: the dictionary a batch function returns has the codes of the batch as
    its keys, each once, and no other key.  So it has as many entries as
    codes were given when no code is repeated and fewer otherwise, and the
    number of successes the final line reports is at most the number of
    entries. *)
Theorem batch_gives_every_code_one_entry batch registry indices st :
  (batch = download_bond_indices server now disk
   /\ registry = BOND_INDICES)
  \/ (batch = download_equity_indices server now disk
      /\ registry = EQUITY_INDICES) ->
  let codes := match indices with
               | Some l => l
               | None => map fst registry
               end in
  exists results st',
    batch indices output_dir start_date end_date st = (Ok results, st')
    /\ dom results = list_to_set codes
    /\ (successful results <= size results <= length codes)%nat
    /\ (List.NoDup codes -> size results = length codes)
    /\ (~ List.NoDup codes -> (size results < length codes)%nat).
Proof.
  intros Hbatch codes.
  destruct (batch_run batch registry indices st Hbatch)
    as (line & results & st1 & st' & Heach & Hrun & _).
  fold codes in Heach.
  destruct (download_each_files codes ∅ (add_log st line))
    as (results0 & st0 & Heq & Hdom & _).
  rewrite Heach in Heq. injection Heq as <- <-.
  exists results, st'. split; [exact Hrun|].
  assert (Hd : dom results = list_to_set codes)
    by (now rewrite Hdom, dom_empty_L, (left_id_L ∅ (∪))).
  assert (Hsize : size results = size (list_to_set codes : gset string))
    by (now rewrite <- Hd, size_dom).
  split; [exact Hd|]. rewrite Hsize.
  pose proof (successful_le_size results) as Hle. rewrite Hsize in Hle.
  pose proof (size_list_to_set_le codes).
  split; [lia|]. split.
  - intros Hnd. apply size_list_to_set. now apply NoDup_ListNoDup.
  - apply size_list_to_set_lt.
Qed.

(** X12: a code the batch reports as downloaded has its file, and the batch
    writes no other files than those of its codes; what was on the disk
    before stays. *)
Theorem batch_success_means_a_file batch registry indices st :
  (batch = download_bond_indices server now disk
   /\ registry = BOND_INDICES)
  \/ (batch = download_equity_indices server now disk
      /\ registry = EQUITY_INDICES) ->
  let codes := match indices with
               | Some l => l
               | None => map fst registry
               end in
  exists results st',
    batch indices output_dir start_date end_date st = (Ok results, st')
    /\ (forall c, results !! c = Some true ->
          In c codes /\ exists df, In (path_of c, df) (files st'))
    /\ exists more,
         files st' = files st ++ more
         /\ Forall (fun f => exists c, In c codes /\ fst f = path_of c) more.
Proof.
  intros Hbatch codes.
  destruct (batch_run batch registry indices st Hbatch)
    as (line & results & st1 & st' & Heach & Hrun & Hfiles & _).
  fold codes in Heach.
  destruct (download_each_files codes ∅ (add_log st line))
    as (results0 & st0 & Heq & _ & Hmore & Hin & Hout).
  rewrite Heach in Heq. injection Heq as <- <-.
  exists results, st'. split; [exact Hrun|]. rewrite Hfiles. split.
  - intros c Htrue.
    destruct (in_dec string_dec c codes) as [Hc|Hc]; [auto|].
    rewrite (Hout c Hc), lookup_empty in Htrue. discriminate.
  - exact Hmore.
Qed.

End Batches.

(** ** Saving one index with [download_to_csv] *)

Lemma length_set_cell i v r : length (set_cell i v r) = length r.
Proof.
  revert r. induction i as [|i IH]; intros [|c r]; simpl; auto.
Qed.

Lemma has_column_assign i rows series :
  has_column i (assign_column i rows series) -> has_column i rows.
Proof.
  revert series. induction rows as [|r rows IH]; intros [|v series] Hc;
    simpl in *; auto; try (now constructor).
  inversion Hc as [|? ? Hr Hrest]; subst.
  rewrite length_set_cell in Hr. constructor; [assumption|].
  now apply (IH series).
Qed.

Lemma dt_strftime_timestamps ts :
  dt_strftime (map Timestamp ts) = Some (map timestamp_strftime ts).
Proof.
  induction ts as [|t ts IH]; simpl; [reflexivity|]. now rewrite IH.
Qed.

Section Converted.

Context `{Pandas}.

(** The date column of a table that went through the final conversion
    holds timestamps and nothing else. *)
Lemma convert_and_sort_timestamps df df' i :
  convert_and_sort df = Ok df' ->
  column_index "TRADEDATE" (df_columns df') = Some i ->
  has_column i (df_rows df') ->
  exists ts, column_values i (df_rows df') = map Timestamp ts.
Proof.
  intros Hconv Hi Hcol.
  pose proof (convert_and_sort_shape _ _ Hconv) as [Hcols _].
  rewrite Hcols in Hi. unfold convert_and_sort in Hconv. rewrite Hi in Hconv.
  destruct (to_datetime _) as [keys|e] eqn:Hk; [|discriminate].
  injection Hconv as <-. unfold sort_values in *. cbn [df_rows] in *.
  pose proof (to_datetime_length _ _ Hk) as Hlen.
  unfold column_values in Hlen. rewrite length_map in Hlen.
  set (rows' := assign_column i (df_rows df) (map Timestamp keys)) in *.
  assert (Hlen' : length rows' = length keys)
    by (unfold rows'; now rewrite length_assign_column).
  pose proof (nargsort_perm quicksort keys) as Hperm.
  assert (Hrows : has_column i (df_rows df)).
  { apply (has_column_assign i _ (map Timestamp keys)). fold rows'.
    unfold has_column in *.
    eapply Permutation_Forall; [|exact Hcol].
    apply take_perm. now rewrite Hlen'. }
  exists (map (fun k => nth k keys NaT) (nargsort quicksort keys)).
  rewrite column_values_take. unfold rows'.
  rewrite column_values_assign by (rewrite ?length_map; auto).
  rewrite map_map. apply map_ext_in. intros k Hk'.
  apply (Permutation_in _ Hperm), in_seq in Hk'.
  apply nth_map_Timestamp. lia.
Qed.

End Converted.

Section SavingOne.

Context `{Pandas}.
Variable server : http_server.
Variable now : datetime.
Variable disk : disk_model.
Variables index_code output_path : string.
Variables start_date end_date : option string.
Variable board : string.

Hypothesis Hclock : 30 < now <= MAXORDINAL.

#[local] Abbreviation save_one :=
  (download_to_csv server now disk index_code output_path start_date
     end_date board).
#[local] Abbreviation history_of_index :=
  (run server now "stock" "index" board index_code
     (option_map DateString start_date) (option_map DateString end_date) 24).

(** The table as [download_to_csv] writes it. *)
Definition printed (df : DataFrame) : option DataFrame :=
  match column_index "TRADEDATE" (df_columns df) with
  | Some i =>
      option_map
        (fun series =>
           {| df_columns := df_columns df;
              df_rows := assign_column i (df_rows df) series |})
        (dt_strftime (column_values i (df_rows df)))
  | None => Some df
  end.

Definition save_failure_line (msg : string) : log_record :=
  {| lvl := ERROR;
     message := ("Ошибка при сохранении " ++ index_code ++ ": "
                 ++ msg)%string |}.

(** [download_to_csv], read off its text with the fetch resolved. *)
Lemma download_to_csv_eq st :
  save_one st =
  match history_of_index st with
  | (Raise e, st1) => (Ok false, add_log st1 (save_failure_line (exn_msg e)))
  | (Ok df, st1) =>
      if df_empty df
      then (Ok false,
            add_log st1
              {| lvl := WARNING;
                 message := ("Нет данных для сохранения: "
                             ++ index_code)%string |})
      else
        match printed df with
        | None =>
            (Ok false,
             add_log st1
               (save_failure_line
                  "Can only use .dt accessor with datetimelike values"))
        | Some df1 =>
            match disk (ToCsv output_path) with
            | Some e =>
                (Ok false, add_log st1 (save_failure_line (exn_msg e)))
            | None =>
                (Ok true,
                 add_log (with_file st1 output_path df1)
                   {| lvl := INFO;
                      message := ("Данные сохранены в "
                                  ++ output_path)%string |})
            end
        end
  end.
Proof.
  unfold download_to_csv, run, get_index_history, printed,
    save_failure_line, with_file.
  rewrite try_except_run, bind_run. unfold add_log.
  destruct (get_historical_data _ _ _ _ _ _ _ _ _ _) as [[df|e] st1];
    [|reflexivity].
  destruct (df_empty df); [reflexivity|].
  destruct (column_index "TRADEDATE" (df_columns df)) as [i|].
  - destruct (dt_strftime _) as [series|]; [|reflexivity].
    cbn [option_map]. rewrite bind_run. unfold to_csv at 1.
    destruct (disk (ToCsv _)); reflexivity.
  - rewrite bind_run. unfold to_csv at 1.
    destruct (disk (ToCsv _)); reflexivity.
Qed.

(** X13: [download_to_csv] never raises, and its answer tells whether the
    file was written: [True] comes with one new file at exactly the path
    given, holding a table with the columns and the number of rows of the
    table fetched; [False] leaves the files as they were.  Its first
    request asks the board given for the range given, which starts 30 days
    before today when no start date is given. *)
Theorem download_to_csv_tells_whether_it_saved st :
  exists ok st',
    save_one st = (Ok ok, st')
    /\ (if ok
        then exists df fetched,
               files st' = files st ++ [(output_path, df)]
               /\ fst (history_of_index st) = Ok fetched
               /\ df_empty fetched = false
               /\ df_columns df = df_columns fetched
               /\ len df = len fetched
        else files st' = files st)
    /\ exists more,
         trace st'
         = trace st
           ++ page_request (history_url "stock" "index" board index_code)
                {| p_from := match start_date with
                             | Some s => s
                             | None => strftime_Y_m_d (now - 30)
                             end;
                   p_till := match end_date with
                             | Some s => s
                             | None => strftime_Y_m_d now
                             end;
                   p_interval := 24; p_start := 0; p_lang := None |} 0
              :: more.
Proof.
  rewrite download_to_csv_eq.
  pose proof (call_files server now "stock" "index" board index_code
                (option_map DateString start_date)
                (option_map DateString end_date) 24 Hclock st) as Hfiles.
  destruct (run_trace server now "stock" "index" board index_code
              (option_map DateString start_date)
              (option_map DateString end_date) 24 Hclock st)
    as (offs & Htr).
  assert (Hps : first_params now (option_map DateString start_date)
                  (option_map DateString end_date) 24
                = {| p_from := match start_date with
                               | Some s => s
                               | None => strftime_Y_m_d (now - 30)
                               end;
                     p_till := match end_date with
                               | Some s => s
                               | None => strftime_Y_m_d now
                               end;
                     p_interval := 24; p_start := 0; p_lang := None |}).
  { unfold first_params, from_string, till_string.
    now destruct start_date, end_date. }
  rewrite Hps in Htr. simpl in Htr.
  destruct (history_of_index st) as [[df|e] st1]; simpl in Hfiles, Htr.
  2:{ do 2 eexists. split; [reflexivity|]. split; [exact Hfiles|]. eauto. }
  destruct (df_empty df) eqn:Hempty.
  { do 2 eexists. split; [reflexivity|]. split; [exact Hfiles|]. eauto. }
  destruct (printed df) as [df1|] eqn:Hp.
  2:{ do 2 eexists. split; [reflexivity|]. split; [exact Hfiles|]. eauto. }
  destruct (disk (ToCsv output_path)).
  { do 2 eexists. split; [reflexivity|]. split; [exact Hfiles|]. eauto. }
  do 2 eexists. split; [reflexivity|]. split; [|simpl; eauto].
  exists df1, df. simpl. rewrite Hfiles.
  do 3 (split; [first [reflexivity|assumption]|]).
  unfold printed in Hp.
  destruct (column_index "TRADEDATE" (df_columns df)) as [i|].
  - destruct (dt_strftime _) as [series|]; [|discriminate].
    injection Hp as <-. split; [reflexivity|].
    unfold len. simpl. apply length_assign_column.
  - injection Hp as <-. auto.
Qed.

(** X14: what the fetch returns, [download_to_csv] can print: when the fetch
    returns a table with rows and columns, every row of which has its date
    cell, the outcome is decided by the disk alone.  If the disk takes the
    file the answer is [True]; if it raises, the answer is [False] and the
    message of the exception is logged in an ERROR line. *)
Theorem download_to_csv_saves_what_the_fetch_returns st fetched :
  fst (history_of_index st) = Ok fetched ->
  df_empty fetched = false ->
  (forall i, column_index "TRADEDATE" (df_columns fetched) = Some i ->
             has_column i (df_rows fetched)) ->
  match disk (ToCsv output_path) with
  | None => fst (save_one st) = Ok true
  | Some e =>
      fst (save_one st) = Ok false
      /\ exists earlier,
           logs (snd (save_one st))
           = earlier ++ [save_failure_line (exn_msg e)]
  end.
Proof.
  intros Hfetch Hempty Hcol.
  assert (Hprint : exists df1, printed fetched = Some df1).
  { unfold printed.
    destruct (column_index "TRADEDATE" (df_columns fetched)) as [i|] eqn:Hi;
      [|eauto].
    destruct (call_returns_converted server now "stock" "index" board
                index_code (option_map DateString start_date)
                (option_map DateString end_date) 24 Hclock st fetched Hfetch)
      as [[-> _]|(d & b & more & _ & _ & _ & Hconv)]; [discriminate|].
    destruct (convert_and_sort_timestamps _ _ i Hconv Hi (Hcol i eq_refl))
      as (ts & ->).
    rewrite dt_strftime_timestamps. simpl. eauto. }
  destruct Hprint as (df1 & Hp).
  rewrite download_to_csv_eq.
  destruct (history_of_index st) as [[df|e0] st1]; [|discriminate].
  simpl in Hfetch. injection Hfetch as ->.
  rewrite Hempty, Hp.
  destruct (disk (ToCsv output_path)) as [e|]; [|reflexivity].
  split; [reflexivity|]. simpl. eauto.
Qed.

End SavingOne.

(** ** The commands and their exit codes *)

Lemma cli_bind_run {A B} (m : CLI A) (k : A -> CLI B) c :
  cli_bind m k c = match m c with
                   | (Ok a, c') => k a c'
                   | (Raise e, c') => (Raise e, c')
                   end.
Proof. reflexivity. Qed.

Lemma print_run line c :
  print line c = (Ok tt, {| stdout := stdout c ++ [line]; world := world c |}).
Proof. reflexivity. Qed.

(** A piece of a command that prints and does nothing else. *)
Definition only_prints (m : CLI unit) : Prop :=
  forall c, exists lines,
    m c = (Ok tt, {| stdout := stdout c ++ lines; world := world c |}).

Lemma only_prints_print line : only_prints (print line).
Proof. intros c. exists [line]. reflexivity. Qed.

Lemma only_prints_seq m1 m2 :
  only_prints m1 -> only_prints m2 -> only_prints (m1 ;;> m2).
Proof.
  intros H1 H2 c. rewrite cli_bind_run.
  destruct (H1 c) as (l1 & ->).
  destruct (H2 {| stdout := stdout c ++ l1; world := world c |})
    as (l2 & ->).
  exists (l1 ++ l2). simpl. now rewrite app_assoc.
Qed.

(** The registries in full agree with their [board] entries. *)
Lemma descriptors_boards :
  map (fun entry => (fst entry, board (snd entry))) BOND_DESCRIPTORS
  = BOND_INDICES
  /\ map (fun entry => (fst entry, board (snd entry))) EQUITY_DESCRIPTORS
     = EQUITY_INDICES.
Proof. split; reflexivity. Qed.

Lemma filter_all {A} (f : A -> bool) (l : list A) :
  length (List.filter f l) = length l -> Forall (fun x => f x = true) l.
Proof.
  induction l as [|a l IH]; simpl; [constructor|].
  pose proof (filter_length_le f l) as Hle.
  destruct (f a) eqn:Hf; simpl; intros Hlen; [|lia].
  constructor; [assumption|]. apply IH. lia.
Qed.

Lemma filter_some_out {A} (f : A -> bool) (l : list A) x :
  In x l -> f x = false -> (length (List.filter f l) < length l)%nat.
Proof.
  induction l as [|a l IH]; simpl; [tauto|].
  pose proof (filter_length_le f l) as Hle.
  intros [->|Hin] Hx.
  - rewrite Hx. lia.
  - specialize (IH Hin Hx). destruct (f a); simpl; lia.
Qed.

(** The count of successes reaches the number of entries only when every
    entry is [True]. *)
Lemma successful_all (results : gmap string bool) k b :
  successful results = size results -> results !! k = Some b -> b = true.
Proof.
  unfold successful. rewrite <- length_map_to_list. intros Hall Hk.
  apply filter_all in Hall. rewrite List.Forall_forall in Hall.
  apply elem_of_map_to_list, list_elem_of_In in Hk.
  exact (Hall _ Hk).
Qed.

Lemma successful_some_failed (results : gmap string bool) k :
  results !! k = Some false -> (successful results < size results)%nat.
Proof.
  unfold successful. rewrite <- length_map_to_list. intros Hk.
  apply elem_of_map_to_list, list_elem_of_In in Hk.
  now apply (filter_some_out _ _ _ Hk).
Qed.

Section CommandRuns.

Context `{Pandas}.
Variable server : http_server.
Variable now : datetime.
Variable disk : disk_model.
Variable absolute : string -> string.
Variable upper : string -> string.
Variable str_cell : value -> string.

Hypothesis Hclock : 30 < now <= MAXORDINAL.

(** The line [cmd_download] prints for an index. *)
Definition result_line (index_code : string) (df : option DataFrame)
  : string :=
  match df with
  | Some df =>
      ("✓ " ++ index_code ++ ": загружено " ++ str_nat (len df)
       ++ " записей")%string
  | None => ("✗ " ++ index_code ++ ": ошибка загрузки")%string
  end.

(** The loop of [cmd_download] goes through all the indices: it counts the
    tables returned, each of them is one more file, the first request of
    every index is sent, and one line is printed per index, in order. *)
Lemma cmd_download_loop_run indices output_dir start_date end_date k c :
  exists n c',
    cmd_download_loop server now disk indices output_dir start_date end_date
      k c = (Ok (k + n)%nat, c')
    /\ (n <= length indices)%nat
    /\ length (files (world c')) = (length (files (world c)) + n)%nat
    /\ (forall i, In i indices ->
          fetch_always_fails server now start_date end_date i ->
          (n < length indices)%nat)
    /\ (exists more, trace (world c') = trace (world c) ++ more)
    /\ (forall i, In i indices ->
          In (index_request now start_date end_date i) (trace (world c')))
    /\ (exists outcomes,
          length outcomes = length indices
          /\ stdout c'
             = stdout c
               ++ map (fun io => result_line (fst io) (snd io))
                    (combine indices outcomes)).
Proof.
  revert k c. induction indices as [|i0 rest IH]; intros k c.
  - exists 0%nat, c. simpl. unfold cli_ret. rewrite !Nat.add_0_r.
    split; [reflexivity|]. split; [lia|]. split; [reflexivity|].
    split; [intros i []|]. split; [exists []; now rewrite app_nil_r|].
    split; [intros i []|]. exists []. split; [reflexivity|].
    simpl. now rewrite app_nil_r.
  - simpl. rewrite cli_bind_run. unfold library at 1.
    destruct (download_index_trace server now disk output_dir start_date
                end_date Hclock i0 (world c)) as (more1 & Htr1).
    destruct (download_index_files server now disk output_dir start_date
                end_date Hclock i0 (world c)) as (r & st1 & Heq & Hf & Hnone).
    rewrite Heq in Htr1 |- *. cbn [snd] in Htr1.
    assert (Hstep : forall k0 line,
               result_line i0 r = line ->
               (r = None -> k0 = k) -> (r <> None -> k0 = S k) ->
               exists n c',
                 cmd_download_loop server now disk rest output_dir start_date
                   end_date k0
                   {| stdout := stdout c ++ [line]; world := st1 |}
                 = (Ok (k + n)%nat, c')
                 /\ (n <= length (i0 :: rest))%nat
                 /\ length (files (world c'))
                    = (length (files (world c)) + n)%nat
                 /\ (forall i, In i (i0 :: rest) ->
                       fetch_always_fails server now start_date end_date i ->
                       (n < length (i0 :: rest))%nat)
                 /\ (exists more, trace (world c') = trace (world c) ++ more)
                 /\ (forall i, In i (i0 :: rest) ->
                       In (index_request now start_date end_date i)
                         (trace (world c')))
                 /\ (exists outcomes,
                       length outcomes = length (i0 :: rest)
                       /\ stdout c'
                          = stdout c
                            ++ map (fun io => result_line (fst io) (snd io))
                                 (combine (i0 :: rest) outcomes))).
    { intros k0 line Hline Hnone0 Hsome0.
      destruct (IH k0 {| stdout := stdout c ++ [line]; world := st1 |})
        as (n & c' & Hrun & Hn & Hlen & Hfail & (more & Hmore) & Hsent
            & outcomes & Hout & Hprinted).
      cbn [world stdout] in *.
      assert (Hfirst : forall i, In i (i0 :: rest) ->
                         In (index_request now start_date end_date i)
                           (trace (world c'))).
      { intros i [<-|Hi]; [|now apply Hsent].
        rewrite Hmore, Htr1. apply in_or_app. left.
        apply in_or_app. right. now left. }
      assert (Hlines : exists outcomes0,
                 length outcomes0 = length (i0 :: rest)
                 /\ stdout c'
                    = stdout c
                      ++ map (fun io => result_line (fst io) (snd io))
                           (combine (i0 :: rest) outcomes0)).
      { exists (r :: outcomes). split; [simpl; now rewrite Hout|].
        rewrite Hprinted, <- app_assoc. simpl. now rewrite Hline. }
      assert (Htrace : exists more0,
                 trace (world c') = trace (world c) ++ more0).
      { rewrite Hmore, Htr1, <- app_assoc. eauto. }
      destruct r as [df|].
      - assert (Hk : k0 = S k) by (apply Hsome0; discriminate).
        subst k0. exists (S n), c'. rewrite Hf, length_app in Hlen. simpl in Hlen.
        split; [rewrite Hrun; f_equal; f_equal; lia|].
        split; [simpl; lia|]. split; [lia|].
        split; [|split; [exact Htrace|split; [exact Hfirst|exact Hlines]]].
        intros i [<-|Hi] Hfails.
        + destruct (Hfails (add_log (world c)
                              (loading_line now start_date end_date i0)))
            as [e He].
          specialize (Hnone e He). discriminate.
        + specialize (Hfail i Hi Hfails). simpl. lia.
      - assert (Hk : k0 = k) by now apply Hnone0.
        subst k0. exists n, c'. rewrite Hf, app_nil_r in Hlen.
        split; [exact Hrun|]. split; [simpl; lia|]. split; [lia|].
        split; [|split; [exact Htrace|split; [exact Hfirst|exact Hlines]]].
        intros i _ _. simpl. lia. }
    destruct r as [df|]; rewrite cli_bind_run, print_run;
      (apply Hstep; [reflexivity|intros; congruence|intros; congruence]).
Qed.

(** X15: [cmd_download] never raises and returns 0 or 1.  It returns 0
    exactly when every index given, counted as often as it was given, had
    its table saved: the files are then as many more as indices were given.
    An index whose fetch fails makes the exit code 1 and does not stop the
    loop: whatever happens to one index, the first request of every index
    given is sent, and between the seven lines of the heading and the two
    of the summary one result line is printed per index, in the order
    given. *)
Theorem cmd_download_exit_code args c :
  exists code c',
    cmd_download server now disk absolute args c = (Ok code, c')
    /\ (code = 0 \/ code = 1)
    /\ (code = 0 <->
        length (files (world c'))
        = (length (files (world c)) + length (args_indices args))%nat)
    /\ (forall i, In i (args_indices args) ->
          fetch_always_fails server now (args_start args) (args_end args) i ->
          code = 1)
    /\ (forall i, In i (args_indices args) ->
          In (index_request now (args_start args) (args_end args) i)
            (trace (world c')))
    /\ (exists heading outcomes summary,
          stdout c'
          = stdout c ++ heading
            ++ map (fun io => result_line (fst io) (snd io))
                 (combine (args_indices args) outcomes)
            ++ summary
          /\ length outcomes = length (args_indices args)
          /\ length heading = 7%nat
          /\ length summary = 2%nat).
Proof.
  unfold cmd_download. cbv zeta.
  repeat (rewrite cli_bind_run, print_run). rewrite cli_bind_run.
  match goal with
  | |- context [cmd_download_loop _ _ _ _ _ _ _ _ ?c0] =>
      destruct (cmd_download_loop_run (args_indices args) (args_output args)
                  (args_start args) (args_end args) 0 c0)
        as (n & c' & -> & Hn & Hlen & Hfail & _ & Hsent & outcomes & Hout
            & Hprinted)
  end.
  repeat (rewrite cli_bind_run, print_run). unfold cli_ret.
  do 2 eexists. split; [reflexivity|]. cbn [world stdout] in *.
  simpl (0 + n)%nat.
  assert (Hlines : exists heading outcomes0 summary,
             (stdout c'
              ++ [str_mul "-" 60])
             ++ [("Итого: " ++ str_nat n ++ "/"
                  ++ str_nat (length (args_indices args))
                  ++ " индексов загружено успешно")%string]
             = stdout c ++ heading
               ++ map (fun io => result_line (fst io) (snd io))
                    (combine (args_indices args) outcomes0)
               ++ summary
             /\ length outcomes0 = length (args_indices args)
             /\ length heading = 7%nat
             /\ length summary = 2%nat).
  { exists [str_mul "=" 60; "MOEX ISS — Загрузка данных"; str_mul "=" 60;
             LF ++ "Индексы: " ++ String.concat ", " (args_indices args);
             "Период: " ++ or_default (args_start args) "2010-01-01"
             ++ " — " ++ or_default (args_end args) "сегодня";
             "Директория: " ++ absolute (args_output args);
             str_mul "-" 60]%string,
      outcomes,
      [str_mul "-" 60;
       "Итого: " ++ str_nat n ++ "/"
       ++ str_nat (length (args_indices args))
       ++ " индексов загружено успешно"]%string.
    split; [|split; [exact Hout|split; reflexivity]].
    rewrite Hprinted, <- !app_assoc. reflexivity. }
  destruct (Nat.eqb_spec n (length (args_indices args))) as [Heq|Hne].
  - split; [now left|]. split; [split; [intros _; lia|reflexivity]|].
    split; [|split; [exact Hsent|exact Hlines]].
    intros i Hi Hfails. specialize (Hfail i Hi Hfails). lia.
  - split; [now right|]. split; [split; [discriminate|intros; lia]|].
    split; [reflexivity|]. split; [exact Hsent|exact Hlines].
Qed.

(** X16: [download-bonds] and [download-equity] never raise and return 0 or 1.
    Exit code 0 means that every index of the registry has its file in the
    output directory; an index of the registry whose fetch fails makes the
    exit code 1. *)
Theorem batch_commands_exit_code cmd registry args c :
  (cmd = cmd_download_bonds server now disk /\ registry = BOND_INDICES)
  \/ (cmd = cmd_download_equity server now disk
      /\ registry = EQUITY_INDICES) ->
  exists code c',
    cmd args c = (Ok code, c')
    /\ (code = 0 \/ code = 1)
    /\ (code = 0 ->
        forall i, In i (map fst registry) ->
          exists df,
            In (csv_path now (batch_output args) i, df) (files (world c')))
    /\ (forall i, In i (map fst registry) ->
          fetch_always_fails server now (batch_start args) (batch_end args)
            i ->
          code = 1).
Proof.
  intros Hcmd.
  assert (Hbatch : exists batch,
             (batch = download_bond_indices server now disk
              /\ registry = BOND_INDICES
              \/ batch = download_equity_indices server now disk
                 /\ registry = EQUITY_INDICES)
             /\ forall results st',
                  batch None (batch_output args) (batch_start args)
                    (batch_end args) (world c) = (Ok results, st') ->
                  exists c',
                    cmd args c
                    = (Ok (if (successful results =? size results)%nat
                           then 0 else 1), c')
                    /\ world c' = st').
  { destruct Hcmd as [[-> ->]|[-> ->]]; eexists; (split; [eauto|]);
      intros results st' Hrun;
      unfold cmd_download_bonds, cmd_download_equity;
      repeat (rewrite cli_bind_run, print_run);
      rewrite cli_bind_run; unfold library at 1;
      cbn [world]; rewrite Hrun; cbv zeta;
      repeat (rewrite cli_bind_run, print_run); unfold cli_ret;
      eexists; split; reflexivity. }
  destruct Hbatch as (batch & Hreg & Hcode).
  destruct (batch_run server now disk (batch_output args) (batch_start args)
              (batch_end args) Hclock batch registry None (world c) Hreg)
    as (line & results & st1 & st' & Heach & Hrun & Hfiles & _).
  cbv zeta in Heach.
  destruct (Hcode results st' Hrun) as (c' & Hcmd' & Hworld).
  destruct (download_each_files server now disk (batch_output args)
              (batch_start args) (batch_end args) Hclock (map fst registry)
              ∅ (add_log (world c) line))
    as (results1 & st2 & Heq1 & _ & _ & Hin & _).
  destruct (download_each_run server now disk (batch_output args)
              (batch_start args) (batch_end args) Hclock (map fst registry)
              ∅ (add_log (world c) line))
    as (results2 & st3 & Heq2 & _ & Hsome & _ & Hfalse).
  rewrite Heach in Heq1, Heq2.
  injection Heq1 as <- <-. injection Heq2 as <- <-.
  exists (if (successful results =? size results)%nat then 0 else 1), c'.
  split; [exact Hcmd'|]. rewrite Hworld, Hfiles.
  destruct (Nat.eqb_spec (successful results) (size results)) as [Hall|Hnot].
  - split; [now left|]. split.
    + intros _ i Hi. apply Hin; [assumption|].
      destruct (Hsome i Hi) as [[b Hb] _].
      now rewrite Hb, (successful_all results i b Hall Hb).
    + intros i Hi Hfails.
      pose proof (successful_some_failed results i (Hfalse i Hi Hfails)).
      lia.
  - split; [now right|]. split; [discriminate|reflexivity].
Qed.

(** X17: [info] looks the code up in upper case, and whatever board the
    registry records for it, it asks the exchange for the board [SNDX] and
    for the last 30 days.  Nothing catches what the fetch raises: a failed
    request ends the command with that exception instead of an exit code;
    whenever the fetch returns, with or without rows and for a code the
    registry does not know as well, the exit code is 0.  No file is
    written. *)
Theorem cmd_info_asks_board_SNDX_and_catches_nothing index c :
  let index_code := upper index in
  let fetched :=
    run server now "stock" "index" "SNDX" index_code None None 24 (world c) in
  let out := cmd_info server now upper str_cell index c in
  (exists more,
      trace (world (snd out))
      = trace (world c)
        ++ page_request (history_url "stock" "index" "SNDX" index_code)
             {| p_from := strftime_Y_m_d (now - 30);
                p_till := strftime_Y_m_d now;
                p_interval := 24; p_start := 0; p_lang := None |} 0
           :: more)
  /\ files (world (snd out)) = files (world c)
  /\ match fst fetched with
     | Raise e => fst out = Raise e
     | Ok _ => fst out = Ok 0
     end.
Proof.
  intros index_code fetched out.
  destruct (run_trace server now "stock" "index" "SNDX" index_code None None
              24 Hclock (world c)) as (offs & Htr).
  pose proof (call_files server now "stock" "index" "SNDX" index_code None
                None 24 Hclock (world c)) as Hfiles.
  fold fetched in Htr, Hfiles.
  assert (Hout : exists printed,
             out = (match fst fetched with
                    | Raise e => Raise e
                    | Ok _ => Ok 0
                    end,
                    {| stdout := printed; world := snd fetched |})).
  { subst out fetched. unfold cmd_info, run, get_index_history.
    fold index_code.
    set (found := match descriptor_get index_code BOND_DESCRIPTORS with
                  | Some info => Some (info, "облигации"%string)
                  | None =>
                      match descriptor_get index_code EQUITY_DESCRIPTORS with
                      | Some info => Some (info, "акции"%string)
                      | None => None
                      end
                  end).
    cbv zeta.
    repeat (rewrite cli_bind_run, print_run). rewrite cli_bind_run.
    match goal with
    | |- context [match found with Some _ => _ | None => _ end ?c0] =>
        assert (Hcard : only_prints
                          (match found with
                           | Some (info, category) =>
                               print (LF ++ "  Код:         " ++ index_code) ;;>
                               print ("  Название:    " ++ name_ru info) ;;>
                               print ("  Категория:   " ++ category) ;;>
                               print ("  Тип:         " ++ type info) ;;>
                               print ("  Режим:       " ++ board info) ;;>
                               print ("  Описание:    " ++ description info)
                           | None =>
                               print (LF ++ "  Индекс " ++ index_code
                                      ++ " не найден в справочнике.") ;;>
                               print "  Попробуйте команду 'list' для просмотра доступных индексов."
                           end)%string)
          by (destruct found as [[info category]|];
              repeat apply only_prints_seq; apply only_prints_print);
        destruct (Hcard c0) as (card & ->)
    end.
    repeat (rewrite cli_bind_run, print_run). rewrite cli_bind_run.
    unfold library at 1. cbn [world].
    destruct (get_historical_data _ _ _ _ _ _ _ _ _ _) as [[df|e] st'];
      [|eexists; reflexivity].
    rewrite cli_bind_run.
    match goal with
    | |- context [(if negb (df_empty df) then ?a else ?b) ?c0] =>
        assert (Hlast : only_prints (if negb (df_empty df) then a else b))
          by (destruct (df_empty df); cbn [negb];
              repeat apply only_prints_seq; apply only_prints_print);
        destruct (Hlast c0) as (lines & ->)
    end.
    eexists. reflexivity. }
  destruct Hout as (printed & ->).
  destruct fetched as [[df|e] st']; simpl in *;
    (split; [eauto|]); split; auto.
Qed.

End CommandRuns.

(** * Further scenarios, run *)

(** A page of ten rows whose cursor row has lost its total. *)
Definition short_cursor_server : http_server :=
  fun _ _ =>
    ok_response {| history := Some (sample_page 0 10);
                   history_cursor := Some (Some [[0]]) |}.

(** A disk that takes directories and refuses files. *)
Definition full_disk : disk_model :=
  fun op =>
    match op with
    | Mkdir _ => None
    | ToCsv _ =>
        Some {| exn_cls := OSError;
                exn_msg := "[Errno 28] No space left on device" |}
    end.

(** [str.upper] on ASCII text, and a cell printed as its text. *)
Fixpoint ascii_upper (s : string) : string :=
  match s with
  | EmptyString => EmptyString
  | String ch s' =>
      let n := N_of_ascii ch in
      String (if ((97 <=? n) && (n <=? 122))%N then ascii_of_N (n - 32)
              else ch)
        (ascii_upper s')
  end.

Definition cell_text (v : value) : string :=
  match v with
  | JNull => "None"
  | JNum lexeme => lexeme
  | JStr s => s
  | Timestamp t =>
      match timestamp_strftime t with
      | JStr s => (s ++ " 00:00:00")%string
      | _ => "NaT"
      end
  end.

Definition empty_console : console :=
  {| stdout := []; world := initial_state |}.

Definition RGBI_url : string :=
  "http://iss.moex.com/iss/history/engines/stock/markets/index/boards/SNDX/securities/RGBI.json".

(** Every fetch of RGBI fails on the server that times out on its URL. *)
Lemma RGBI_always_fails start_date end_date :
  fetch_always_fails (H:=stable_pandas) (flaky_server RGBI_url) today
    start_date end_date "RGBI".
Proof.
  intros st. exists {| exn_cls := Timeout; exn_msg := "Read timed out." |}.
  apply fetch_fails; [exact today_ok|]. intros tr. reflexivity.
Qed.

(** Scenario B: three requests, at 0, 100 and 200. *)
Lemma requests_of_a_call_witness :
  let r := run (H:=stable_pandas) (paged_server 250 250) today
             "stock" "index" "SNDX" "IMOEX" None None 24 initial_state in
  exists offs,
    map (fun q => p_start (req_params q)) (trace (snd r)) = 0%nat :: offs
    /\ StronglySorted lt (0%nat :: offs)
    /\ Forall (fun q => p_lang (req_params q) = Some "ru"%string)
         (trace (snd r)).
Proof.
  destruct (requests_of_a_call (H:=stable_pandas) (paged_server 250 250)
              today "stock" "index" "SNDX" "IMOEX" None None 24 today_ok
              initial_state) as (offs & Htr & Hs & Hreq).
  cbv zeta. exists offs. rewrite Htr.
  change (trace initial_state) with (@nil request). rewrite app_nil_l.
  split; [|split; [exact Hs|]].
  - rewrite map_map.
    rewrite (map_ext _ (fun k => k)) by (intros k; now rewrite Hreq).
    now rewrite map_id.
  - apply List.Forall_map, List.Forall_forall. intros k _.
    now rewrite Hreq.
Defined.

(** Fifty rows in the first page and a cursor that declares thirty. *)
Lemma first_page_reaching_the_total_is_the_only_request_witness :
  let r := run (H:=stable_pandas) (paged_server 50 30) today
             "stock" "index" "SNDX" "IMOEX" None None 24 initial_state in
  map (fun q => p_start (req_params q)) (trace (snd r)) = [0%nat]
  /\ fst r = convert_and_sort (H:=stable_pandas)
               (frame_of_block (sample_page 0 50)).
Proof.
  assert (Hle : 30 <= Z.of_nat (length (data (sample_page 0 50))))
    by (vm_compute; discriminate).
  destruct (first_page_reaching_the_total_is_the_only_request
              (H:=stable_pandas) (paged_server 50 30) today "stock" "index"
              "SNDX" "IMOEX" None None 24 today_ok initial_state
              (sample_doc 0 50 30) (sample_page 0 50) eq_refl eq_refl
              (or_intror (ex_intro _ 30 (conj eq_refl Hle))))
    as [Htr Hres].
  cbv zeta. rewrite Htr. split; [reflexivity|exact Hres].
Defined.


Lemma cursor_row_without_total_raises_IndexError_witness :
  let r := run (H:=stable_pandas) short_cursor_server today
             "stock" "index" "SNDX" "IMOEX" None None 24 initial_state in
  exn_cls <$> match fst r with Raise e => Some e | Ok _ => None end
  = Some IndexError
  /\ length (trace (snd r)) = 1%nat
  /\ logs (snd r) = [].
Proof.
  destruct (cursor_row_without_total_raises_IndexError (H:=stable_pandas)
              short_cursor_server today "stock" "index" "SNDX" "IMOEX"
              None None 24 today_ok initial_state
              {| history := Some (sample_page 0 10);
                 history_cursor := Some (Some [[0]]) |}
              (sample_page 0 10) [0] [] eq_refl eq_refl eq_refl
              ltac:(simpl; lia))
    as (Hres & Htr & Hlogs).
  cbv zeta. rewrite Hres, Htr, Hlogs. repeat split.
Defined.

(** Two rows in one page: the table has the page's columns and its two
    rows, their dates converted. *)
Lemma table_is_the_pages_served_witness :
  let r := run (H:=stable_pandas) two_rows_one_date today
             "stock" "index" "SNDX" "IMOEX" None None 24 initial_state in
  exists df',
    fst r = Ok df'
    /\ df_columns df' = ["TRADEDATE"; "CLOSE"]%string
    /\ len df' = 2%nat.
Proof.
  cbv zeta. eexists. split; [vm_compute; reflexivity|].
  match goal with
  | |- df_columns ?df = _ /\ _ =>
      destruct (table_is_the_pages_served (H:=stable_pandas)
                  two_rows_one_date today "stock" "index" "SNDX" "IMOEX"
                  None None 24 today_ok initial_state df)
        as [(_ & d & Hdec & Hnone)
           |(d & b & more & Hdec & Hb & Hrep & Hlen & Hschema)];
        [vm_compute; reflexivity| |]
  end.
  - injection Hdec as <-. discriminate.
  - injection Hdec as <-. injection Hb as <-.
    assert (Hmore : more = []).
    { destruct more as [|p more']; [reflexivity|exfalso].
      inversion Hrep as [|? ? ? ? ? ? _ _ Hrest]; subst.
      inversion Hrest as [|? ? ? d' ? ? _ Hp _]; subst.
      apply history_rows_nonempty in Hp.
      destruct (data p) as [|row0 rows0] eqn:Hd; [now apply Hp|].
      unfold len in Hlen. simpl in Hlen. rewrite Hd in Hlen.
      simpl in Hlen. lia. }
    subst more. split; [|reflexivity].
    apply Hschema. repeat constructor.
Defined.


(** Scenario E: no file, and one line in the log. *)
Lemma footprint_of_a_call_witness :
  let r := run (H:=stable_pandas) (failing_server 1 250 250) today
             "stock" "index" "SNDX" "IMOEX" None None 24 initial_state in
  files (snd r) = [] /\ (length (logs (snd r)) <= 1)%nat.
Proof.
  destruct (footprint_of_a_call (H:=stable_pandas)
              (failing_server 1 250 250) today "stock" "index" "SNDX"
              "IMOEX" None None 24 today_ok initial_state)
    as (Hfiles & lines & Hlogs & Hcase).
  cbv zeta. split; [exact Hfiles|]. rewrite Hlogs.
  change (logs initial_state) with (@nil log_record). rewrite app_nil_l.
  destruct (fst _) as [df|e].
  - destruct Hcase as (l & -> & _). simpl. lia.
  - destruct Hcase as [->|(_ & l & -> & _)]; simpl; lia.
Defined.


Lemma download_index_returns_what_it_saved_witness :
  exists r st',
    download_index (H:=stable_pandas) two_rows_one_date today good_disk
      "IMOEX" "./data" None None initial_state = (Ok r, st')
    /\ match r with
       | Some df => map fst (files st') = ["./data/IMOEX_20240131.csv"%string]
       | None => files st' = []
       end.
Proof.
  destruct (download_index_returns_what_it_saved (H:=stable_pandas)
              two_rows_one_date today good_disk "./data" None None today_ok
              "IMOEX" initial_state) as (r & st' & Heq & Hcase).
  exists r, st'. split; [exact Heq|].
  destruct r as [df|]; [|exact Hcase].
  destruct Hcase as (-> & _). reflexivity.
Defined.

Lemma saved_dates_are_canonical_witness :
  exists df st',
    download_index (H:=stable_pandas) two_rows_one_date today good_disk
      "IMOEX" "./data" None None initial_state = (Ok (Some df), st')
    /\ Forall canonical_date_cell (column_values 0 (df_rows df)).
Proof.
  do 2 eexists. split; [vm_compute; reflexivity|].
  eapply (saved_dates_are_canonical (H:=stable_pandas) two_rows_one_date
            today good_disk "./data" None None today_ok "IMOEX"
            initial_state).
  - vm_compute. reflexivity.
  - reflexivity.
  - intros fetched Hf. vm_compute in Hf. injection Hf as <-.
    repeat constructor.
Defined.

(** Scenario A, through [download_index], on a disk that is full. *)
Lemma download_index_without_data_witness :
  exists st',
    download_index (H:=stable_pandas) (paged_server 0 0) today full_disk
      "IMOEX" "./data" None None initial_state = (Ok None, st')
    /\ length (trace st') = 1%nat
    /\ files st' = []
    /\ map lvl (logs st') = [INFO; WARNING; WARNING].
Proof.
  destruct (download_index_without_data (H:=stable_pandas) (paged_server 0 0)
              today full_disk "./data" None None today_ok "IMOEX"
              initial_state (sample_doc 0 0 0) eq_refl eq_refl)
    as (st' & Heq & Htr & Hfiles & Hlogs & Hlvl).
  exists st'. split; [exact Heq|]. rewrite Htr, Hfiles, Hlogs.
  split; [reflexivity|]. split; [reflexivity|]. exact Hlvl.
Defined.


Lemma download_index_disk_failure_witness :
  exists st',
    download_index (H:=stable_pandas) two_rows_one_date today full_disk
      "IMOEX" "./data" None None initial_state = (Ok None, st')
    /\ files st' = []
    /\ map lvl (logs st') = [INFO; INFO; ERROR].
Proof.
  eexists. split; [|split].
  - eapply (download_index_disk_failure (H:=stable_pandas) two_rows_one_date
              today full_disk "./data" None None today_ok "IMOEX"
              initial_state).
    + vm_compute. reflexivity.
    + reflexivity.
    + right. split; [reflexivity|]. split; [|reflexivity].
      eexists. vm_compute. reflexivity.
  - reflexivity.
  - vm_compute. reflexivity.
Defined.


(** A code given twice has one entry. *)
Lemma batch_gives_every_code_one_entry_witness :
  exists results st',
    download_bond_indices (H:=stable_pandas) two_rows_one_date today
      good_disk (Some ["RGBI"; "RGBI"]%string) "./data/bonds" None None
      initial_state = (Ok results, st')
    /\ dom results = ({["RGBI"%string]} : gset string)
    /\ (size results < 2)%nat.
Proof.
  destruct (batch_gives_every_code_one_entry (H:=stable_pandas)
              two_rows_one_date today good_disk "./data/bonds" None None
              today_ok _ BOND_INDICES (Some ["RGBI"; "RGBI"]%string)
              initial_state (or_introl (conj eq_refl eq_refl)))
    as (results & st' & Heq & Hdom & _ & _ & Hdup).
  exists results, st'. split; [exact Heq|]. split.
  - rewrite Hdom, !list_to_set_cons, list_to_set_nil.
    now rewrite (right_id_L ∅ (∪)), (idemp_L (∪)).
  - apply Hdup. intros Hn. inversion Hn as [|? ? Hin _]; subst.
    apply Hin. now left.
Defined.


Lemma batch_success_means_a_file_witness :
  exists results st',
    download_equity_indices (H:=stable_pandas) two_rows_one_date today
      good_disk (Some ["IMOEX"; "RTSI"]%string) "./data/equity" None None
      initial_state = (Ok results, st')
    /\ forall c, results !! c = Some true ->
         exists df,
           In (csv_path today "./data/equity" c, df) (files st').
Proof.
  destruct (batch_success_means_a_file (H:=stable_pandas) two_rows_one_date
              today good_disk "./data/equity" None None today_ok _
              EQUITY_INDICES (Some ["IMOEX"; "RTSI"]%string) initial_state
              (or_intror (conj eq_refl eq_refl)))
    as (results & st' & Heq & Hfile & _).
  exists results, st'. split; [exact Heq|].
  intros c Hc. now apply Hfile.
Defined.


Lemma download_to_csv_tells_whether_it_saved_witness :
  exists ok st',
    download_to_csv (H:=stable_pandas) two_rows_one_date today good_disk
      "IMOEX" "imoex.csv" None None "SNDX" initial_state = (Ok ok, st')
    /\ (if ok then map fst (files st') = ["imoex.csv"%string]
        else files st' = [])
    /\ exists more,
         map (fun q => p_from (req_params q)) (trace st')
         = "2024-01-01"%string :: more.
Proof.
  destruct (download_to_csv_tells_whether_it_saved (H:=stable_pandas)
              two_rows_one_date today good_disk "IMOEX" "imoex.csv" None None
              "SNDX" today_ok initial_state)
    as (ok & st' & Heq & Hcase & more & Htr).
  exists ok, st'. split; [exact Heq|]. split.
  - destruct ok; [|exact Hcase].
    destruct Hcase as (df & fetched & -> & _). reflexivity.
  - rewrite Htr. eexists. reflexivity.
Defined.


Lemma download_to_csv_saves_what_the_fetch_returns_witness :
  fst (download_to_csv (H:=stable_pandas) two_rows_one_date today good_disk
         "IMOEX" "imoex.csv" None None "SNDX" initial_state) = Ok true.
Proof.
  assert (Hok : exists fetched,
             fst (run (H:=stable_pandas) two_rows_one_date today "stock"
                    "index" "SNDX" "IMOEX" (option_map DateString None)
                    (option_map DateString None) 24 initial_state)
             = Ok fetched
             /\ df_empty fetched = false
             /\ has_column 0 (df_rows fetched)
             /\ df_columns fetched = ["TRADEDATE"; "CLOSE"]%string).
  { eexists. split; [vm_compute; reflexivity|].
    split; [reflexivity|]. split; [repeat constructor|reflexivity]. }
  destruct Hok as (fetched & Hfetch & Hempty & Hcol & Hcols).
  refine (download_to_csv_saves_what_the_fetch_returns (H:=stable_pandas)
            two_rows_one_date today good_disk "IMOEX" "imoex.csv" None None
            "SNDX" today_ok initial_state fetched Hfetch Hempty _).
  intros i Hi. rewrite Hcols in Hi. injection Hi as <-. exact Hcol.
Defined.


(** Three codes on the command line; every request for the second one
    times out. *)
Lemma cmd_download_exit_code_witness :
  exists c',
    cmd_download (H:=stable_pandas) (flaky_server RGBI_url) today good_disk
      (fun path => ("/home/user/" ++ path)%string)
      {| args_indices := ["RGBITR"; "RGBI"; "RUCBITR"]%string;
         args_start := None; args_end := None; args_output := "data" |}
      empty_console = (Ok 1, c')
    /\ In (index_request today None None "RUCBITR") (trace (world c')).
Proof.
  destruct (cmd_download_exit_code (H:=stable_pandas) (flaky_server RGBI_url)
              today good_disk (fun path => ("/home/user/" ++ path)%string)
              today_ok
              {| args_indices := ["RGBITR"; "RGBI"; "RUCBITR"]%string;
                 args_start := None; args_end := None;
                 args_output := "data" |} empty_console)
    as (code & c' & Heq & _ & _ & Hfail & Hsent & _).
  exists c'. split.
  - rewrite Heq. f_equal. f_equal.
    apply (Hfail "RGBI"%string); [simpl; tauto|].
    apply RGBI_always_fails.
  - apply Hsent. simpl. tauto.
Defined.


Lemma batch_commands_exit_code_witness :
  exists c',
    cmd_download_bonds (H:=stable_pandas) (flaky_server RGBI_url) today
      good_disk
      {| batch_start := None; batch_end := None;
         batch_output := "./data/bonds" |}
      empty_console = (Ok 1, c').
Proof.
  destruct (batch_commands_exit_code (H:=stable_pandas)
              (flaky_server RGBI_url) today good_disk today_ok _ BOND_INDICES
              {| batch_start := None; batch_end := None;
                 batch_output := "./data/bonds" |} empty_console
              (or_introl (conj eq_refl eq_refl)))
    as (code & c' & Heq & _ & _ & Hfail).
  exists c'. rewrite Heq. f_equal. f_equal.
  apply (Hfail "RGBI"%string); [simpl; tauto|].
  apply RGBI_always_fails.
Defined.


(** [info rtsi]: the registry records the board RTSI, the request goes to
    SNDX. *)
Lemma cmd_info_asks_board_SNDX_and_catches_nothing_witness :
  let out := cmd_info (H:=stable_pandas) two_rows_one_date today ascii_upper
               cell_text "rtsi" empty_console in
  registry_get "RTSI" EQUITY_INDICES = Some "RTSI"%string
  /\ (exists more,
        map req_url (trace (world (snd out)))
        = ("http://iss.moex.com/iss/history/engines/stock/markets/index/boards/SNDX/securities/RTSI.json"%string
           :: more))
  /\ files (world (snd out)) = [].
Proof.
  destruct (cmd_info_asks_board_SNDX_and_catches_nothing (H:=stable_pandas)
              two_rows_one_date today ascii_upper cell_text today_ok "rtsi"
              empty_console) as ((more & Htr) & Hfiles & _).
  cbv zeta. split; [reflexivity|].
  rewrite Htr, Hfiles. split; [|reflexivity].
  eexists. reflexivity.
Defined.
